(** * The negotiation chat components: message log, send, upload and extraction

    A shallow embedding of [src/components/AITextChat.tsx], which holds two
    React components: [AITextChat] (a text chat that forwards the prompt to a
    chat-completion service) and [ConversationImageAnalyzer] (screenshot
    upload, structured analysis of the reply, follow-up chat).

    Layout of the development:
    - [JS]: the fragment of the JavaScript runtime the handlers rely on
      (strings as UTF-16 code units, values, property access, truthiness,
      [JSON.parse], the brace regular expression);
    - [Eff]: the effects of a handler, as a trace of actions with exceptions;
    - [TextChat] and [Analyzer]: the two components, handler by handler;
    - [TextView] and [AnalyzerView]: what the render enables and shows;
    - the properties of the message log, of extraction and of upload;
    - the handlers by cases, the analysis, the invariants of a session, the
      upload of the text chat, the follow-up chat and the render. *)

From Stdlib Require Import ZArith NArith Ascii String Lia.
From Stdlib Require Import DecimalString DecimalPos DecimalZ.
From stdpp Require Import base list.

#[local] Set Warnings "-register-all".

Local Open Scope N_scope.
Local Open Scope list_scope.

(* ===================================================================== *)
(** ** The JavaScript runtime fragment *)
(* ===================================================================== *)

Module JS.

(** A JavaScript string is a sequence of UTF-16 code units. *)
Abbreviation char16 := N (only parsing).
Abbreviation jsstring := (list N) (only parsing).

(** An ASCII literal of the source, one code unit per character. *)
Definition lit (s : string) : jsstring :=
  map N_of_ascii (list_ascii_of_string s).

(** [chr a c]: the code unit [c] is the ASCII character [a]. *)
Definition chr (a : ascii) (c : char16) : bool := N.eqb c (N_of_ascii a).

Fixpoint jsstring_eqb (s t : jsstring) : bool :=
  match s, t with
  | [], [] => true
  | a :: s', b :: t' => (a =? b) && jsstring_eqb s' t'
  | _, _ => false
  end.

(** *** Values

    The values that [JSON.parse] can return, plus [undefined], which
    property access produces.  A number keeps the literal it was written
    with; [Number_of_literal] below gives the double that it denotes. *)
Inductive jsval :=
| JUndefined
| JNull
| JBool (b : bool)
| JNum (literal : jsstring)
| JStr (s : jsstring)
| JArr (items : list jsval)
| JObj (props : list (jsstring * jsval)).

(** Exceptions.  [Error] is what the source throws with [new Error(...)];
    the other three are raised by the runtime ([fetch] rejecting, a property
    read on [undefined] or [null] or a call of a non-function, a JSON text
    that does not parse). *)
Inductive exn :=
| Error (message : jsstring)
| TypeError
| SyntaxError
| NetworkFailure.

Inductive result (A : Type) :=
| Return (a : A)
| Throw (e : exn).
Arguments Return {A} a.
Arguments Throw {A} e.

(** *** String primitives *)

(** The code units [String.prototype.trim] strips: WhiteSpace and
    LineTerminator of ECMAScript. *)
Definition is_white_space (c : char16) : bool :=
  (c =? 9) || (c =? 10) || (c =? 11) || (c =? 12) || (c =? 13) || (c =? 32)
  || (c =? 160) || (c =? 5760) || ((8192 <=? c) && (c <=? 8202))
  || (c =? 8232) || (c =? 8233) || (c =? 8239) || (c =? 8287)
  || (c =? 12288) || (c =? 65279).

Fixpoint trimStart (s : jsstring) : jsstring :=
  match s with
  | c :: r => if is_white_space c then trimStart r else s
  | [] => []
  end.

Definition trim (s : jsstring) : jsstring :=
  rev (trimStart (rev (trimStart s))).

(** [s.startsWith(p)] *)
Fixpoint startsWith (p s : jsstring) : bool :=
  match p, s with
  | [], _ => true
  | a :: p', b :: s' => (a =? b) && startsWith p' s'
  | _ :: _, [] => false
  end.

(** [s.slice(0, n)] for [n >= 0] *)
Definition slice0 (n : nat) (s : jsstring) : jsstring := take n s.

(** [s.toLowerCase()] on the letters A-Z.  This is the whole of it on a
    string of ASCII; the case tables of the other scripts belong to the
    runtime and are left as the identity, so what is proved of a lower-cased
    text below is stated for strings of ASCII. *)
Definition toLowerCase (s : jsstring) : jsstring :=
  map (fun c => if (65 <=? c) && (c <=? 90) then c + 32 else c) s.

(** [s.split(sep)] for a one-unit separator. *)
Fixpoint split (sep : char16) (s : jsstring) : list jsstring :=
  match s with
  | [] => [[]]
  | c :: r =>
      if c =? sep then [] :: split sep r
      else match split sep r with
           | w :: ws => (c :: w) :: ws
           | [] => [[c]]
           end
  end.

(** [n.toString()] for an integer [n] in the range of [Date.now()], where
    the result is the plain decimal numeral. *)
Definition Number_toString (n : Z) : jsstring :=
  lit (NilZero.string_of_int (Z.to_int n)).

(** *** Numbers

    A number of JavaScript is an IEEE 754 double.  [Number_of_literal] is
    the double that a numeral denotes (the nearest one, ties to even, with
    underflow to zero and overflow to infinity), and [print_number] is
    [Number::toString]: the shortest digits that denote the same double,
    laid out plainly between 1e-7 and 1e21 and with an exponent elsewhere.
    A finite double that is not zero is kept as [f * 2^q], with [f] below
    [2^53] and [q] from -1074 up to 971.  The two zeros are kept as one:
    they print alike and are both falsy. *)

Definition is_digit (c : char16) : bool := (48 <=? c) && (c <=? 57).

Fixpoint leading_digits (s : jsstring) : jsstring * jsstring :=
  match s with
  | c :: r =>
      if is_digit c then let (d, t) := leading_digits r in (c :: d, t) else ([], s)
  | [] => ([], [])
  end.

Fixpoint digits_value (acc : Z) (s : jsstring) : Z :=
  match s with
  | c :: r => digits_value (acc * 10 + Z.of_N (c - 48)) r
  | [] => acc
  end.

(** A numeral read as a sign, its digits and a power of ten. *)
Record numeral := { num_negative : bool; num_digits : Z; num_power : Z }.

Definition read_numeral (l : jsstring) : numeral :=
  let (neg, s) := match l with
                  | c :: r => if chr "-" c then (true, r) else (false, l)
                  | [] => (false, [])
                  end in
  let (int, s1) := leading_digits s in
  let (frac, s2) := match s1 with
                    | c :: r => if chr "." c then leading_digits r else ([], s1)
                    | [] => ([], [])
                    end in
  let exp := match s2 with
             | c :: r =>
                 if chr "e" c || chr "E" c then
                   match r with
                   | x :: r' =>
                       if chr "-" x then (- digits_value 0 (fst (leading_digits r')))%Z
                       else if chr "+" x then digits_value 0 (fst (leading_digits r'))
                       else digits_value 0 (fst (leading_digits r))
                   | [] => 0%Z
                   end
                 else 0%Z
             | [] => 0%Z
             end in
  {| num_negative := neg;
     num_digits := digits_value 0 (int ++ frac);
     num_power := (exp - Z.of_nat (length frac))%Z |}.

Inductive number :=
| NumZero
| NumFinite (negative : bool) (f q : Z)
| NumInfinity (negative : bool).

Local Open Scope Z_scope.

(** [a / b] rounded to the nearest integer, ties to even. *)
Definition nearest_even (a b : Z) : Z :=
  let q := a / b in
  match 2 * (a mod b) ?= b with
  | Lt => q
  | Gt => q + 1
  | Eq => if Z.even q then q else q + 1
  end.

Definition at_least_pow2 (num den p : Z) : bool :=
  if 0 <=? p then den * 2 ^ p <=? num else den <=? num * 2 ^ (- p).

(** The double nearest to [num / den], for [num] and [den] positive. *)
Definition round_ratio (negative : bool) (num den : Z) : number :=
  let p0 := Z.log2 num - Z.log2 den in
  let p := if at_least_pow2 num den p0 then p0 else p0 - 1 in
  let q := Z.max (p - 52) (-1074) in
  let f := if 0 <=? q then nearest_even num (den * 2 ^ q)
           else nearest_even (num * 2 ^ (- q)) den in
  let (f, q) := if f =? 2 ^ 53 then (2 ^ 52, q + 1) else (f, q) in
  if f =? 0 then NumZero
  else if 971 <? q then NumInfinity negative
  else NumFinite negative f q.

(** The double nearest to [s * 10^e], for [s] positive. *)
Definition scaled (negative : bool) (s e : Z) : number :=
  if 0 <=? e then round_ratio negative (s * 10 ^ e) 1
  else round_ratio negative s (10 ^ (- e)).

(** The two tests on the size of the numeral spare the powers of ten of a
    numeral that is out of range by far. *)
Definition Number_of_literal (l : jsstring) : number :=
  let d := read_numeral l in
  let m := num_digits d in
  if m =? 0 then NumZero
  else
    let least := Z.log2 m * 30102 / 100000 + 1 in
    let most := (Z.log2 m + 1) * 30103 / 100000 + 1 in
    if 310 <? least + num_power d then NumInfinity (num_negative d)
    else if most + num_power d <? -330 then NumZero
    else scaled (num_negative d) m (num_power d).

Definition below_pow10 (xn xd n : Z) : bool :=
  if 0 <=? n then xn <? xd * 10 ^ n else xn * 10 ^ (- n) <? xd.

(** The least [n], from a start below it, with [xn / xd < 10^n]. *)
Fixpoint decade (fuel : nat) (xn xd n : Z) : Z :=
  match fuel with
  | O => n
  | S k => if below_pow10 xn xd n then n else decade k xn xd (n + 1)
  end.

Definition same_double (a b : number) : bool :=
  match a, b with
  | NumFinite _ f q, NumFinite _ g r => (f =? g) && (q =? r)
  | _, _ => false
  end.

(** Among the multiples of [10^e] next to [xn / xd], the one that denotes
    the double [f * 2^q], the nearer one if both do. *)
Definition shortest_at (f q xn xd e : Z) : option Z :=
  let (tn, td) := if 0 <=? e then (xn, xd * 10 ^ e) else (xn * 10 ^ (- e), xd) in
  let lo := tn / td in
  let hi := lo + 1 in
  let ok_lo := (0 <? lo) && same_double (scaled false lo e) (NumFinite false f q) in
  let ok_hi := same_double (scaled false hi e) (NumFinite false f q) in
  match ok_lo, ok_hi with
  | true, true =>
      Some match 2 * (tn mod td) ?= td with
           | Lt => lo
           | Gt => hi
           | Eq => if Z.even lo then lo else hi
           end
  | true, false => Some lo
  | false, true => Some hi
  | false, false => None
  end.

(** The digits [s] and the power [e] of the shortest decimal [s * 10^e]
    that denotes the double, tried with [k] digits and more. *)
Fixpoint shortest (fuel : nat) (f q xn xd n k : Z) : Z * Z :=
  match fuel with
  | O => (f, 0)
  | S j =>
      match shortest_at f q xn xd (n - k) with
      | Some s => (s, n - k)
      | None => shortest j f q xn xd n (k + 1)
      end
  end.

Fixpoint strip_zeros (fuel : nat) (s e : Z) : Z * Z :=
  match fuel with
  | O => (s, e)
  | S j =>
      if (s mod 10 =? 0) && (0 <? s) then strip_zeros j (s / 10) (e + 1) else (s, e)
  end.

Definition zeros (n : Z) : jsstring := repeat 48%N (Z.to_nat n).

Definition print_finite (f q : Z) : jsstring :=
  let (xn, xd) := if 0 <=? q then (f * 2 ^ q, 1) else (f, 2 ^ (- q)) in
  let n := decade 8 xn xd ((Z.log2 xn - Z.log2 xd) * 30103 / 100000 - 2) in
  let (s0, e0) := shortest 17 f q xn xd n 1 in
  let (s, e) := strip_zeros 20 s0 e0 in
  let D := Number_toString s in
  let k := Z.of_nat (length D) in
  let n := e + k in
  if (k <=? n) && (n <=? 21) then D ++ zeros (n - k)
  else if (0 <? n) && (n <=? 21) then take (Z.to_nat n) D ++ lit "." ++ drop (Z.to_nat n) D
  else if (-6 <? n) && (n <=? 0) then lit "0." ++ zeros (- n) ++ D
  else
    take 1 D ++ (if k =? 1 then [] else lit "." ++ drop 1 D)
    ++ lit "e" ++ (if 0 <=? n - 1 then lit "+" else lit "-")
    ++ Number_toString (Z.abs (n - 1)).

Local Close Scope Z_scope.

(** [Number::toString] *)
Definition print_number (x : number) : jsstring :=
  match x with
  | NumZero => lit "0"
  | NumInfinity negative => (if negative then lit "-" else []) ++ lit "Infinity"
  | NumFinite negative f q => (if negative then lit "-" else []) ++ print_finite f q
  end.

(** *** Truthiness *)

(** [ToBoolean]: a number is falsy when it is zero, which a numeral is
    when its digits are zeros or when it rounds to zero. *)
Definition truthy (v : jsval) : bool :=
  match v with
  | JUndefined | JNull => false
  | JBool b => b
  | JNum l => match Number_of_literal l with NumZero => false | _ => true end
  | JStr s => match s with [] => false | _ :: _ => true end
  | JArr _ | JObj _ => true
  end.

(** [a || b] *)
Definition or_else (a b : jsval) : jsval := if truthy a then a else b.

(** *** Property access *)

(** The last binding of a key wins, as in an object built by [JSON.parse]
    from a text that repeats the key. *)
Fixpoint lookup_prop (k : jsstring) (props : list (jsstring * jsval)) : option jsval :=
  match props with
  | [] => None
  | (k', v) :: r =>
      match lookup_prop k r with
      | Some w => Some w
      | None => if jsstring_eqb k k' then Some v else None
      end
  end.

(** [v.name] for a property name that no built-in prototype defines
    ([choices], [message], [content], [sentiment], ...): a [TypeError] on
    [undefined] and [null], the own property of an object, [undefined]
    elsewhere. *)
Definition get (v : jsval) (name : string) : result jsval :=
  match v with
  | JUndefined | JNull => Throw TypeError
  | JObj props =>
      match lookup_prop (lit name) props with
      | Some w => Return w
      | None => Return JUndefined
      end
  | _ => Return JUndefined
  end.

(** [v?.name] *)
Definition get_opt (v : jsval) (name : string) : result jsval :=
  match v with
  | JUndefined | JNull => Return JUndefined
  | _ => get v name
  end.

(** [v[0]] *)
Definition get0 (v : jsval) : result jsval :=
  match v with
  | JUndefined | JNull => Throw TypeError
  | JArr items => Return (match items with x :: _ => x | [] => JUndefined end)
  | JStr s => Return (match s with c :: _ => JStr [c] | [] => JUndefined end)
  | JObj props =>
      match lookup_prop (lit "0") props with
      | Some w => Return w
      | None => Return JUndefined
      end
  | _ => Return JUndefined
  end.

(** [v?.[0]] *)
Definition get0_opt (v : jsval) : result jsval :=
  match v with
  | JUndefined | JNull => Return JUndefined
  | _ => get0 v
  end.

(** *** Conversion to string *)

Fixpoint join_with (sep : jsstring) (parts : list jsstring) : jsstring :=
  match parts with
  | [] => []
  | [p] => p
  | p :: r => p ++ sep ++ join_with sep r
  end.

(** [ToString], as a template literal, [+] and [join] apply it.  An array
    is converted by its [join], which converts its elements, [undefined] and
    [null] to the empty string.  An object is converted by its [toString]:
    the one of [Object.prototype], unless the object has a property of that
    name of its own, which in a parsed value is never callable; [valueOf]
    then yields the object itself and the conversion throws. *)
Fixpoint ToString (v : jsval) : result jsstring :=
  match v with
  | JUndefined => Return (lit "undefined")
  | JNull => Return (lit "null")
  | JBool true => Return (lit "true")
  | JBool false => Return (lit "false")
  | JNum l => Return (print_number (Number_of_literal l))
  | JStr s => Return s
  | JArr items =>
      match (fix parts (l : list jsval) : result (list jsstring) :=
               match l with
               | [] => Return []
               | x :: r =>
                   match (match x with
                          | JUndefined | JNull => Return []
                          | _ => ToString x
                          end) with
                   | Return s =>
                       match parts r with
                       | Return ss => Return (s :: ss)
                       | Throw e => Throw e
                       end
                   | Throw e => Throw e
                   end
               end) items with
      | Return ss => Return (join_with (lit ",") ss)
      | Throw e => Throw e
      end
  | JObj props =>
      match lookup_prop (lit "toString") props with
      | Some _ => Throw TypeError
      | None => Return (lit "[object Object]")
      end
  end.

(** The strings that [join] puts together, from the left. *)
Fixpoint element_strings (items : list jsval) : result (list jsstring) :=
  match items with
  | [] => Return []
  | x :: r =>
      match (match x with
             | JUndefined | JNull => Return []
             | _ => ToString x
             end) with
      | Return s =>
          match element_strings r with
          | Return ss => Return (s :: ss)
          | Throw e => Throw e
          end
      | Throw e => Throw e
      end
  end.

(** [v.join(sep)]: defined on arrays; on any other value either the read
    of [join] fails or what it yields is not callable. *)
Definition join (v : jsval) (sep : jsstring) : result jsstring :=
  match v with
  | JArr items =>
      match element_strings items with
      | Return ss => Return (join_with sep ss)
      | Throw e => Throw e
      end
  | _ => Throw TypeError
  end.

(** *** [JSON.parse]

    The grammar of ECMA-404, which is what [JSON.parse] accepts: four
    white-space characters, the three literals, numbers, strings with their
    escapes, arrays and objects.  The parser recurses on a fuel that
    [JSON_parse] sets from the length of the text; [parse_fuel_enough] below
    shows that it is never exhausted. *)

Inductive parsed (A : Type) :=
| Parsed (a : A) (rest : jsstring)
| Rejected
| OutOfFuel.
Arguments Parsed {A} a rest.
Arguments Rejected {A}.
Arguments OutOfFuel {A}.

(** The white space of JSON: tab, line feed, carriage return, space. *)
Definition is_ws (c : char16) : bool := (c =? 9) || (c =? 10) || (c =? 13) || (c =? 32).

Fixpoint skip_ws (s : jsstring) : jsstring :=
  match s with
  | c :: r => if is_ws c then skip_ws r else s
  | [] => []
  end.

Definition hex_value (c : char16) : option N :=
  if is_digit c then Some (c - 48)
  else if (97 <=? c) && (c <=? 102) then Some (c - 87)
  else if (65 <=? c) && (c <=? 70) then Some (c - 55)
  else None.

Definition hex4 (a b c d : char16) : option char16 :=
  match hex_value a, hex_value b, hex_value c, hex_value d with
  | Some x, Some y, Some z, Some w => Some (((x * 16 + y) * 16 + z) * 16 + w)
  | _, _, _, _ => None
  end.

Definition unescape (c : char16) : option char16 :=
  if c =? 34 then Some 34
  else if chr "\" c then Some 92
  else if chr "/" c then Some 47
  else if chr "b" c then Some 8
  else if chr "f" c then Some 12
  else if chr "n" c then Some 10
  else if chr "r" c then Some 13
  else if chr "t" c then Some 9
  else None.

(** The characters of a string after its opening quote (code unit 34), up
    to and including the closing one; [acc] holds what was read, reversed. *)
Fixpoint parse_chars (s acc : jsstring) : option (jsstring * jsstring) :=
  match s with
  | [] => None
  | c :: r =>
      if c =? 34 then Some (rev acc, r)
      else if chr "\" c then
        match r with
        | e :: r1 =>
            if chr "u" e then
              match r1 with
              | h1 :: h2 :: h3 :: h4 :: r2 =>
                  match hex4 h1 h2 h3 h4 with
                  | Some u => parse_chars r2 (u :: acc)
                  | None => None
                  end
              | _ => None
              end
            else
              match unescape e with
              | Some u => parse_chars r1 (u :: acc)
              | None => None
              end
        | [] => None
        end
      else if c <? 32 then None
      else parse_chars r (c :: acc)
  end.

Fixpoint span_digits (s : jsstring) : jsstring * jsstring :=
  match s with
  | c :: r =>
      if is_digit c then let (d, r') := span_digits r in (c :: d, r')
      else ([], s)
  | [] => ([], [])
  end.

(** The integer part: an optional minus, then a single zero or a nonzero
    digit followed by digits. *)
Definition parse_int_part (s : jsstring) : option (jsstring * jsstring) :=
  let (sign, s1) :=
    match s with
    | c :: r => if chr "-" c then ([c], r) else ([], s)
    | [] => ([], s)
    end in
  match s1 with
  | c :: r =>
      if chr "0" c then Some (sign ++ [c], r)
      else if is_digit c then
        let (d, r') := span_digits r in Some (sign ++ c :: d, r')
      else None
  | [] => None
  end.

(** The optional fraction: a dot and at least one digit. *)
Definition parse_frac_part (s : jsstring) : option (jsstring * jsstring) :=
  match s with
  | c :: r =>
      if chr "." c then
        match span_digits r with
        | ([], _) => None
        | (d, r') => Some (c :: d, r')
        end
      else Some ([], s)
  | [] => Some ([], s)
  end.

(** The optional exponent: e or E, an optional sign, at least one digit. *)
Definition parse_exp_part (s : jsstring) : option (jsstring * jsstring) :=
  match s with
  | c :: r =>
      if chr "e" c || chr "E" c then
        let (sign, r1) :=
          match r with
          | g :: r' => if chr "+" g || chr "-" g then ([g], r') else ([], r)
          | [] => ([], r)
          end in
        match span_digits r1 with
        | ([], _) => None
        | (d, r') => Some (c :: sign ++ d, r')
        end
      else Some ([], s)
  | [] => Some ([], s)
  end.

Definition parse_number (s : jsstring) : option (jsstring * jsstring) :=
  match parse_int_part s with
  | Some (i, s1) =>
      match parse_frac_part s1 with
      | Some (f, s2) =>
          match parse_exp_part s2 with
          | Some (e, s3) => Some (i ++ f ++ e, s3)
          | None => None
          end
      | None => None
      end
  | None => None
  end.

Fixpoint parse_value (fuel : nat) (s : jsstring) : parsed jsval :=
  match fuel with
  | O => OutOfFuel
  | S f =>
      match s with
      | [] => Rejected
      | c :: r =>
          if chr "{" c then
            match skip_ws r with
            | c' :: r' =>
                if chr "}" c' then Parsed (JObj []) r'
                else parse_members f (c' :: r') []
            | [] => Rejected
            end
          else if chr "[" c then
            match skip_ws r with
            | c' :: r' =>
                if chr "]" c' then Parsed (JArr []) r'
                else parse_elements f (c' :: r') []
            | [] => Rejected
            end
          else if c =? 34 then
            match parse_chars r [] with
            | Some (str, r') => Parsed (JStr str) r'
            | None => Rejected
            end
          else if chr "-" c || is_digit c then
            match parse_number s with
            | Some (l, r') => Parsed (JNum l) r'
            | None => Rejected
            end
          else if startsWith (lit "true") s then Parsed (JBool true) (drop 4 s)
          else if startsWith (lit "false") s then Parsed (JBool false) (drop 5 s)
          else if startsWith (lit "null") s then Parsed JNull (drop 4 s)
          else Rejected
      end
  end

with parse_elements (fuel : nat) (s : jsstring) (acc : list jsval) : parsed jsval :=
  match fuel with
  | O => OutOfFuel
  | S f =>
      match parse_value f s with
      | Parsed v r =>
          match skip_ws r with
          | c :: r' =>
              if chr "," c then parse_elements f (skip_ws r') (v :: acc)
              else if chr "]" c then Parsed (JArr (rev (v :: acc))) r'
              else Rejected
          | [] => Rejected
          end
      | Rejected => Rejected
      | OutOfFuel => OutOfFuel
      end
  end

with parse_members (fuel : nat) (s : jsstring) (acc : list (jsstring * jsval)) : parsed jsval :=
  match fuel with
  | O => OutOfFuel
  | S f =>
      match s with
      | c :: r =>
          if c =? 34 then
            match parse_chars r [] with
            | Some (k, r1) =>
                match skip_ws r1 with
                | c1 :: r2 =>
                    if chr ":" c1 then
                      match parse_value f (skip_ws r2) with
                      | Parsed v r3 =>
                          match skip_ws r3 with
                          | c3 :: r4 =>
                              if chr "," c3 then
                                parse_members f (skip_ws r4) ((k, v) :: acc)
                              else if chr "}" c3 then
                                Parsed (JObj (rev ((k, v) :: acc))) r4
                              else Rejected
                          | [] => Rejected
                          end
                      | Rejected => Rejected
                      | OutOfFuel => OutOfFuel
                      end
                    else Rejected
                | [] => Rejected
                end
            | None => Rejected
            end
          else Rejected
      | [] => Rejected
      end
  end.

(** [JSON.parse(text)]: one value between optional white space, or a
    [SyntaxError]. *)
Definition JSON_parse (text : jsstring) : result jsval :=
  let s := skip_ws text in
  match parse_value (2 * length s + 1) s with
  | Parsed v r =>
      match skip_ws r with
      | [] => Return v
      | _ :: _ => Throw SyntaxError
      end
  | Rejected | OutOfFuel => Throw SyntaxError
  end.

(** *** The JSON text of a value

    The text that a serialiser writes for a value; it serves to state that
    [JSON_parse] reads every JSON value back. *)

(** The hexadecimal digit, in lower case, of a number below 16. *)
Definition hex_digit (d : N) : N := if d <? 10 then 48 + d else 87 + d.

(** One code unit inside a JSON string: the quote, the backslash and the
    control characters are escaped. *)
Definition escape_unit (c : N) : jsstring :=
  if c =? 34 then [92; 34]
  else if c =? 92 then [92; 92]
  else if c =? 8 then [92; 98]
  else if c =? 12 then [92; 102]
  else if c =? 10 then [92; 110]
  else if c =? 13 then [92; 114]
  else if c =? 9 then [92; 116]
  else if c <? 32 then [92; 117; 48; 48; hex_digit (c / 16); hex_digit (c mod 16)]
  else [c].

(** A string between quotes. *)
Definition JSON_string (s : jsstring) : jsstring := [34] ++ flat_map escape_unit s ++ [34].

(** A member of an object: key, colon, value. *)
Definition member_text (text : jsval -> jsstring) (kv : jsstring * jsval) : jsstring :=
  JSON_string (fst kv) ++ [58] ++ text (snd kv).

(** The compact JSON text of a value: no white space, members in order. *)
Fixpoint JSON_text (v : jsval) : jsstring :=
  match v with
  | JUndefined => []
  | JNull => lit "null"
  | JBool true => lit "true"
  | JBool false => lit "false"
  | JNum l => l
  | JStr s => JSON_string s
  | JArr items => [91] ++ join_with [44] (map JSON_text items) ++ [93]
  | JObj props => [123] ++ join_with [44] (map (member_text JSON_text) props) ++ [125]
  end.

(** The values that have a JSON text: no [undefined] inside, and number
    literals that the grammar accepts. *)
Fixpoint is_JSON (v : jsval) : Prop :=
  match v with
  | JUndefined => False
  | JNull | JBool _ | JStr _ => True
  | JNum l => parse_number l = Some (l, [])
  | JArr items => fold_right and True (map is_JSON items)
  | JObj props => fold_right and True (map (fun kv => is_JSON (snd kv)) props)
  end.

(** What may follow a number in a text: nothing, or a character that does
    not continue it. *)
Definition number_end (rest : jsstring) : bool :=
  match rest with
  | [] => true
  | c :: _ => negb (is_digit c || chr "." c || chr "e" c || chr "E" c)
  end.

(** Fuel for a text [s]: more than twice its length plus [extra]. *)
Definition fuel_for (s : jsstring) (extra fuel : nat) : Prop :=
  (2 * length s + extra < fuel)%nat.

(** [v] is read back from its text, whatever follows the text. *)
Definition reads_back (v : jsval) : Prop :=
  is_JSON v ->
  forall fuel rest,
    number_end rest = true ->
    fuel_for (JSON_text v ++ rest) 0 fuel ->
    parse_value fuel (JSON_text v ++ rest) = Parsed v rest.

(** *** The brace regular expression

    The source matches the reply against an opening brace, any run of
    characters (line breaks included, taken greedily) and a closing brace.

    [through_last c s] is the longest prefix of [s] that ends with [c]: what
    a greedy [[\s\S]*] followed by [c] matches at the start of [s]. *)
Fixpoint through_last (c : char16) (s : jsstring) : option jsstring :=
  match s with
  | [] => None
  | x :: r =>
      match through_last c r with
      | Some p => Some (x :: p)
      | None => if x =? c then Some [x] else None
      end
  end.

(** [text.match(re)] for that expression: [None] for [null], else element
    [0] of the match array.  The start positions are tried from the left. *)
Fixpoint match_braces (text : jsstring) : option jsstring :=
  match text with
  | [] => None
  | c :: r =>
      match (if chr "{" c then through_last 125 r else None) with
      | Some m => Some (c :: m)
      | None => match_braces r
      end
  end.

End JS.

Import JS.

(* ===================================================================== *)
(** ** Effects of a handler *)
(* ===================================================================== *)

Module Eff.

(** The [type] field of a message. *)
Inductive author := user | ai | seller.

(** An entry of the message log.  [id] is a clock reading printed as a
    string; [isAudio] and [hasImage] are optional in the source. *)
Record message := {
  id : jsstring;
  type : author;
  content : jsval;
  timestamp : Z;
  isAudio : option bool;
  hasImage : option bool
}.

Inductive toast_variant := destructive.

(** The argument of [toast({...})]. *)
Record toast := {
  title : jsstring;
  description : jsstring;
  variant : option toast_variant
}.

(** The two remote services; the request headers are constants of the
    source and are left out. *)
Inductive endpoint :=
| OpenRouterChat      (* https://openrouter.ai/api/v1/chat/completions *)
| GoogleVision.       (* https://vision.googleapis.com/v1/images:annotate *)

(** What a handler does to the world, one constructor per kind of call:
    the state setters ([SetMessages] stands for [onUpdateMessages] in the
    text chat and for [setChatMessages] in the analyzer), [toast], [fetch]
    with the object handed to [JSON.stringify], [console.error] and
    [setTimeout]. *)
Inductive action :=
| SetMessages (log : list message)
| SetInputMessage (s : jsstring)
| SetIsRecording (b : bool)
| SetIsLoading (b : bool)
| SetUploadedImage (img : option jsstring)
| SetIsAnalyzing (b : bool)
| SetAnalysisResult (r : jsval)
| SetDragActive (b : bool)
| ShowToast (t : toast)
| Fetch (ep : endpoint) (body : jsval)
| ConsoleError (label : jsstring) (e : exn)
| SetTimeout (ms : Z).

(** A computation: the actions performed so far, and a value or the
    exception that stopped it. *)
Definition M (A : Type) : Type := list action * result A.

Definition ret {A} (a : A) : M A := ([], Return a).

Definition bind {A B} (m : M A) (k : A -> M B) : M B :=
  match m with
  | (w, Return a) => let (w', r) := k a in (w ++ w', r)
  | (w, Throw e) => (w, Throw e)
  end.

Definition throw {A} (e : exn) : M A := ([], Throw e).

Definition emit (a : action) : M unit := ([a], Return tt).

Definition lift {A} (r : result A) : M A := ([], r).

(** [try { body } catch (e) { handler e }] *)
Definition try_catch {A} (body : M A) (handler : exn -> M A) : M A :=
  match body with
  | (w, Return a) => (w, Return a)
  | (w, Throw e) => let (w', r) := handler e in (w ++ w', r)
  end.

(** [try { body } finally { fin }] *)
Definition try_finally {A} (body : M A) (fin : M unit) : M A :=
  let (w, r) := body in
  match fin with
  | (w', Return _) => (w ++ w', r)
  | (w', Throw e) => (w ++ w', Throw e)
  end.

Declare Scope eff_scope.
Delimit Scope eff_scope with eff.
Notation "x <- m ;; k" := (bind m (fun x => k))
  (at level 100, m at next level, right associativity) : eff_scope.
Notation "m ;; k" := (bind m (fun _ => k))
  (at level 100, right associativity) : eff_scope.

Definition trace {A} (m : M A) : list action := fst m.
Definition outcome {A} (m : M A) : result A := snd m.

(** *** The network *)

(** What [await fetch(...)] meets once the request has settled: the promise
    rejects (no connection, DNS, CORS), or a response arrives with a status
    and a body text.  A request that never settles is not described: the
    handler that awaits it stops at the [await], before its [catch] and its
    [finally], and what is said of a handler below is said of its runs in
    which the request settles. *)
Inductive http :=
| Rejects
| Responds (status : Z) (body : jsstring).

Record response := { res_status : Z; res_body : jsstring }.

(** [response.ok] *)
Definition ok (r : response) : bool := ((200 <=? res_status r) && (res_status r <=? 299))%Z.

(** [await fetch(url, {method: "POST", body: JSON.stringify(body)})] *)
Definition fetch (ep : endpoint) (body : jsval) (net : http) : M response :=
  bind (emit (Fetch ep body)) (fun _ =>
    match net with
    | Rejects => throw NetworkFailure
    | Responds status text => ret {| res_status := status; res_body := text |}
    end).

(** [await response.json()] *)
Definition json (r : response) : M jsval := lift (JSON_parse (res_body r)).

(** *** Observations on a trace *)

Definition is_fetch (a : action) : bool :=
  match a with Fetch _ _ => true | _ => false end.

Definition toasts (w : list action) : list toast :=
  omap (fun a => match a with ShowToast t => Some t | _ => None end) w.

Definition network_calls (w : list action) : list action := filter is_fetch w.

Definition is_error_toast (t : toast) : bool :=
  match variant t with Some destructive => true | None => false end.

(** The message log after a trace: the last [SetMessages] wins. *)
Fixpoint log_after (w : list action) (log : list message) : list message :=
  match w with
  | [] => log
  | SetMessages l :: r => log_after r l
  | _ :: r => log_after r log
  end.

End Eff.

Import Eff.
Local Open Scope eff_scope.

(* ===================================================================== *)
(** ** Shared pieces of the two components *)
(* ===================================================================== *)

(** [err.message].  The wording of the errors that the runtime raises is
    left to the engine; the model prints the name of their class. *)
Definition exn_message (e : exn) : jsstring :=
  match e with
  | Error m => m
  | TypeError => lit "TypeError"
  | SyntaxError => lit "SyntaxError"
  | NetworkFailure => lit "Failed to fetch"
  end.

(** [!!img] and [!img] for [img : string | null] *)
Definition attached (img : option jsstring) : bool :=
  match img with
  | Some (_ :: _) => true
  | Some [] | None => false
  end.

(** [!text.trim()] *)
Definition blank (text : jsstring) : bool :=
  match trim text with
  | [] => true
  | _ :: _ => false
  end.

(** The body of a chat-completion request with a system and a user turn. *)
Definition chat_body (model system userInput : jsstring) : jsval :=
  JObj [ (lit "model", JStr model);
         (lit "messages",
          JArr [ JObj [ (lit "role", JStr (lit "system"));
                        (lit "content", JStr system) ];
                 JObj [ (lit "role", JStr (lit "user"));
                        (lit "content", JStr userInput) ] ]);
         (lit "temperature", JNum (lit "0.7"));
         (lit "max_tokens", JNum (lit "300")) ].

(** [result.choices[0].message.content] *)
Definition completion_text (result : jsval) : M jsval :=
  choices <- lift (get result "choices") ;;
  first <- lift (get0 choices) ;;
  message <- lift (get first "message") ;;
  lift (get message "content").

(** The toast of both [handleSendMessage] catch blocks. *)
Definition send_error_toast : toast :=
  {| title := lit "Error";
     description := lit "Failed to generate AI response. Please try again.";
     variant := Some destructive |}.

(** A [File] of the browser; reading it as a data URL is taken to succeed
    and to yield [dataURL]. *)
Record file := {
  size : N;
  mime : jsstring;          (* file.type *)
  dataURL : jsstring
}.

(* ===================================================================== *)
(** ** The text chat component, [AITextChat] *)
(* ===================================================================== *)

Module TextChat.

(** The [negotiationData] prop; the two prices that are numbers are kept as
    the numerals that a template literal prints. *)
Record negotiation := {
  item_title : jsstring;
  originalPrice : jsstring;
  currentOffer : option jsstring;
  maxBudget : option jsstring;
  platform : jsstring
}.

(** Props and hooks of one render.  [messages] is owned by the parent,
    which is taken to store what [onUpdateMessages] hands it and to pass it
    back. *)
Record state := {
  selectedCategory : jsstring;
  negotiationData : negotiation;
  messages : list message;
  inputMessage : jsstring;
  isRecording : bool;
  isLoading : bool;
  uploadedImage : option jsstring
}.

Definition apply (a : action) (s : state) : state :=
  match a with
  | SetMessages l =>
      {| selectedCategory := selectedCategory s; negotiationData := negotiationData s;
         messages := l; inputMessage := inputMessage s; isRecording := isRecording s;
         isLoading := isLoading s; uploadedImage := uploadedImage s |}
  | SetInputMessage t =>
      {| selectedCategory := selectedCategory s; negotiationData := negotiationData s;
         messages := messages s; inputMessage := t; isRecording := isRecording s;
         isLoading := isLoading s; uploadedImage := uploadedImage s |}
  | SetIsRecording b =>
      {| selectedCategory := selectedCategory s; negotiationData := negotiationData s;
         messages := messages s; inputMessage := inputMessage s; isRecording := b;
         isLoading := isLoading s; uploadedImage := uploadedImage s |}
  | SetIsLoading b =>
      {| selectedCategory := selectedCategory s; negotiationData := negotiationData s;
         messages := messages s; inputMessage := inputMessage s; isRecording := isRecording s;
         isLoading := b; uploadedImage := uploadedImage s |}
  | SetUploadedImage img =>
      {| selectedCategory := selectedCategory s; negotiationData := negotiationData s;
         messages := messages s; inputMessage := inputMessage s; isRecording := isRecording s;
         isLoading := isLoading s; uploadedImage := img |}
  | _ => s
  end.

(** The state once every action of a trace has taken effect. *)
Definition run (w : list action) (s : state) : state :=
  fold_left (fun st a => apply a st) w s.

Definition system_prompt (category : jsstring) (data : negotiation) : jsstring :=
  lit "You are a professional negotiation assistant specializing in " ++ category
  ++ lit " transactions. Help users craft effective negotiation messages and strategies. The user is negotiating for "
  ++ [34] ++ item_title data ++ [34]
  ++ lit " with original price $" ++ originalPrice data
  ++ lit " on " ++ platform data
  ++ lit ". Provide specific, actionable advice.".

(** [generateAIResponse], lines 95-132 *)
Definition generateAIResponse (userInput : jsstring) (data : negotiation)
    (category : jsstring) (net : http) : M jsval :=
  try_catch
    (response <- fetch OpenRouterChat
                   (chat_body (lit "openai/gpt-4.1") (system_prompt category data) userInput)
                   net ;;
     (if negb (ok response)
      then throw (Error (lit "API request failed: " ++ Number_toString (res_status response)))
      else ret tt) ;;
     result <- json response ;;
     completion_text result)
    (fun error =>
       emit (ConsoleError (lit "OpenAI API error:") error) ;;
       throw error).

(** [handleSendMessage], lines 50-93.  [now] is the clock when the handler
    starts, [later] the clock when the awaited response is back. *)
Definition handleSendMessage (s : state) (now : Z) (net : http) (later : Z) : M unit :=
  if blank (inputMessage s) && negb (attached (uploadedImage s)) then ret tt
  else
    let userMessage :=
      {| id := Number_toString now;
         type := user;
         content := JStr (match inputMessage s with
                          | [] => lit "Shared an image"
                          | _ :: _ => inputMessage s
                          end);
         timestamp := now;
         isAudio := None;
         hasImage := Some (attached (uploadedImage s)) |} in
    let updatedMessages := messages s ++ [userMessage] in
    emit (SetMessages updatedMessages) ;;
    emit (SetIsLoading true) ;;
    emit (SetInputMessage []) ;;
    emit (SetUploadedImage None) ;;
    try_finally
      (try_catch
         (aiResponse <- generateAIResponse (inputMessage s) (negotiationData s)
                          (selectedCategory s) net ;;
          let aiMessage :=
            {| id := Number_toString (later + 1);
               type := ai;
               content := aiResponse;
               timestamp := later;
               isAudio := None;
               hasImage := None |} in
          emit (SetMessages (updatedMessages ++ [aiMessage])) ;;
          emit (ShowToast
                  {| title := lit "AI Response Generated";
                     description := lit "Your negotiation assistant has provided guidance.";
                     variant := None |}))
         (fun error => emit (ShowToast send_error_toast)))
      (emit (SetIsLoading false)).

(** [handleVoiceRecording], lines 134-152: the click ... *)
Definition handleVoiceRecording (s : state) : M unit :=
  if isRecording s then
    emit (SetIsRecording false) ;;
    emit (SetTimeout 1000)
  else
    emit (SetIsRecording true) ;;
    emit (ShowToast
            {| title := lit "Recording Started";
               description := lit "Speak your message now...";
               variant := None |}).

(** ... and the callback that the timer runs a second later. *)
Definition voiceTimeout : M unit :=
  emit (SetInputMessage (lit "I'm interested in negotiating the price. What's your best advice?")) ;;
  emit (ShowToast
          {| title := lit "Voice Recorded";
             description := lit "Your voice message has been converted to text.";
             variant := None |}).

(** [(reader.result as string).split(",")[1]] *)
Definition base64_part (url : jsstring) : jsval :=
  match split 44 url with
  | _ :: b :: _ => JStr b
  | _ => JUndefined
  end.

Definition vision_body (base64Image : jsval) : jsval :=
  JObj [ (lit "requests",
          JArr [ JObj [ (lit "image", JObj [ (lit "content", base64Image) ]);
                        (lit "features",
                         JArr [ JObj [ (lit "type", JStr (lit "TEXT_DETECTION")) ] ]) ] ]) ].

(** [data.responses?.[0]?.fullTextAnnotation?.text || "No text found in image."] *)
Definition annotation_text (data : jsval) : M jsval :=
  responses <- lift (get data "responses") ;;
  first <- lift (get0_opt responses) ;;
  annotation <- lift (get_opt first "fullTextAnnotation") ;;
  text <- lift (get_opt annotation "text") ;;
  ret (or_else text (JStr (lit "No text found in image."))).

(** [analyzeImage], lines 169-233.  The outer try covers the set-up of the
    reader only; the [onloadend] callback, run here in place, is outside it.
    The status of the response is not looked at. *)
Definition analyzeImage (s : state) (f : file) (net : http) (now : Z) : M unit :=
  try_catch
    (emit (SetIsLoading true))
    (fun error =>
       emit (SetIsLoading false) ;;
       emit (ShowToast
               {| title := lit "Error";
                  description := lit "Failed to analyze image. Please try again.";
                  variant := Some destructive |})) ;;
  let base64Image := base64_part (dataURL f) in
  try_finally
    (try_catch
       (response <- fetch GoogleVision (vision_body base64Image) net ;;
        data <- json response ;;
        text <- annotation_text data ;;
        printed <- lift (ToString text) ;;
        let analysisMessage :=
          {| id := Number_toString now;
             type := ai;
             content :=
               JStr ([55357; 56567] ++ lit " Image Analysis Results:" ++ [10; 10]
                     ++ printed ++ [10; 10]
                     ++ lit "Based on this text from your image, I can help you craft negotiation strategies. What would you like to negotiate?");
             timestamp := now;
             isAudio := None;
             hasImage := None |} in
        let updatedMessages := messages s ++ [analysisMessage] in
        emit (SetMessages updatedMessages) ;;
        emit (ShowToast
                {| title := lit "Image Analyzed";
                   description := lit "Text extracted from your image successfully!";
                   variant := None |}))
       (fun err =>
          emit (ShowToast
                  {| title := lit "Analysis Failed";
                     description := lit "Something went wrong: " ++ exn_message err;
                     variant := Some destructive |})))
    (emit (SetIsLoading false)).

(** [handleImageUpload], lines 154-167, with the [onload] callback of its
    reader run in place.  [f] is [event.target.files?.[0]]. *)
Definition handleImageUpload (s : state) (f : option file) (net : http) (now : Z) : M unit :=
  match f with
  | Some file =>
      emit (SetUploadedImage (Some (dataURL file))) ;;
      analyzeImage s file net now
  | None => ret tt
  end.

End TextChat.

(* ===================================================================== *)
(** ** The image analyzer component, [ConversationImageAnalyzer] *)
(* ===================================================================== *)

Module Analyzer.

(** The prop and the hooks of one render.  [analysisResult] is [JNull]
    until an analysis has stored its result. *)
Record state := {
  selectedCategory : jsstring;
  uploadedImage : option jsstring;
  isAnalyzing : bool;
  analysisResult : jsval;
  dragActive : bool;
  chatMessages : list message;
  inputMessage : jsstring;
  isRecording : bool;
  isLoading : bool
}.

Definition apply (a : action) (s : state) : state :=
  match a with
  | SetMessages l =>
      {| selectedCategory := selectedCategory s; uploadedImage := uploadedImage s;
         isAnalyzing := isAnalyzing s; analysisResult := analysisResult s;
         dragActive := dragActive s; chatMessages := l;
         inputMessage := inputMessage s; isRecording := isRecording s;
         isLoading := isLoading s |}
  | SetInputMessage t =>
      {| selectedCategory := selectedCategory s; uploadedImage := uploadedImage s;
         isAnalyzing := isAnalyzing s; analysisResult := analysisResult s;
         dragActive := dragActive s; chatMessages := chatMessages s;
         inputMessage := t; isRecording := isRecording s;
         isLoading := isLoading s |}
  | SetIsRecording b =>
      {| selectedCategory := selectedCategory s; uploadedImage := uploadedImage s;
         isAnalyzing := isAnalyzing s; analysisResult := analysisResult s;
         dragActive := dragActive s; chatMessages := chatMessages s;
         inputMessage := inputMessage s; isRecording := b;
         isLoading := isLoading s |}
  | SetIsLoading b =>
      {| selectedCategory := selectedCategory s; uploadedImage := uploadedImage s;
         isAnalyzing := isAnalyzing s; analysisResult := analysisResult s;
         dragActive := dragActive s; chatMessages := chatMessages s;
         inputMessage := inputMessage s; isRecording := isRecording s;
         isLoading := b |}
  | SetUploadedImage img =>
      {| selectedCategory := selectedCategory s; uploadedImage := img;
         isAnalyzing := isAnalyzing s; analysisResult := analysisResult s;
         dragActive := dragActive s; chatMessages := chatMessages s;
         inputMessage := inputMessage s; isRecording := isRecording s;
         isLoading := isLoading s |}
  | SetIsAnalyzing b =>
      {| selectedCategory := selectedCategory s; uploadedImage := uploadedImage s;
         isAnalyzing := b; analysisResult := analysisResult s;
         dragActive := dragActive s; chatMessages := chatMessages s;
         inputMessage := inputMessage s; isRecording := isRecording s;
         isLoading := isLoading s |}
  | SetAnalysisResult r =>
      {| selectedCategory := selectedCategory s; uploadedImage := uploadedImage s;
         isAnalyzing := isAnalyzing s; analysisResult := r;
         dragActive := dragActive s; chatMessages := chatMessages s;
         inputMessage := inputMessage s; isRecording := isRecording s;
         isLoading := isLoading s |}
  | SetDragActive b =>
      {| selectedCategory := selectedCategory s; uploadedImage := uploadedImage s;
         isAnalyzing := isAnalyzing s; analysisResult := analysisResult s;
         dragActive := b; chatMessages := chatMessages s;
         inputMessage := inputMessage s; isRecording := isRecording s;
         isLoading := isLoading s |}
  | _ => s
  end.

Definition run (w : list action) (s : state) : state :=
  fold_left (fun st a => apply a st) w s.

(** *** Upload, lines 494-529 *)

Definition size_ceiling : N := 10 * 1024 * 1024.

Definition too_large_toast : toast :=
  {| title := lit "File Too Large";
     description := lit "Please upload an image smaller than 10MB.";
     variant := Some destructive |}.

Definition invalid_type_toast : toast :=
  {| title := lit "Invalid File Type";
     description := lit "Please upload an image file (PNG, JPG, etc.).";
     variant := Some destructive |}.

(** [handleImageUpload], with the [onload] callback of its reader run in
    place. *)
Definition handleImageUpload (f : file) : M unit :=
  if size_ceiling <? size f then emit (ShowToast too_large_toast)
  else if negb (startsWith (lit "image/") (mime f)) then emit (ShowToast invalid_type_toast)
  else
    emit (SetUploadedImage (Some (dataURL f))) ;;
    emit (ShowToast
            {| title := lit "Image Uploaded Successfully";
               description := lit "Ready to analyze the conversation.";
               variant := None |}).

(** [handleFileSelect]: the first file of the picker, if any. *)
Definition handleFileSelect (f : option file) : M unit :=
  match f with
  | Some file => handleImageUpload file
  | None => ret tt
  end.

(** The [type] of a drag event. *)
Inductive drag := dragenter | dragover | dragleave.

Definition handleDrag (e : drag) : M unit :=
  match e with
  | dragenter | dragover => emit (SetDragActive true)
  | dragleave => emit (SetDragActive false)
  end.

(** [handleDrop]: the first dropped file, if any. *)
Definition handleDrop (f : option file) : M unit :=
  emit (SetDragActive false) ;;
  match f with
  | Some file => handleImageUpload file
  | None => ret tt
  end.

(** *** Extraction, lines 632-665 *)

Definition quoted (s : string) : jsstring := [34] ++ lit s ++ [34].

Definition analysis_prompt (category : jsstring) : jsstring :=
  let nl := [10] ++ lit "                  " in
  lit "Analyze this conversation screenshot for a " ++ category
  ++ lit " negotiation. Extract and analyze:" ++ nl
  ++ nl ++ lit "1. Sentiment (positive/neutral/negative)"
  ++ nl ++ lit "2. Key negotiation points mentioned"
  ++ nl ++ lit "3. Seller motivation and urgency level"
  ++ nl ++ lit "4. Any mentioned prices and price flexibility indicators"
  ++ nl ++ lit "5. Suggested response strategy"
  ++ nl ++ lit "6. Specific negotiation tips"
  ++ nl
  ++ nl ++ lit "Provide a structured analysis in JSON format with these fields:"
  ++ nl ++ lit "- sentiment: " ++ quoted "positive" ++ lit " | " ++ quoted "neutral"
        ++ lit " | " ++ quoted "negative"
  ++ nl ++ lit "- keyPoints: string[] (5-6 key observations)"
  ++ nl ++ lit "- suggestedResponse: string (detailed response suggestion)"
  ++ nl ++ lit "- negotiationTips: string[] (4-5 actionable tips)"
  ++ nl ++ lit "- priceAnalysis: {mentionedPrice?: string, priceFlexibility: "
        ++ quoted "high" ++ lit "|" ++ quoted "medium" ++ lit "|" ++ quoted "low" ++ lit "}"
  ++ nl ++ lit "- urgencyLevel: " ++ quoted "high" ++ lit " | " ++ quoted "medium"
        ++ lit " | " ++ quoted "low"
  ++ nl ++ lit "- sellerMotivation: string (brief description)"
  ++ nl
  ++ nl ++ lit "Focus on " ++ category ++ lit " specific negotiation strategies.".

Definition analysis_body (category image : jsstring) : jsval :=
  JObj [ (lit "model", JStr (lit "google/gemini-2.5-pro"));
         (lit "messages",
          JArr [ JObj [ (lit "role", JStr (lit "user"));
                        (lit "content",
                         JArr [ JObj [ (lit "type", JStr (lit "text"));
                                       (lit "text", JStr (analysis_prompt category)) ];
                                JObj [ (lit "type", JStr (lit "image_url"));
                                       (lit "image_url",
                                        JObj [ (lit "url", JStr image) ]) ] ]) ] ]);
         (lit "temperature", JNum (lit "0.7"));
         (lit "max_tokens", JNum (lit "1000")) ].

(** The object of the catch block, lines 644-664, once its
    [suggestedResponse] is known. *)
Definition fallback (category suggested : jsstring) : jsval :=
  JObj [ (lit "sentiment", JStr (lit "neutral"));
         (lit "keyPoints",
          JArr [ JStr (lit "AI analysis completed successfully");
                 JStr (lit "Conversation details extracted from image");
                 JStr (lit "Ready to provide negotiation guidance");
                 JStr (lit "Analysis tailored for " ++ category ++ lit " transactions") ]);
         (lit "suggestedResponse", JStr suggested);
         (lit "negotiationTips",
          JArr [ JStr (lit "Review the AI analysis carefully");
                 JStr (lit "Consider the specific platform dynamics");
                 JStr (lit "Focus on building rapport with the seller");
                 JStr (lit "Present your offer with clear justification") ]);
         (lit "priceAnalysis", JObj [ (lit "priceFlexibility", JStr (lit "medium")) ]);
         (lit "urgencyLevel", JStr (lit "medium"));
         (lit "sellerMotivation", JStr (lit "Analysis based on conversation content")) ].

(** [analysisText.match(re)]: a method of strings only. *)
Definition String_match (analysisText : jsval) : result (option jsstring) :=
  match analysisText with
  | JStr text => Return (match_braces text)
  | _ => Throw TypeError
  end.

(** [analysisText.slice(0, 300) + '...']: strings and arrays have [slice],
    and [+] converts the array that it is handed to a string. *)
Definition truncated (analysisText : jsval) : result jsstring :=
  match analysisText with
  | JStr text => Return (slice0 300 text ++ lit "...")
  | JArr items =>
      match ToString (JArr (take 300 items)) with
      | Return joined => Return (joined ++ lit "...")
      | Throw e => Throw e
      end
  | _ => Throw TypeError
  end.

(** Lines 633-665: the value of [result] after the inner try and catch. *)
Definition extract (analysisText : jsval) (category : jsstring) : M jsval :=
  try_catch
    (jsonMatch <- lift (String_match analysisText) ;;
     match jsonMatch with
     | Some span => lift (JSON_parse span)
     | None => throw (Error (lit "No JSON found"))
     end)
    (fun parseError =>
       suggested <- lift (truncated analysisText) ;;
       ret (fallback category suggested)).

(** *** Analysis, lines 552-692 *)

(** [result.sellerMotivation.toLowerCase()] *)
Definition motivation_lower (r : jsval) : result jsstring :=
  match get r "sellerMotivation" with
  | Return (JStr s) => Return (toLowerCase s)
  | Return _ => Throw TypeError
  | Throw e => Throw e
  end.

Definition initial_content (category motivation sentiment : jsstring) : jsstring :=
  lit "I've analyzed your conversation screenshot using Gemini 2.5. Based on the "
  ++ category ++ lit " negotiation, I can see that " ++ motivation
  ++ lit ". The seller's sentiment appears " ++ sentiment
  ++ lit ". Feel free to ask me any questions about the analysis or negotiation strategy!".

Definition analysis_failed_toast : toast :=
  {| title := lit "Analysis Failed";
     description := lit "Unable to analyze the conversation. Please try again.";
     variant := Some destructive |}.

Definition analyzeConversation (s : state) (net : http) (now : Z) : M unit :=
  if negb (attached (uploadedImage s)) then
    emit (ShowToast
            {| title := lit "No Image Uploaded";
               description := lit "Please upload a conversation screenshot first.";
               variant := Some destructive |})
  else if (match selectedCategory s with [] => true | _ :: _ => false end) then
    emit (ShowToast
            {| title := lit "Category Required";
               description := lit "Please select a category first for specialized analysis.";
               variant := Some destructive |})
  else
    emit (SetIsAnalyzing true) ;;
    try_finally
      (try_catch
         (response <- fetch OpenRouterChat
                        (analysis_body (selectedCategory s)
                           (match uploadedImage s with Some u => u | None => [] end))
                        net ;;
          (if negb (ok response)
           then throw (Error (lit "API request failed: " ++ Number_toString (res_status response)))
           else ret tt) ;;
          apiResult <- json response ;;
          analysisText <- completion_text apiResult ;;
          result <- extract analysisText (selectedCategory s) ;;
          emit (SetAnalysisResult result) ;;
          motivation <- lift (motivation_lower result) ;;
          sentiment <- lift (get result "sentiment") ;;
          printed <- lift (ToString sentiment) ;;
          let initialMessage :=
            {| id := Number_toString now;
               type := ai;
               content := JStr (initial_content (selectedCategory s) motivation printed);
               timestamp := now;
               isAudio := None;
               hasImage := None |} in
          emit (SetMessages [initialMessage]) ;;
          emit (ShowToast
                  {| title := lit "Analysis Complete! " ++ [240; 376; 381; 8240];
                     description := lit "Your conversation has been analyzed with Gemini 2.5.";
                     variant := None |}))
         (fun error =>
            emit (ConsoleError (lit "Gemini API error:") error) ;;
            emit (ShowToast analysis_failed_toast)))
      (emit (SetIsAnalyzing false)).

(** *** Follow-up chat, lines 694-803 *)

Definition guidance : jsstring :=
  lit "Please upload and analyze a conversation first so I can provide specific guidance.".

Definition apology : jsstring :=
  lit "I'm having trouble connecting to my analysis system. Please try again.".

(** The system turn of [generateContextualResponse], its substitutions
    evaluated and converted from the left.  The two [join] calls and each
    conversion can throw; the optional chains cannot. *)
Definition context_prompt (category : jsstring) (analysis : jsval) : M jsstring :=
  sentiment <- lift (get analysis "sentiment") ;;
  sentiment <- lift (ToString sentiment) ;;
  keyPoints <- lift (get analysis "keyPoints") ;;
  points <- lift (join keyPoints (lit ", ")) ;;
  motivation <- lift (get analysis "sellerMotivation") ;;
  motivation <- lift (ToString motivation) ;;
  urgency <- lift (get analysis "urgencyLevel") ;;
  urgency <- lift (ToString urgency) ;;
  priceAnalysis <- lift (get analysis "priceAnalysis") ;;
  flexibility <- lift (get_opt priceAnalysis "priceFlexibility") ;;
  flexibility <- lift (ToString (or_else flexibility (JStr (lit "unknown")))) ;;
  priceAnalysis <- lift (get analysis "priceAnalysis") ;;
  mentioned <- lift (get_opt priceAnalysis "mentionedPrice") ;;
  mentioned <- lift (ToString (or_else mentioned (JStr (lit "none mentioned")))) ;;
  suggested <- lift (get analysis "suggestedResponse") ;;
  suggested <- lift (ToString suggested) ;;
  negotiationTips <- lift (get analysis "negotiationTips") ;;
  tips <- lift (join negotiationTips (lit ", ")) ;;
  ret (lit "You are a professional negotiation assistant specializing in " ++ category
       ++ lit " transactions. " ++ [10; 10]
       ++ lit "Based on the Gemini 2.5 Pro image analysis results:" ++ [10]
       ++ lit "- Sentiment: " ++ sentiment ++ [10]
       ++ lit "- Key Points: " ++ points ++ [10]
       ++ lit "- Seller Motivation: " ++ motivation ++ [10]
       ++ lit "- Urgency Level: " ++ urgency ++ [10]
       ++ lit "- Price Flexibility: " ++ flexibility ++ [10]
       ++ lit "- Mentioned Price: " ++ mentioned ++ [10]
       ++ lit "- Suggested Response: " ++ suggested ++ [10]
       ++ lit "- Negotiation Tips: " ++ tips ++ [10; 10]
       ++ lit "Use this analysis to provide specific, actionable negotiation advice.").

(** [generateContextualResponse], lines 733-784 *)
Definition generateContextualResponse (category userInput : jsstring)
    (analysis : jsval) (net : http) : M jsval :=
  if negb (truthy analysis) then ret (JStr guidance)
  else
    try_catch
      (system <- context_prompt category analysis ;;
       response <- fetch OpenRouterChat
                     (chat_body (lit "openai/gpt-4.1") system userInput) net ;;
       (if negb (ok response)
        then throw (Error (lit "API request failed: " ++ Number_toString (res_status response)))
        else ret tt) ;;
       result <- json response ;;
       completion_text result)
      (fun error =>
         emit (ConsoleError (lit "GPT-4 API error:") error) ;;
         ret (JStr apology)).

(** [handleSendMessage], lines 694-731 *)
Definition handleSendMessage (s : state) (now : Z) (net : http) (later : Z) : M unit :=
  if blank (inputMessage s) then ret tt
  else
    let userMessage :=
      {| id := Number_toString now;
         type := user;
         content := JStr (inputMessage s);
         timestamp := now;
         isAudio := Some (isRecording s);
         hasImage := None |} in
    let updatedMessages := chatMessages s ++ [userMessage] in
    emit (SetMessages updatedMessages) ;;
    emit (SetIsLoading true) ;;
    emit (SetInputMessage []) ;;
    try_finally
      (try_catch
         (aiResponse <- generateContextualResponse (selectedCategory s) (inputMessage s)
                          (analysisResult s) net ;;
          let aiMessage :=
            {| id := Number_toString (later + 1);
               type := ai;
               content := aiResponse;
               timestamp := later;
               isAudio := None;
               hasImage := None |} in
          emit (SetMessages (updatedMessages ++ [aiMessage])))
         (fun error => emit (ShowToast send_error_toast)))
      (emit (SetIsLoading false)).

(** [handleVoiceRecording], lines 786-803, and its timer callback *)
Definition handleVoiceRecording (s : state) : M unit :=
  if isRecording s then
    emit (SetIsRecording false) ;;
    emit (SetTimeout 1000)
  else
    emit (SetIsRecording true) ;;
    emit (ShowToast
            {| title := lit "Recording Started";
               description := lit "Speak your message now...";
               variant := None |}).

Definition voiceTimeout : M unit :=
  emit (SetInputMessage (lit "What's the best strategy based on this analysis?")) ;;
  emit (ShowToast
          {| title := lit "Voice Recorded";
             description := lit "Your voice message has been converted to text.";
             variant := None |}).

End Analyzer.

(* ===================================================================== *)
(** ** Sessions: the operations of a component, one after the other *)
(* ===================================================================== *)

(** A session is a list of operations; each runs to completion before the
    next one starts (the send and analyze buttons are disabled while a
    request is pending).  Handlers that overlap are not described here. *)

Module TextSession.
Import TextChat.

Inductive op :=
| Type_ (text : jsstring)                          (* onChange of the textarea *)
| Send (now : Z) (net : http) (later : Z)
| Voice
| VoiceTimer
| Upload (f : option file) (net : http) (now : Z)
| RemoveImage.                                     (* the button of the image preview *)

Definition perform (s : state) (o : op) : M unit :=
  match o with
  | Type_ text => emit (SetInputMessage text)
  | Send now net later => handleSendMessage s now net later
  | Voice => handleVoiceRecording s
  | VoiceTimer => voiceTimeout
  | Upload f net now => handleImageUpload s f net now
  | RemoveImage => emit (SetUploadedImage None)
  end.

Definition step (s : state) (o : op) : state := run (trace (perform s o)) s.

Definition session (s : state) (ops : list op) : state := fold_left step ops s.

(** A session starts with an empty log. *)
Definition init (category : jsstring) (data : negotiation) : state :=
  {| selectedCategory := category; negotiationData := data; messages := [];
     inputMessage := []; isRecording := false; isLoading := false;
     uploadedImage := None |}.

(** One send: the user has [text] in the input field and [img] attached
    (or not), and the handler runs. *)
Record a_send := {
  text : jsstring;
  img : option jsstring;
  now : Z;
  net : http;
  later : Z
}.

Definition with_input (s : state) (i : a_send) : state :=
  {| selectedCategory := selectedCategory s; negotiationData := negotiationData s;
     messages := messages s; inputMessage := text i; isRecording := isRecording s;
     isLoading := isLoading s; uploadedImage := img i |}.

Definition send (s : state) (i : a_send) : state :=
  step (with_input s i) (Send (now i) (net i) (later i)).

Definition sends (s : state) (l : list a_send) : state := fold_left send l s.

End TextSession.

Module AnalyzerSession.
Import Analyzer.

Inductive op :=
| Type_ (text : jsstring)
| Send (now : Z) (net : http) (later : Z)
| Voice
| VoiceTimer
| Upload (f : option file)                         (* the file picker *)
| Drag (e : Analyzer.drag)
| Drop (f : option file)
| Analyze (net : http) (now : Z).                  (* first analysis or a later one *)

Definition perform (s : state) (o : op) : M unit :=
  match o with
  | Type_ text => emit (SetInputMessage text)
  | Send now net later => handleSendMessage s now net later
  | Voice => handleVoiceRecording s
  | VoiceTimer => voiceTimeout
  | Upload f => handleFileSelect f
  | Drag e => handleDrag e
  | Drop f => handleDrop f
  | Analyze net now => analyzeConversation s net now
  end.

Definition step (s : state) (o : op) : state := run (trace (perform s o)) s.

Definition session (s : state) (ops : list op) : state := fold_left step ops s.

Definition init (category : jsstring) : state :=
  {| selectedCategory := category; uploadedImage := None; isAnalyzing := false;
     analysisResult := JNull; dragActive := false; chatMessages := [];
     inputMessage := []; isRecording := false; isLoading := false |}.

Record a_send := {
  text : jsstring;
  now : Z;
  net : http;
  later : Z
}.

Definition with_input (s : state) (i : a_send) : state :=
  {| selectedCategory := selectedCategory s; uploadedImage := uploadedImage s;
     isAnalyzing := isAnalyzing s; analysisResult := analysisResult s;
     dragActive := dragActive s; chatMessages := chatMessages s;
     inputMessage := text i; isRecording := isRecording s;
     isLoading := isLoading s |}.

Definition send (s : state) (i : a_send) : state :=
  step (with_input s i) (Send (now i) (net i) (later i)).

Definition sends (s : state) (l : list a_send) : state := fold_left send l s.

End AnalyzerSession.

(* ===================================================================== *)
(** ** The notions the properties are stated with *)
(* ===================================================================== *)

(** The string of a value whose conversion does not throw. *)
Definition text_of (v : jsval) : jsstring :=
  match ToString v with
  | Return s => s
  | Throw _ => []
  end.

(** [ToString] does not throw on the value. *)
Definition converts (v : jsval) : bool :=
  match ToString v with
  | Return _ => true
  | Throw _ => false
  end.

(** What the awaited completion call yields from a body text. *)
Definition completion (body : jsstring) : result jsval :=
  match JSON_parse body with
  | Return v => outcome (completion_text v)
  | Throw e => Throw e
  end.

(** A body is malformed when it is not JSON or lacks the path
    [choices[0].message]. *)
Definition malformed (body : jsstring) : bool :=
  match completion body with
  | Throw _ => true
  | Return _ => false
  end.

(** The upstream call fails: transport error, non-success status or
    malformed body. *)
Definition failing (net : http) : bool :=
  match net with
  | Rejects => true
  | Responds status body =>
      negb (ok {| res_status := status; res_body := body |}) || malformed body
  end.

(** What a failed send is to leave behind: the log one user entry longer,
    and one notification, an error. *)
Definition failed_send (before after : list message) (w : list action) : Prop :=
  (exists u, type u = user /\ after = before ++ [u])
  /\ (exists t, toasts w = [t] /\ is_error_toast t = true).

(** The entries that the send handlers build. *)
Definition text_user_entry (text : jsstring) (img : option jsstring) (now : Z) : message :=
  {| id := Number_toString now;
     type := user;
     content := JStr (match text with
                      | [] => lit "Shared an image"
                      | _ :: _ => text
                      end);
     timestamp := now;
     isAudio := None;
     hasImage := Some (attached img) |}.

Definition analyzer_user_entry (text : jsstring) (recording : bool) (now : Z) : message :=
  {| id := Number_toString now;
     type := user;
     content := JStr text;
     timestamp := now;
     isAudio := Some recording;
     hasImage := None |}.

Definition ai_entry (reply : jsval) (later : Z) : message :=
  {| id := Number_toString (later + 1);
     type := ai;
     content := reply;
     timestamp := later;
     isAudio := None;
     hasImage := None |}.

Definition generated_toast : toast :=
  {| title := lit "AI Response Generated";
     description := lit "Your negotiation assistant has provided guidance.";
     variant := None |}.


(** The interface [AnalysisResult], lines 454-465. *)
Definition field (r : jsval) (name : string) : jsval :=
  match r with
  | JObj props =>
      match lookup_prop (lit name) props with
      | Some v => v
      | None => JUndefined
      end
  | _ => JUndefined
  end.

Definition is_string (v : jsval) : bool :=
  match v with JStr _ => true | _ => false end.

Definition is_string_array (v : jsval) : bool :=
  match v with JArr items => forallb is_string items | _ => false end.

Definition is_one_of (allowed : list jsstring) (v : jsval) : bool :=
  match v with
  | JStr s => existsb (jsstring_eqb s) allowed
  | _ => false
  end.

Definition levels : list jsstring := [lit "high"; lit "medium"; lit "low"].

Definition is_AnalysisResult (r : jsval) : bool :=
  match r with
  | JObj _ =>
      is_one_of [lit "positive"; lit "neutral"; lit "negative"] (field r "sentiment")
      && is_string_array (field r "keyPoints")
      && is_string (field r "suggestedResponse")
      && is_string_array (field r "negotiationTips")
      && match field r "priceAnalysis" with
         | JUndefined => true
         | JObj _ as p =>
             match field p "mentionedPrice" with
             | JUndefined | JStr _ => true
             | _ => false
             end
             && is_one_of levels (field p "priceFlexibility")
         | _ => false
         end
      && is_one_of levels (field r "urgencyLevel")
      && is_string (field r "sellerMotivation")
  | _ => false
  end.

(** A reply contains a parseable JSON object when some stretch of it is
    accepted by [JSON.parse] and denotes an object. *)
Definition contains_JSON_object (text : jsstring) : Prop :=
  exists pre obj post props,
    text = pre ++ obj ++ post /\ JSON_parse obj = Return (JObj props).

(** A JSON text written with apostrophes where the double quotes go. *)
Definition json_lit (s : string) : jsstring :=
  map (fun c => if chr "'" c then 34 else c) (lit s).

(** Clock readings of a session under which ids stay apart: every
    operation that stamps an entry starts at or after [bound], a reading
    above all those used so far, and its response does not come back
    before it started. *)
Fixpoint text_well_timed (bound : Z) (ops : list TextSession.op) : Prop :=
  match ops with
  | [] => True
  | TextSession.Send now _ later :: r =>
      (bound <= now /\ now <= later)%Z /\ text_well_timed (later + 2) r
  | TextSession.Upload _ _ now :: r =>
      (bound <= now)%Z /\ text_well_timed (now + 1) r
  | _ :: r => text_well_timed bound r
  end.

Fixpoint analyzer_well_timed (bound : Z) (ops : list AnalyzerSession.op) : Prop :=
  match ops with
  | [] => True
  | AnalyzerSession.Send now _ later :: r =>
      (bound <= now /\ now <= later)%Z /\ analyzer_well_timed (later + 2) r
  | AnalyzerSession.Analyze _ now :: r =>
      (bound <= now)%Z /\ analyzer_well_timed (now + 1) r
  | _ :: r => analyzer_well_timed bound r
  end.

(** The ids of a log are the prints of distinct clock readings, all below
    [bound]. *)
Definition stamped (bound : Z) (log : list message) : Prop :=
  exists stamps : list Z,
    id <$> log = Number_toString <$> stamps
    /\ NoDup stamps
    /\ Forall (fun t => (t < bound)%Z) stamps.

(** *** Successful sends *)

(** A send of the text chat goes through when there is something to send
    and the upstream call does not fail; [text_exchange] is the pair of
    entries it then leaves. *)
Definition text_sent_ok (i : TextSession.a_send) : Prop :=
  blank (TextSession.text i) && negb (attached (TextSession.img i)) = false
  /\ failing (TextSession.net i) = false.

Definition text_reply (net : http) : jsval :=
  match net with
  | Responds _ body =>
      match completion body with
      | Return v => v
      | Throw _ => JUndefined
      end
  | Rejects => JUndefined
  end.

Definition text_exchange (i : TextSession.a_send) : list message :=
  [ text_user_entry (TextSession.text i) (TextSession.img i) (TextSession.now i);
    ai_entry (text_reply (TextSession.net i)) (TextSession.later i) ].

(** The same for the follow-up chat, whose generator always returns. *)
Definition analyzer_reply (category : jsstring) (analysis : jsval)
    (i : AnalyzerSession.a_send) : jsval :=
  match outcome (Analyzer.generateContextualResponse category
                   (AnalyzerSession.text i) analysis (AnalyzerSession.net i)) with
  | Return v => v
  | Throw _ => JUndefined
  end.

Definition analyzer_exchange (category : jsstring) (analysis : jsval) (recording : bool)
    (i : AnalyzerSession.a_send) : list message :=
  [ analyzer_user_entry (AnalyzerSession.text i) recording (AnalyzerSession.now i);
    ai_entry (analyzer_reply category analysis i) (AnalyzerSession.later i) ].

(** Actions that leave the category, the stored analysis and the recording
    flag alone. *)
Definition chat_only (a : action) : bool :=
  match a with
  | SetMessages _ | SetIsLoading _ | SetInputMessage _
  | ShowToast _ | Fetch _ _ | ConsoleError _ _ => true
  | _ => false
  end.

(** *** Sample inputs *)

Definition bike : TextChat.negotiation :=
  {| TextChat.item_title := lit "Road bike";
     TextChat.originalPrice := lit "250";
     TextChat.currentOffer := None;
     TextChat.maxBudget := None;
     TextChat.platform := lit "Craigslist" |}.

(** The text chat with [text] typed in and nothing attached. *)
Definition text_chat_with (text : jsstring) : TextChat.state :=
  TextSession.with_input (TextSession.init (lit "electronics") bike)
    {| TextSession.text := text; TextSession.img := None; TextSession.now := 0;
       TextSession.net := Rejects; TextSession.later := 0 |}.

(** The analyzer after an analysis that fell back, with [text] typed in. *)
Definition analyzed_with (text : jsstring) : Analyzer.state :=
  {| Analyzer.selectedCategory := lit "electronics";
     Analyzer.uploadedImage := Some (lit "data:image/png;base64,iVBORw0KGgo=");
     Analyzer.isAnalyzing := false;
     Analyzer.analysisResult := Analyzer.fallback (lit "electronics") (lit "The seller is firm...");
     Analyzer.dragActive := false;
     Analyzer.chatMessages := [];
     Analyzer.inputMessage := text;
     Analyzer.isRecording := false;
     Analyzer.isLoading := false |}.

(** The analyzer before any analysis, with [text] typed in. *)
Definition fresh_with (text : jsstring) : Analyzer.state :=
  AnalyzerSession.with_input (AnalyzerSession.init (lit "electronics"))
    {| AnalyzerSession.text := text; AnalyzerSession.now := 0;
       AnalyzerSession.net := Rejects; AnalyzerSession.later := 0 |}.

(** A completion reply that carries [text]. *)
Definition reply_with (text : string) : http :=
  Responds 200 (json_lit "{'choices':[{'message':{'role':'assistant','content':'"
                ++ lit text ++ json_lit "'}}]}").

(** [has c s]: the code unit [c] occurs in [s]. *)
Definition has (c : N) (s : jsstring) : bool := existsb (N.eqb c) s.

(** *** Sample replies and files *)

Definition sample_json : jsstring :=
  json_lit "{'sentiment': 'positive', 'keyPoints': ['Seller answers fast', 'Price was cut once'], 'suggestedResponse': 'Offer 200 and mention pickup today.', 'negotiationTips': ['Stay polite', 'Name a number'], 'priceAnalysis': {'mentionedPrice': '$250', 'priceFlexibility': 'high'}, 'urgencyLevel': 'low', 'sellerMotivation': 'Moving abroad next week'}".

Definition sample_props : list (jsstring * jsval) :=
  [ (lit "sentiment", JStr (lit "positive"));
    (lit "keyPoints", JArr [ JStr (lit "Seller answers fast");
                             JStr (lit "Price was cut once") ]);
    (lit "suggestedResponse", JStr (lit "Offer 200 and mention pickup today."));
    (lit "negotiationTips", JArr [ JStr (lit "Stay polite"); JStr (lit "Name a number") ]);
    (lit "priceAnalysis", JObj [ (lit "mentionedPrice", JStr (lit "$250"));
                                 (lit "priceFlexibility", JStr (lit "high")) ]);
    (lit "urgencyLevel", JStr (lit "low"));
    (lit "sellerMotivation", JStr (lit "Moving abroad next week")) ].

Definition sample_analysis : jsval := JObj sample_props.

Definition big_png : file :=
  {| size := 15 * 1024 * 1024;
     mime := lit "image/png";
     dataURL := lit "data:image/png;base64,iVBORw0KGgo=" |}.



(** The catch block of extraction, for a reply that is a string. *)
Definition fallen_back (text category : jsstring) : jsval :=
  Analyzer.fallback category (slice0 300 text ++ lit "...").

(** The inside of [sample_json], without its two braces. *)
Definition sample_body : jsstring :=
  json_lit "'sentiment': 'positive', 'keyPoints': ['Seller answers fast', 'Price was cut once'], 'suggestedResponse': 'Offer 200 and mention pickup today.', 'negotiationTips': ['Stay polite', 'Name a number'], 'priceAnalysis': {'mentionedPrice': '$250', 'priceFlexibility': 'high'}, 'urgencyLevel': 'low', 'sellerMotivation': 'Moving abroad next week'".

(** A reply whose object parses but lacks fields and has a value outside
    its enum. *)
Definition partial_reply : jsstring := json_lit "Result: {'sentiment': 'angry'}".

Definition partial_body : jsstring :=
  json_lit "{'choices':[{'message':{'content':'Result: {\'sentiment\': \'angry\'}'}}]}".

(** The analyzer with a screenshot uploaded and no analysis yet. *)
Definition uploaded : Analyzer.state :=
  AnalyzerSession.step (AnalyzerSession.init (lit "electronics"))
    (AnalyzerSession.Upload
       (Some {| size := 2048; mime := lit "image/png";
                dataURL := lit "data:image/png;base64,iVBORw0KGgo=" |})).


(** Two sends of the text chat that go through, the second with an image
    and no text; and two sends of the follow-up chat. *)
Definition two_text_sends : list TextSession.a_send :=
  [ {| TextSession.text := lit "Is 200 fair?"; TextSession.img := None;
       TextSession.now := 1000; TextSession.net := reply_with "Offer 200.";
       TextSession.later := 1500 |};
    {| TextSession.text := []; TextSession.img := Some (dataURL big_png);
       TextSession.now := 3000; TextSession.net := reply_with "Nice photo.";
       TextSession.later := 3400 |} ].

Definition two_analyzer_sends : list AnalyzerSession.a_send :=
  [ {| AnalyzerSession.text := lit "What next?"; AnalyzerSession.now := 1000;
       AnalyzerSession.net := reply_with "Offer 200."; AnalyzerSession.later := 1500 |};
    {| AnalyzerSession.text := lit "And then?"; AnalyzerSession.now := 3000;
       AnalyzerSession.net := Rejects; AnalyzerSession.later := 3400 |} ].

(** Two sends of the text chat, the second one millisecond after the reply
    to the first came back. *)
Definition hasty_session : list TextSession.op :=
  [ TextSession.Type_ (lit "Is 200 fair?");
    TextSession.Send 1000 (reply_with "Offer 200.") 1500;
    TextSession.Type_ (lit "And 180?");
    TextSession.Send 1501 (reply_with "Too low.") 2000 ].

(** The analyzer after an analysis and one exchange in the follow-up chat. *)
Definition chatting : Analyzer.state :=
  AnalyzerSession.session (analyzed_with [])
    [ AnalyzerSession.Type_ (lit "What next?");
      AnalyzerSession.Send 1000 (reply_with "Offer 200.") 1500 ].

(* ===================================================================== *)
(** ** The render: what is enabled, what is shown and how *)
(* ===================================================================== *)

(** [v === 's'] for a string literal of the source *)
Definition strictly (v : jsval) (s : string) : bool :=
  match v with
  | JStr t => jsstring_eqb t (lit s)
  | _ => false
  end.

(** The render of [AITextChat], lines 250-439. *)
Module TextView.
Import TextChat.

(** The placeholder of the message area, line 265: [messages.length === 0] *)
Definition placeholderShown (s : state) : bool :=
  match messages s with
  | [] => true
  | _ :: _ => false
  end.

(** [disabled] of the send button, line 425 *)
Definition sendDisabled (s : state) : bool :=
  isLoading s || (blank (inputMessage s) && negb (attached (uploadedImage s))).

(** [onKeyPress] of the text area, lines 386-391 *)
Definition onKeyPress (s : state) (key : jsstring) (shiftKey : bool)
    (now : Z) (net : http) (later : Z) : M unit :=
  if jsstring_eqb key (lit "Enter") && negb shiftKey
  then handleSendMessage s now net later
  else ret tt.

End TextView.

(** The render of [ConversationImageAnalyzer], lines 829-1115, and the
    three style functions it calls, lines 805-827. *)
Module AnalyzerView.
Import Analyzer.

(** [s.replace('-', ' ')]: a pattern that is a string is replaced once, at
    its first occurrence. *)
Fixpoint replace_hyphen (s : jsstring) : jsstring :=
  match s with
  | [] => []
  | c :: r => if chr "-" c then 32 :: r else c :: replace_hyphen r
  end.

(** The line under the category, line 914; it is rendered for a category
    that is not empty. *)
Definition category_caption (category : jsstring) : option jsstring :=
  match category with
  | [] => None
  | _ :: _ =>
      Some (lit "Analysis will be optimized for " ++ replace_hyphen category
            ++ lit " conversations")
  end.

(** [disabled] of the analyze button, line 921 *)
Definition analyzeDisabled (s : state) : bool :=
  isAnalyzing s || negb (attached (uploadedImage s)).

(** The test of line 956, [!analysisResult], fails: the render leaves the
    placeholder and goes on to the chat panel, where it puts the sentiment,
    the urgency and the motivation of the result in the page.  This is the
    test and no more: whether the panel can be drawn is not described (a
    plain object among the three is no child that React accepts). *)
Definition hasResult (s : state) : bool := truthy (analysisResult s).

(** [disabled] of the send button, line 1096 *)
Definition sendDisabled (s : state) : bool :=
  isLoading s || blank (inputMessage s).

Definition onKeyPress (s : state) (key : jsstring) (shiftKey : bool)
    (now : Z) (net : http) (later : Z) : M unit :=
  if jsstring_eqb key (lit "Enter") && negb shiftKey
  then handleSendMessage s now net later
  else ret tt.

Definition green : jsstring := lit "text-green-600 bg-green-50 border-green-200".
Definition red : jsstring := lit "text-red-600 bg-red-50 border-red-200".
Definition yellow : jsstring := lit "text-yellow-600 bg-yellow-50 border-yellow-200".
Definition orange : jsstring := lit "text-orange-600 bg-orange-50 border-orange-200".

(** [getSentimentColor], lines 805-811 *)
Definition getSentimentColor (sentiment : jsval) : jsstring :=
  if strictly sentiment "positive" then green
  else if strictly sentiment "negative" then red
  else yellow.

(** [getSentimentIcon], lines 813-819; the three strings are the code units
    that the file holds. *)
Definition getSentimentIcon (sentiment : jsval) : jsstring :=
  if strictly sentiment "positive" then [240; 376; 732; 352]
  else if strictly sentiment "negative" then [240; 376; 732; 376]
  else [240; 376; 732].

(** [getUrgencyColor], lines 821-827 *)
Definition getUrgencyColor (urgency : jsval) : jsstring :=
  if strictly urgency "high" then red
  else if strictly urgency "medium" then orange
  else green.

End AnalyzerView.

(** *** The analysis, step by step *)

(** The analysis goes past its two guards. *)
Definition analysis_ready (s : Analyzer.state) : bool :=
  attached (Analyzer.uploadedImage s)
  && match Analyzer.selectedCategory s with [] => false | _ :: _ => true end.

Definition no_image_toast : toast :=
  {| title := lit "No Image Uploaded";
     description := lit "Please upload a conversation screenshot first.";
     variant := Some destructive |}.

Definition category_required_toast : toast :=
  {| title := lit "Category Required";
     description := lit "Please select a category first for specialized analysis.";
     variant := Some destructive |}.

Definition analysis_complete_toast : toast :=
  {| title := lit "Analysis Complete! " ++ [240; 376; 381; 8240];
     description := lit "Your conversation has been analyzed with Gemini 2.5.";
     variant := None |}.

(** The request of an analysis. *)
Definition analysis_call (s : Analyzer.state) : action :=
  Fetch OpenRouterChat
    (Analyzer.analysis_body (Analyzer.selectedCategory s)
       (match Analyzer.uploadedImage s with Some u => u | None => [] end)).

(** What the catch block of the analysis does with the error it caught. *)
Definition analysis_failure (e : exn) : list action :=
  [ConsoleError (lit "Gemini API error:") e; ShowToast Analyzer.analysis_failed_toast].

(** The entry that opens the follow-up chat. *)
Definition opening_entry (category motivation : jsstring) (sentiment : jsval) (now : Z) : message :=
  {| id := Number_toString now;
     type := ai;
     content := JStr (Analyzer.initial_content category motivation (text_of sentiment));
     timestamp := now;
     isAudio := None;
     hasImage := None |}.

(** What extraction returns on a reply text: the span when it parses, the
    fallback otherwise. *)
Definition extraction (text category : jsstring) : jsval :=
  match match_braces text with
  | Some span =>
      match JSON_parse span with
      | Return v => v
      | Throw _ => fallen_back text category
      end
  | None => fallen_back text category
  end.

Definition is_array (v : jsval) : bool :=
  match v with JArr _ => true | _ => false end.

(** The analysis runs to its end: it is past its guards, the reply is a
    success that carries a content, extraction returns a result, the
    [sellerMotivation] of the result is a string and its [sentiment]
    converts to one. *)
Definition analysis_succeeds (s : Analyzer.state) (net : http) : bool :=
  analysis_ready s
  && match net with
     | Rejects => false
     | Responds status body =>
         ok {| res_status := status; res_body := body |}
         && match completion body with
            | Return analysisText =>
                match outcome (Analyzer.extract analysisText (Analyzer.selectedCategory s)) with
                | Return result =>
                    match Analyzer.motivation_lower result with
                    | Return _ => converts (field result "sentiment")
                    | Throw _ => false
                    end
                | Throw _ => false
                end
            | Throw _ => false
            end
     end.

(** The code units of ASCII, on which [toLowerCase] needs no case table. *)
Definition is_ascii (s : jsstring) : bool := forallb (fun c => c <? 128) s.

(** What [join] makes of an element. *)
Definition element_text (v : jsval) : jsstring :=
  match v with
  | JUndefined | JNull => []
  | _ => text_of v
  end.

(** What [join] makes of an array whose elements convert. *)
Definition joined (v : jsval) (sep : jsstring) : jsstring :=
  match v with
  | JArr items => join_with sep (element_text <$> items)
  | _ => []
  end.

(** The system turn of the follow-up chat as lines 750-762 print it, for a
    result from which it can be built. *)
Definition system_turn (category : jsstring) (r : jsval) : jsstring :=
  lit "You are a professional negotiation assistant specializing in " ++ category
  ++ lit " transactions. " ++ [10; 10]
  ++ lit "Based on the Gemini 2.5 Pro image analysis results:" ++ [10]
  ++ lit "- Sentiment: " ++ text_of (field r "sentiment") ++ [10]
  ++ lit "- Key Points: " ++ joined (field r "keyPoints") (lit ", ") ++ [10]
  ++ lit "- Seller Motivation: " ++ text_of (field r "sellerMotivation") ++ [10]
  ++ lit "- Urgency Level: " ++ text_of (field r "urgencyLevel") ++ [10]
  ++ lit "- Price Flexibility: "
  ++ text_of (or_else (field (field r "priceAnalysis") "priceFlexibility")
                (JStr (lit "unknown"))) ++ [10]
  ++ lit "- Mentioned Price: "
  ++ text_of (or_else (field (field r "priceAnalysis") "mentionedPrice")
                (JStr (lit "none mentioned"))) ++ [10]
  ++ lit "- Suggested Response: " ++ text_of (field r "suggestedResponse") ++ [10]
  ++ lit "- Negotiation Tips: " ++ joined (field r "negotiationTips") (lit ", ") ++ [10; 10]
  ++ lit "Use this analysis to provide specific, actionable negotiation advice.".

(** The system turn of the follow-up chat can be built from a result: its
    [keyPoints] and [negotiationTips] are arrays, and every value that the
    template prints converts to a string. *)
Definition prompt_builds (r : jsval) : bool :=
  converts (field r "sentiment")
  && is_array (field r "keyPoints") && converts (field r "keyPoints")
  && converts (field r "sellerMotivation")
  && converts (field r "urgencyLevel")
  && converts (or_else (field (field r "priceAnalysis") "priceFlexibility")
                 (JStr (lit "unknown")))
  && converts (or_else (field (field r "priceAnalysis") "mentionedPrice")
                 (JStr (lit "none mentioned")))
  && converts (field r "suggestedResponse")
  && is_array (field r "negotiationTips") && converts (field r "negotiationTips").

(** *** The upload of the text chat, step by step *)

Definition vision_call (f : file) : action :=
  Fetch GoogleVision (TextChat.vision_body (TextChat.base64_part (dataURL f))).

Definition vision_failed_toast (e : exn) : toast :=
  {| title := lit "Analysis Failed";
     description := lit "Something went wrong: " ++ exn_message e;
     variant := Some destructive |}.

Definition image_analyzed_toast : toast :=
  {| title := lit "Image Analyzed";
     description := lit "Text extracted from your image successfully!";
     variant := None |}.

(** The entry that reports the text found in an image. *)
Definition vision_entry (text : jsval) (now : Z) : message :=
  {| id := Number_toString now;
     type := ai;
     content :=
       JStr ([55357; 56567] ++ lit " Image Analysis Results:" ++ [10; 10]
             ++ text_of text ++ [10; 10]
             ++ lit "Based on this text from your image, I can help you craft negotiation strategies. What would you like to negotiate?");
     timestamp := now;
     isAudio := None;
     hasImage := None |}.

(** What the upload reads out of the reply of the vision service, once
    it is known to convert to a string. *)
Definition vision_text (net : http) : result jsval :=
  match net with
  | Rejects => Throw NetworkFailure
  | Responds _ body =>
      match JSON_parse body with
      | Return data =>
          match outcome (TextChat.annotation_text data) with
          | Return text =>
              match ToString text with
              | Return _ => Return text
              | Throw e => Throw e
              end
          | Throw e => Throw e
          end
      | Throw e => Throw e
      end
  end.


Definition analyzer_voice_text : jsstring :=
  lit "What's the best strategy based on this analysis?".

(** The request of a send of the text chat. *)
Definition chat_call (s : TextChat.state) : action :=
  Fetch OpenRouterChat
    (chat_body (lit "openai/gpt-4.1")
       (TextChat.system_prompt (TextChat.selectedCategory s) (TextChat.negotiationData s))
       (TextChat.inputMessage s)).

(** Every entry of a log was written by the user or by the assistant. *)
Definition no_seller (log : list message) : Prop :=
  Forall (fun m => type m = user \/ type m = ai) log.

(** *** More sample inputs *)

(** What the vision service answers to a key it refuses. *)
Definition vision_refusal : http :=
  Responds 403 (json_lit "{'error': {'code': 403, 'status': 'PERMISSION_DENIED'}}").

(** A reply whose object holds the motivation and nothing else. *)
Definition brief_reply : jsstring :=
  json_lit "Here is my analysis: {'sellerMotivation': 'Moving OUT'}".

Definition brief_body : jsstring :=
  json_lit "{'choices':[{'message':{'content':'Here is my analysis: {\'sellerMotivation\': \'Moving OUT\'}'}}]}".

(** The analyzer after an analysis whose object lacked most fields. *)
Definition half_analyzed : Analyzer.state :=
  AnalyzerSession.step uploaded (AnalyzerSession.Analyze (Responds 200 partial_body) 1000).

(** The follow-up chat while a recording is on. *)
Definition recording : Analyzer.state :=
  AnalyzerSession.step (analyzed_with []) AnalyzerSession.Voice.

(** The follow-up chat with a question typed in while a request is pending. *)
Definition asking : Analyzer.state :=
  {| Analyzer.selectedCategory := lit "electronics";
     Analyzer.uploadedImage := Some (lit "data:image/png;base64,iVBORw0KGgo=");
     Analyzer.isAnalyzing := false;
     Analyzer.analysisResult := sample_analysis;
     Analyzer.dragActive := false;
     Analyzer.chatMessages := [];
     Analyzer.inputMessage := lit "What next?";
     Analyzer.isRecording := false;
     Analyzer.isLoading := true |}.

(** The text chat with a question typed in while a request is pending. *)
Definition pending : TextChat.state :=
  {| TextChat.selectedCategory := lit "electronics"; TextChat.negotiationData := bike;
     TextChat.messages := []; TextChat.inputMessage := lit "Is 200 fair?";
     TextChat.isRecording := false; TextChat.isLoading := true;
     TextChat.uploadedImage := None |}.

(* ===================================================================== *)
(** ** Properties of the runtime fragment *)
(* ===================================================================== *)

Module JSFacts.

(** Numbers print as the doubles they denote, not as they were written. *)
Example numbers_print_as_doubles :
  (fun l => print_number (Number_of_literal (lit l)))
    <$> [ "1.50"; "1e3"; "1E21"; "1e20"; "0.000001"; "1e-7"; "-12.5e-1";
          "9007199254740993"; "123456789012345678901234567890";
          "0.30000000000000004"; "5e-324"; "2.4e-324"; "-0.0";
          "1.7976931348623157e308"; "1.7976931348623159e308"; "-1e400" ]%string
  = lit <$> [ "1.5"; "1000"; "1e+21"; "100000000000000000000"; "0.000001"; "1e-7"; "-1.25";
              "9007199254740992"; "1.2345678901234568e+29";
              "0.30000000000000004"; "5e-324"; "0"; "0";
              "1.7976931348623157e+308"; "Infinity"; "-Infinity" ]%string.
Proof. vm_compute. reflexivity. Qed.

(** A numeral that rounds to zero is falsy, as zero is. *)
Example zero_is_falsy :
  (fun l => truthy (JNum (lit l))) <$> [ "0"; "-0"; "0.0"; "0e10"; "1e-400"; "5e-324"; "1" ]%string
  = [ false; false; false; false; false; true; true ].
Proof. vm_compute. reflexivity. Qed.

(** The conversion of arrays and objects: [null] and [undefined] print
    empty inside an array, a plain object prints its class, and an object
    with a [toString] of its own cannot be converted. *)
Example conversion_of_objects :
  ToString (JArr [JNull; JNum (lit "1e3"); JArr [JStr (lit "a"); JUndefined]; JObj []])
  = Return (lit ",1000,a,,[object Object]")
  /\ ToString (JObj [ (lit "toString", JNum (lit "1")) ]) = Throw TypeError
  /\ ToString (JArr [JStr (lit "a"); JObj [ (lit "toString", JNull) ]]) = Throw TypeError
  /\ join (JArr [JNum (lit "2.0"); JNull; JBool true]) (lit ", ") = Return (lit "2, , true")
  /\ join (JStr (lit "a")) (lit ", ") = Throw TypeError.
Proof. repeat split; vm_compute; reflexivity. Qed.

Lemma skip_ws_length (s : jsstring) : (length (skip_ws s) <= length s)%nat.
Proof.
  induction s as [|c r IH]; cbn [skip_ws length]; [lia|].
  destruct (is_ws c); cbn [length]; lia.
Qed.

Lemma span_digits_length (s d r : jsstring) :
  span_digits s = (d, r) -> (length r <= length s)%nat.
Proof.
  revert d r. induction s as [|c s IH]; simpl; intros d r H.
  - inversion H; subst; simpl; lia.
  - destruct (is_digit c).
    + destruct (span_digits s) as [d' r'] eqn:E. inversion H; subst.
      specialize (IH _ _ eq_refl). lia.
    + inversion H; subst; simpl; lia.
Qed.

Lemma parse_chars_length (n : nat) :
  forall s acc str r,
    (length s <= n)%nat -> parse_chars s acc = Some (str, r) ->
    (length r < length s)%nat.
Proof.
  induction n as [|n IH]; intros s acc str r Hn H.
  - destruct s; simpl in *; [discriminate | lia].
  - destruct s as [|c s]; simpl in *; [discriminate|].
    destruct (c =? 34).
    { inversion H; subst; lia. }
    destruct (chr "\" c).
    { destruct s as [|e r1]; [discriminate|].
      destruct (chr "u" e).
      - destruct r1 as [|h1 [|h2 [|h3 [|h4 r2]]]]; try discriminate.
        destruct (hex4 h1 h2 h3 h4); [|discriminate].
        apply IH in H; simpl in *; lia.
      - destruct (unescape e); [|discriminate].
        apply IH in H; simpl in *; lia. }
    destruct (c <? 32); [discriminate|].
    apply IH in H; simpl in *; lia.
Qed.

Lemma parse_int_part_length (s i r : jsstring) :
  parse_int_part s = Some (i, r) -> (length r < length s)%nat.
Proof.
  unfold parse_int_part. intros H.
  destruct s as [|c r0]; [discriminate|].
  destruct (chr "-" c).
  - destruct r0 as [|c1 r1]; [discriminate|].
    destruct (chr "0" c1).
    + inversion H; subst; simpl; lia.
    + destruct (is_digit c1); [|discriminate].
      destruct (span_digits r1) as [d r2] eqn:E. inversion H; subst.
      apply span_digits_length in E. simpl; lia.
  - destruct (chr "0" c).
    + inversion H; subst; simpl; lia.
    + destruct (is_digit c); [|discriminate].
      destruct (span_digits r0) as [d r2] eqn:E. inversion H; subst.
      apply span_digits_length in E. simpl; lia.
Qed.

Lemma parse_frac_part_length (s f r : jsstring) :
  parse_frac_part s = Some (f, r) -> (length r <= length s)%nat.
Proof.
  unfold parse_frac_part. intros H.
  destruct s as [|c r0]; [inversion H; subst; simpl; lia|].
  destruct (chr "." c).
  - destruct (span_digits r0) as [d r1] eqn:E.
    apply span_digits_length in E.
    destruct d; [discriminate|]. inversion H; subst. simpl; lia.
  - inversion H; subst; simpl; lia.
Qed.

Lemma parse_exp_part_length (s e r : jsstring) :
  parse_exp_part s = Some (e, r) -> (length r <= length s)%nat.
Proof.
  unfold parse_exp_part. intros H.
  destruct s as [|c r0]; [inversion H; subst; simpl; lia|].
  destruct (chr "e" c || chr "E" c).
  - destruct r0 as [|g r1].
    + simpl in H. discriminate.
    + destruct (chr "+" g || chr "-" g).
      * destruct (span_digits r1) as [d r2] eqn:E.
        apply span_digits_length in E.
        destruct d; [discriminate|]. inversion H; subst. simpl; lia.
      * destruct (span_digits (g :: r1)) as [d r2] eqn:E.
        apply span_digits_length in E.
        destruct d; [discriminate|]. inversion H; subst. simpl in *; lia.
  - inversion H; subst; simpl; lia.
Qed.

Lemma parse_number_length (s l r : jsstring) :
  parse_number s = Some (l, r) -> (length r < length s)%nat.
Proof.
  unfold parse_number. intros H.
  destruct (parse_int_part s) as [[i s1]|] eqn:E1; [|discriminate].
  destruct (parse_frac_part s1) as [[f s2]|] eqn:E2; [|discriminate].
  destruct (parse_exp_part s2) as [[e s3]|] eqn:E3; [|discriminate].
  inversion H; subst.
  apply parse_int_part_length in E1. apply parse_frac_part_length in E2.
  apply parse_exp_part_length in E3. lia.
Qed.

Lemma startsWith_length (p s : jsstring) :
  startsWith p s = true -> (length p <= length s)%nat.
Proof.
  revert s. induction p as [|a p IH]; intros [|b s] H; simpl in *; try lia; try discriminate.
  apply andb_true_iff in H as [_ H]. apply IH in H. lia.
Qed.

(** One unfolding of the parser, its helpers left folded. *)
Ltac step :=
  cbn -[startsWith lit drop chr is_digit skip_ws parse_chars parse_number N.eqb].
Ltac step_in H :=
  cbn -[startsWith lit drop chr is_digit skip_ws parse_chars parse_number N.eqb] in H.

(** A value, an element list or a member list that is accepted has read at
    least one character. *)
Lemma parse_shorter (fuel : nat) :
  (forall s v r, parse_value fuel s = Parsed v r -> (length r < length s)%nat)
  /\ (forall s acc v r, parse_elements fuel s acc = Parsed v r -> (length r < length s)%nat)
  /\ (forall s acc v r, parse_members fuel s acc = Parsed v r -> (length r < length s)%nat).
Proof.
  induction fuel as [|f (IHv & IHe & IHm)]; [repeat split; intros; discriminate|].
  repeat split.
  - intros s v r H. step_in H.
    destruct s as [|c s]; [discriminate|].
    destruct (chr "{" c).
    { pose proof (skip_ws_length s) as Hw.
      destruct (skip_ws s) as [|c' r'] eqn:E; [discriminate|].
      destruct (chr "}" c').
      - inversion H; subst. simpl in *; lia.
      - apply IHm in H. simpl in *; lia. }
    destruct (chr "[" c).
    { pose proof (skip_ws_length s) as Hw.
      destruct (skip_ws s) as [|c' r'] eqn:E; [discriminate|].
      destruct (chr "]" c').
      - inversion H; subst. simpl in *; lia.
      - apply IHe in H. simpl in *; lia. }
    destruct (c =? 34).
    { destruct (parse_chars s []) as [[str r']|] eqn:E; [|discriminate].
      inversion H; subst.
      apply (parse_chars_length (length s)) in E; simpl; lia. }
    destruct (chr "-" c || is_digit c).
    { destruct (parse_number (c :: s)) as [[l r']|] eqn:E; [|discriminate].
      inversion H; subst. apply parse_number_length in E. exact E. }
    destruct (startsWith (lit "true") (c :: s)) eqn:Et.
    { inversion H; subst. apply startsWith_length in Et.
      rewrite length_drop. simpl in *. lia. }
    destruct (startsWith (lit "false") (c :: s)) eqn:Ef.
    { inversion H; subst. apply startsWith_length in Ef.
      rewrite length_drop. simpl in *. lia. }
    destruct (startsWith (lit "null") (c :: s)) eqn:En; [|discriminate].
    inversion H; subst. apply startsWith_length in En.
    rewrite length_drop. simpl in *. lia.
  - intros s acc v r H. step_in H.
    destruct (parse_value f s) as [v1 r1| |] eqn:E; try discriminate.
    apply IHv in E.
    pose proof (skip_ws_length r1) as Hw.
    destruct (skip_ws r1) as [|c r'] eqn:E1; [discriminate|].
    destruct (chr "," c).
    + apply IHe in H. pose proof (skip_ws_length r'). simpl in *; lia.
    + destruct (chr "]" c); [|discriminate].
      inversion H; subst. simpl in *; lia.
  - intros s acc v r H. step_in H.
    destruct s as [|c s]; [discriminate|].
    destruct (c =? 34); [|discriminate].
    destruct (parse_chars s []) as [[k r1]|] eqn:E; [|discriminate].
    apply (parse_chars_length (length s)) in E; [|lia].
    pose proof (skip_ws_length r1) as Hw1.
    destruct (skip_ws r1) as [|c1 r2] eqn:E1; [discriminate|].
    destruct (chr ":" c1); [|discriminate].
    destruct (parse_value f (skip_ws r2)) as [v1 r3| |] eqn:E2; try discriminate.
    apply IHv in E2.
    pose proof (skip_ws_length r2) as Hw2.
    pose proof (skip_ws_length r3) as Hw3.
    destruct (skip_ws r3) as [|c3 r4] eqn:E3; [discriminate|].
    destruct (chr "," c3).
    + apply IHm in H. pose proof (skip_ws_length r4). simpl in *; lia.
    + destruct (chr "}" c3); [|discriminate].
      inversion H; subst. simpl in *; lia.
Qed.

(** Twice the length of the text, and one more, is fuel enough: the parser
    never stops for lack of it. *)
Lemma parse_fuel_enough (fuel : nat) :
  (forall s, (2 * length s < fuel)%nat -> parse_value fuel s <> OutOfFuel)
  /\ (forall s acc, (2 * length s + 1 < fuel)%nat -> parse_elements fuel s acc <> OutOfFuel)
  /\ (forall s acc, (2 * length s + 1 < fuel)%nat -> parse_members fuel s acc <> OutOfFuel).
Proof.
  induction fuel as [|f (IHv & IHe & IHm)]; [repeat split; intros; lia|].
  destruct (parse_shorter f) as (Sv & Se & Sm).
  repeat split.
  - intros s Hf. step.
    destruct s as [|c s]; [discriminate|].
    pose proof (skip_ws_length s) as Hw.
    destruct (chr "{" c).
    { destruct (skip_ws s) as [|c' r'] eqn:E; [discriminate|].
      destruct (chr "}" c'); [discriminate|].
      apply IHm. simpl in *; lia. }
    destruct (chr "[" c).
    { destruct (skip_ws s) as [|c' r'] eqn:E; [discriminate|].
      destruct (chr "]" c'); [discriminate|].
      apply IHe. simpl in *; lia. }
    destruct (c =? 34).
    { destruct (parse_chars s []) as [[str r']|]; discriminate. }
    destruct (chr "-" c || is_digit c).
    { destruct (parse_number (c :: s)) as [[l r']|]; discriminate. }
    destruct (startsWith (lit "true") (c :: s)); [discriminate|].
    destruct (startsWith (lit "false") (c :: s)); [discriminate|].
    destruct (startsWith (lit "null") (c :: s)); discriminate.
  - intros s acc Hf. step.
    destruct (parse_value f s) as [v1 r1| |] eqn:E; [|discriminate|].
    + apply Sv in E.
      pose proof (skip_ws_length r1) as Hw.
      destruct (skip_ws r1) as [|c r'] eqn:E1; [discriminate|].
      destruct (chr "," c).
      * apply IHe. pose proof (skip_ws_length r'). simpl in *; lia.
      * destruct (chr "]" c); discriminate.
    + exfalso. apply (IHv s); [lia | exact E].
  - intros s acc Hf. step.
    destruct s as [|c s]; [discriminate|].
    destruct (c =? 34); [|discriminate].
    destruct (parse_chars s []) as [[k r1]|] eqn:E; [|discriminate].
    apply (parse_chars_length (length s)) in E; [|lia].
    pose proof (skip_ws_length r1) as Hw1.
    destruct (skip_ws r1) as [|c1 r2] eqn:E1; [discriminate|].
    destruct (chr ":" c1); [|discriminate].
    pose proof (skip_ws_length r2) as Hw2.
    destruct (parse_value f (skip_ws r2)) as [v1 r3| |] eqn:E2; [|discriminate|].
    + apply Sv in E2.
      pose proof (skip_ws_length r3) as Hw3.
      destruct (skip_ws r3) as [|c3 r4] eqn:E3; [discriminate|].
      destruct (chr "," c3).
      * apply IHm. pose proof (skip_ws_length r4). simpl in *; lia.
      * destruct (chr "}" c3); discriminate.
    + exfalso. apply (IHv (skip_ws r2)); [simpl in *; lia | exact E2].
Qed.

(** [JSON_parse] rejects a text only when the grammar does. *)
Lemma JSON_parse_never_out_of_fuel (text : jsstring) :
  parse_value (2 * length (skip_ws text) + 1) (skip_ws text) <> OutOfFuel.
Proof. apply parse_fuel_enough. lia. Qed.

(** *** What the parser returns for an opening brace *)

Lemma parse_members_object (fuel : nat) :
  forall s acc v r, parse_members fuel s acc = Parsed v r -> exists props, v = JObj props.
Proof.
  induction fuel as [|f IH]; intros s acc v r H; [discriminate|].
  step_in H.
  destruct s as [|c s]; [discriminate|].
  destruct (c =? 34); [|discriminate].
  destruct (parse_chars s []) as [[k r1]|]; [|discriminate].
  destruct (skip_ws r1) as [|c1 r2]; [discriminate|].
  destruct (chr ":" c1); [|discriminate].
  destruct (parse_value f (skip_ws r2)) as [v1 r3| |]; try discriminate.
  destruct (skip_ws r3) as [|c3 r4]; [discriminate|].
  destruct (chr "," c3); [exact (IH _ _ _ _ H)|].
  destruct (chr "}" c3); [|discriminate].
  inversion H; subst. eauto.
Qed.

Lemma parse_elements_array (fuel : nat) :
  forall s acc v r, parse_elements fuel s acc = Parsed v r -> exists items, v = JArr items.
Proof.
  induction fuel as [|f IH]; intros s acc v r H; [discriminate|].
  step_in H.
  destruct (parse_value f s) as [v1 r1| |]; try discriminate.
  destruct (skip_ws r1) as [|c r']; [discriminate|].
  destruct (chr "," c); [exact (IH _ _ _ _ H)|].
  destruct (chr "]" c); [|discriminate].
  inversion H; subst. eauto.
Qed.

(** Only a text that opens with a brace denotes an object ... *)
Lemma parse_value_object_brace (fuel : nat) (s : jsstring) (props : list (jsstring * jsval))
    (r : jsstring) :
  parse_value fuel s = Parsed (JObj props) r -> exists body, s = 123 :: body.
Proof.
  destruct fuel as [|f]; [discriminate|]. intros H. step_in H.
  destruct s as [|c s]; [discriminate|].
  destruct (chr "{" c) eqn:Ec.
  { apply N.eqb_eq in Ec. subst c. eauto. }
  destruct (chr "[" c).
  { destruct (skip_ws s) as [|c' r']; [discriminate|].
    destruct (chr "]" c'); [discriminate|].
    apply parse_elements_array in H as [items Hi]. discriminate. }
  destruct (c =? 34).
  { destruct (parse_chars s []) as [[str r']|]; discriminate. }
  destruct (chr "-" c || is_digit c).
  { destruct (parse_number (c :: s)) as [[l r']|]; discriminate. }
  destruct (startsWith (lit "true") (c :: s)); [discriminate|].
  destruct (startsWith (lit "false") (c :: s)); [discriminate|].
  destruct (startsWith (lit "null") (c :: s)); discriminate.
Qed.

(** ... and a text that opens with a brace denotes nothing else. *)
Lemma parse_value_brace_object (fuel : nat) (body : jsstring) (v : jsval) (r : jsstring) :
  parse_value fuel (123 :: body) = Parsed v r -> exists props, v = JObj props.
Proof.
  destruct fuel as [|f]; [discriminate|]. intros H. step_in H.
  change (chr "{" 123) with true in H. cbv iota in H.
  destruct (skip_ws body) as [|c' r']; [discriminate|].
  destruct (chr "}" c').
  - inversion H; subst. eauto.
  - apply parse_members_object in H. exact H.
Qed.

Lemma skip_ws_suffix (s : jsstring) : exists ws, s = ws ++ skip_ws s.
Proof.
  induction s as [|c r [ws IH]]; [exists []; reflexivity|].
  cbn [skip_ws]. destruct (is_ws c).
  - exists (c :: ws). cbn [app]. f_equal. exact IH.
  - exists []. reflexivity.
Qed.

Lemma JSON_parse_object_has_brace (text : jsstring) (props : list (jsstring * jsval)) :
  JSON_parse text = Return (JObj props) -> 123 ∈ text.
Proof.
  unfold JSON_parse. intros H.
  destruct (parse_value _ _) as [v r| |] eqn:E; try discriminate.
  destruct (skip_ws r); [|discriminate]. injection H as ->.
  apply parse_value_object_brace in E as [body Eb].
  destruct (skip_ws_suffix text) as [ws Ews]. rewrite Ews, Eb.
  apply elem_of_app. right. left.
Qed.

Lemma JSON_parse_brace_object (body : jsstring) (v : jsval) :
  JSON_parse (123 :: body) = Return v -> exists props, v = JObj props.
Proof.
  unfold JSON_parse. change (skip_ws (123 :: body)) with (123 :: body). intros H.
  destruct (parse_value _ _) as [v' r| |] eqn:E; try discriminate.
  destruct (skip_ws r); [|discriminate]. injection H as ->.
  exact (parse_value_brace_object _ _ _ _ E).
Qed.

(** *** The brace expression *)

Lemma through_last_prefix (c : N) (s p : jsstring) :
  through_last c s = Some p -> exists post, s = p ++ post.
Proof.
  revert p. induction s as [|x s IH]; intros p H; [discriminate|].
  simpl in H. destruct (through_last c s) as [q|].
  - injection H as <-. destruct (IH q eq_refl) as [post ->]. exists post. reflexivity.
  - destruct (x =? c); [|discriminate]. injection H as <-. exists s. reflexivity.
Qed.

(** A match is a stretch of the text and opens with a brace. *)
Lemma match_braces_stretch (text span : jsstring) :
  match_braces text = Some span ->
  exists pre body post, text = pre ++ span ++ post /\ span = 123 :: body.
Proof.
  revert span. induction text as [|c r IH]; intros span H; [discriminate|].
  simpl in H. destruct (chr "{" c) eqn:Ec.
  - destruct (through_last 125 r) as [m|] eqn:Em.
    + injection H as <-. apply N.eqb_eq in Ec. subst c.
      destruct (through_last_prefix _ _ _ Em) as [post ->].
      exists [], m, post. split; reflexivity.
    + destruct (IH span H) as (pre & body & post & -> & Hs).
      exists (c :: pre), body, post. split; [reflexivity | exact Hs].
  - destruct (IH span H) as (pre & body & post & -> & Hs).
    exists (c :: pre), body, post. split; [reflexivity | exact Hs].
Qed.

Lemma through_last_closing (c : N) (body post : jsstring) :
  has c post = false ->
  through_last c (body ++ c :: post) = Some (body ++ [c]).
Proof.
  intros Hpost.
  assert (Hnone : through_last c post = None).
  { induction post as [|x post IH]; [reflexivity|].
    unfold has in Hpost. cbn [existsb] in Hpost. apply orb_false_iff in Hpost as [Hx Hp].
    cbn [through_last]. rewrite (IH Hp). rewrite N.eqb_sym, Hx. reflexivity. }
  induction body as [|x body IH]; simpl.
  - rewrite Hnone, N.eqb_refl. reflexivity.
  - simpl in IH. rewrite IH. reflexivity.
Qed.

(** With no opening brace before it and no closing brace after it, an
    object text is what the expression matches. *)
Lemma match_braces_embedded (pre body post : jsstring) :
  has 123 pre = false -> has 125 post = false ->
  match_braces (pre ++ [123] ++ body ++ [125] ++ post) = Some ([123] ++ body ++ [125]).
Proof.
  intros Hpre Hpost. induction pre as [|x pre IH].
  - simpl. change (chr "{" 123) with true. cbv iota.
    rewrite (through_last_closing 125 body post Hpost). reflexivity.
  - unfold has in Hpre. cbn [existsb] in Hpre. apply orb_false_iff in Hpre as [Hx Hp].
    cbn [app match_braces].
    assert (Ex : chr "{" x = false) by (unfold chr; rewrite N.eqb_sym; exact Hx).
    rewrite Ex. exact (IH Hp).
Qed.


(** *** Reading back the JSON text of a value *)

Lemma hex4_print (c : N) :
  c < 32 -> hex4 48 48 (hex_digit (c / 16)) (hex_digit (c mod 16)) = Some c.
Proof.
  intros H.
  destruct c as [|p]; [reflexivity|].
  do 5 (destruct p as [p|p|]; try reflexivity); exfalso; lia.
Qed.

Lemma parse_chars_JSON_string (s : jsstring) :
  forall acc rest,
    parse_chars (flat_map escape_unit s ++ 34 :: rest) acc = Some (rev acc ++ s, rest).
Proof.
  induction s as [|c s IH]; intros acc rest.
  - cbn. rewrite app_nil_r. reflexivity.
  - cbn [flat_map]. rewrite <- app_assoc.
    replace (rev acc ++ c :: s) with (rev (c :: acc) ++ s)
      by (cbn [rev]; rewrite <- app_assoc; reflexivity).
    unfold escape_unit.
    destruct (c =? 34) eqn:E34. { apply N.eqb_eq in E34. subst c. apply IH. }
    destruct (c =? 92) eqn:E92. { apply N.eqb_eq in E92. subst c. apply IH. }
    destruct (c =? 8) eqn:E8. { apply N.eqb_eq in E8. subst c. apply IH. }
    destruct (c =? 12) eqn:E12. { apply N.eqb_eq in E12. subst c. apply IH. }
    destruct (c =? 10) eqn:E10. { apply N.eqb_eq in E10. subst c. apply IH. }
    destruct (c =? 13) eqn:E13. { apply N.eqb_eq in E13. subst c. apply IH. }
    destruct (c =? 9) eqn:E9. { apply N.eqb_eq in E9. subst c. apply IH. }
    destruct (c <? 32) eqn:Elt.
    + apply N.ltb_lt in Elt.
      cbn [app parse_chars]. change (92 =? 34) with false. change (chr "\" 92) with true.
      change (chr "u" 117) with true. cbv iota.
      rewrite (hex4_print c Elt). apply IH.
    + cbn [app parse_chars]. unfold chr. change (N_of_ascii "\") with 92.
      rewrite E34, E92, Elt. apply IH.
Qed.

Lemma number_end_cases (rest : jsstring) :
  number_end rest = true ->
  rest = [] \/ exists c t, rest = c :: t /\ is_digit c = false /\ chr "." c = false
                           /\ (chr "e" c || chr "E" c) = false.
Proof.
  destruct rest as [|c t]; [left; reflexivity|]. cbn. intros H. right.
  exists c, t. apply negb_true_iff in H.
  destruct (is_digit c), (chr "." c), (chr "e" c), (chr "E" c); try discriminate.
  repeat split.
Qed.

Lemma span_digits_app (s d r rest : jsstring) :
  span_digits s = (d, r) -> number_end rest = true ->
  span_digits (s ++ rest) = (d, r ++ rest).
Proof.
  intros H Hend. revert d r H. induction s as [|c s IH]; intros d r H.
  - cbn in H. injection H as <- <-. cbn [app].
    destruct (number_end_cases rest Hend) as [->|(c & t & -> & Hd & _)]; [reflexivity|].
    cbn. rewrite Hd. reflexivity.
  - cbn in H. cbn [app span_digits]. destruct (is_digit c).
    + destruct (span_digits s) as [d' r'] eqn:E. injection H as <- <-.
      rewrite (IH d' r' eq_refl). reflexivity.
    + injection H as <- <-. reflexivity.
Qed.

Lemma parse_int_part_app (s i r rest : jsstring) :
  parse_int_part s = Some (i, r) -> number_end rest = true ->
  parse_int_part (s ++ rest) = Some (i, r ++ rest).
Proof.
  unfold parse_int_part. intros H Hend.
  destruct s as [|c s]; [discriminate|]. cbn [app].
  destruct (chr "-" c).
  - destruct s as [|c1 s1]; [discriminate|]. cbn [app].
    destruct (chr "0" c1); [injection H as <- <-; reflexivity|].
    destruct (is_digit c1); [|discriminate].
    destruct (span_digits s1) as [d r1] eqn:E. injection H as <- <-.
    rewrite (span_digits_app _ _ _ rest E Hend). reflexivity.
  - destruct (chr "0" c); [injection H as <- <-; reflexivity|].
    destruct (is_digit c); [|discriminate].
    destruct (span_digits s) as [d r1] eqn:E. injection H as <- <-.
    rewrite (span_digits_app _ _ _ rest E Hend). reflexivity.
Qed.

Lemma parse_frac_part_app (s f r rest : jsstring) :
  parse_frac_part s = Some (f, r) -> number_end rest = true ->
  parse_frac_part (s ++ rest) = Some (f, r ++ rest).
Proof.
  unfold parse_frac_part. intros H Hend.
  destruct s as [|c s]; cbn [app].
  - injection H as <- <-. cbn [app].
    destruct (number_end_cases rest Hend) as [->|(c & t & -> & _ & Hdot & _)]; [reflexivity|].
    rewrite Hdot. reflexivity.
  - destruct (chr "." c); [|injection H as <- <-; reflexivity].
    destruct (span_digits s) as [d r1] eqn:E.
    rewrite (span_digits_app _ _ _ rest E Hend).
    destruct d; [discriminate|]. injection H as <- <-. reflexivity.
Qed.

Lemma parse_exp_part_app (s e r rest : jsstring) :
  parse_exp_part s = Some (e, r) -> number_end rest = true ->
  parse_exp_part (s ++ rest) = Some (e, r ++ rest).
Proof.
  unfold parse_exp_part. intros H Hend.
  destruct s as [|c s]; cbn [app].
  - injection H as <- <-. cbn [app].
    destruct (number_end_cases rest Hend) as [->|(c & t & -> & _ & _ & He)]; [reflexivity|].
    rewrite He. reflexivity.
  - destruct (chr "e" c || chr "E" c); [|injection H as <- <-; reflexivity].
    destruct s as [|g s1].
    + cbn in H. discriminate.
    + cbn [app]. destruct (chr "+" g || chr "-" g).
      * destruct (span_digits s1) as [d r1] eqn:E.
        rewrite (span_digits_app _ _ _ rest E Hend).
        destruct d; [discriminate|]. injection H as <- <-. reflexivity.
      * destruct (span_digits (g :: s1)) as [d r1] eqn:E.
        change (g :: s1 ++ rest) with ((g :: s1) ++ rest).
        rewrite (span_digits_app _ _ _ rest E Hend).
        destruct d; [discriminate|]. injection H as <- <-. reflexivity.
Qed.

Lemma parse_number_app (l rest : jsstring) :
  parse_number l = Some (l, []) -> number_end rest = true ->
  parse_number (l ++ rest) = Some (l, rest).
Proof.
  unfold parse_number. intros H Hend.
  destruct (parse_int_part l) as [[i s1]|] eqn:E1; [|discriminate].
  destruct (parse_frac_part s1) as [[f s2]|] eqn:E2; [|discriminate].
  destruct (parse_exp_part s2) as [[e s3]|] eqn:E3; [|discriminate].
  injection H as Hl ->.
  rewrite (parse_int_part_app _ _ _ rest E1 Hend).
  rewrite (parse_frac_part_app _ _ _ rest E2 Hend).
  rewrite (parse_exp_part_app _ _ _ rest E3 Hend).
  rewrite Hl. reflexivity.
Qed.

Lemma number_head (l l' r : jsstring) :
  parse_number l = Some (l', r) ->
  exists c t, l = c :: t /\ (chr "-" c || is_digit c) = true.
Proof.
  unfold parse_number, parse_int_part. intros H.
  destruct l as [|c t]; [discriminate|]. exists c, t. split; [reflexivity|].
  destruct (chr "-" c); [reflexivity|]. cbn [orb].
  destruct (chr "0" c) eqn:E0.
  - apply N.eqb_eq in E0. subst c. reflexivity.
  - destruct (is_digit c); [reflexivity | discriminate].
Qed.

(** Induction on values, through the lists they nest. *)
Lemma jsval_nested_ind (P : jsval -> Prop) :
  P JUndefined -> P JNull -> (forall b, P (JBool b)) -> (forall l, P (JNum l)) ->
  (forall s, P (JStr s)) ->
  (forall items, Forall P items -> P (JArr items)) ->
  (forall props, Forall (fun kv => P (snd kv)) props -> P (JObj props)) ->
  forall v, P v.
Proof.
  intros HU HN HB HNum HS HA HO.
  fix IH 1. intros [| |b|l|s|items|props].
  - exact HU.
  - exact HN.
  - apply HB.
  - apply HNum.
  - apply HS.
  - apply HA. induction items as [|x r IHr]; constructor; [apply IH | exact IHr].
  - apply HO. induction props as [|[k x] r IHr]; constructor; [apply IH | exact IHr].
Qed.

Lemma skip_ws_head (c : N) (t : jsstring) : is_ws c = false -> skip_ws (c :: t) = c :: t.
Proof. intros H. cbn [skip_ws]. rewrite H. reflexivity. Qed.

(** What the first character of a number tells the dispatch of
    [parse_value]. *)
Lemma number_head_dispatch (c : N) :
  (chr "-" c || is_digit c) = true ->
  chr "{" c = false /\ chr "[" c = false /\ (c =? 34) = false /\ is_ws c = false
  /\ chr "]" c = false /\ chr "}" c = false.
Proof.
  unfold chr, is_digit, is_ws. intros H.
  repeat match goal with
         | |- context [N_of_ascii ?a] =>
             let n := eval vm_compute in (N_of_ascii a) in change (N_of_ascii a) with n
         end.
  change (N_of_ascii "-") with 45 in H.
  assert (Hc : c = 45 \/ (48 <= c /\ c <= 57)).
  { apply orb_true_iff in H as [H|H]; [left; apply N.eqb_eq, H|right].
    apply andb_true_iff in H as [H1 H2]. apply N.leb_le in H1, H2. split; assumption. }
  assert (E : forall k, (k < 45 \/ (45 < k /\ k < 48) \/ 57 < k) -> (c =? k) = false).
  { intros k Hk. apply N.eqb_neq. lia. }
  rewrite !E by lia. repeat split.
Qed.

(** The first character of a JSON text is not white space and closes
    nothing. *)
Lemma JSON_text_head (v : jsval) :
  is_JSON v ->
  exists c t, JSON_text v = c :: t /\ is_ws c = false
              /\ chr "]" c = false /\ chr "}" c = false.
Proof.
  destruct v as [| |[|]|l|s|items|props]; cbn [is_JSON]; intros H;
    try (eexists _, _; repeat split; reflexivity).
  - destruct H.
  - destruct (number_head _ _ _ H) as (c & t & -> & Hc).
    destruct (number_head_dispatch c Hc) as (_ & _ & _ & Hw & Hb & Hbr).
    exists c, t. repeat split; assumption.
Qed.

Lemma join_with_head (sep p : jsstring) (ps : list jsstring) (c : N) (t : jsstring) :
  p = c :: t -> exists t', join_with sep (p :: ps) = c :: t'.
Proof.
  intros ->. destruct ps as [|q ps]; cbn [join_with app]; eauto.
Qed.

(** Lengths of concatenations, spelled out for [lia]. *)
Ltac lengths := repeat (progress (rewrite ?length_app; cbn [length])).
Ltac lengths_in H := repeat (progress (rewrite ?length_app in H; cbn [length] in H)).

Lemma skip_ws_app_head (l tail : jsstring) (c : N) (t : jsstring) :
  l = c :: t -> is_ws c = false -> skip_ws (l ++ tail) = l ++ tail.
Proof. intros -> H. apply skip_ws_head, H. Qed.

Lemma elements_read_back (r : list jsval) :
  forall x,
    Forall reads_back (x :: r) ->
    fold_right and True (map is_JSON (x :: r)) ->
    forall acc fuel rest,
      fuel_for (join_with [44] (map JSON_text (x :: r)) ++ 93 :: rest) 1 fuel ->
      parse_elements fuel (join_with [44] (map JSON_text (x :: r)) ++ 93 :: rest) acc
      = Parsed (JArr (rev acc ++ x :: r)) rest.
Proof.
  induction r as [|y r IH]; intros x Hrb Hjson acc fuel rest Hfuel;
    inversion Hrb as [|? ? Hx Hr]; subst; destruct Hjson as [Jx Jr];
    unfold fuel_for in Hfuel; (destruct fuel as [|f]; [lia|]).
  - cbn [map join_with] in *. lengths_in Hfuel. step.
    rewrite (Hx Jx f (93 :: rest) eq_refl) by (unfold fuel_for; lengths; lia).
    rewrite skip_ws_head by reflexivity.
    change (chr "," 93) with false. change (chr "]" 93) with true. cbv iota.
    reflexivity.
  - destruct Jr as [Jy Jr'].
    destruct (JSON_text_head y Jy) as (c & t & Ey & Hw & _).
    destruct (join_with_head [44] _ (map JSON_text r) c t Ey) as [t' EJ].
    change (JSON_text y :: map JSON_text r) with (map JSON_text (y :: r)) in EJ.
    change (map JSON_text (x :: y :: r)) with (JSON_text x :: map JSON_text (y :: r)) in *.
    change (join_with [44] (JSON_text x :: map JSON_text (y :: r)))
      with (JSON_text x ++ [44] ++ join_with [44] (map JSON_text (y :: r))) in *.
    remember (join_with [44] (map JSON_text (y :: r))) as J eqn:EJdef.
    rewrite <- !app_assoc in *. cbn [app] in *.
    lengths_in Hfuel.
    step.
    rewrite (Hx Jx f (44 :: J ++ 93 :: rest) eq_refl)
      by (unfold fuel_for; lengths; lia).
    rewrite skip_ws_head by reflexivity.
    change (chr "," 44) with true. cbv iota.
    rewrite (skip_ws_app_head J _ c t' EJ Hw).
    subst J. rewrite (IH y Hr (conj Jy Jr') (x :: acc) f rest)
      by (unfold fuel_for; lengths; lia).
    cbn [rev]. rewrite <- app_assoc. reflexivity.
Qed.

Lemma members_read_back (r : list (jsstring * jsval)) :
  forall kv,
    Forall (fun kv => reads_back (snd kv)) (kv :: r) ->
    fold_right and True (map (fun kv => is_JSON (snd kv)) (kv :: r)) ->
    forall acc fuel rest,
      fuel_for (join_with [44] (map (member_text JSON_text) (kv :: r)) ++ 125 :: rest) 1 fuel ->
      parse_members fuel
        (join_with [44] (map (member_text JSON_text) (kv :: r)) ++ 125 :: rest) acc
      = Parsed (JObj (rev acc ++ kv :: r)) rest.
Proof.
  induction r as [|kv' r IH]; intros [k x] Hrb Hjson acc fuel rest Hfuel;
    inversion Hrb as [|? ? Hx Hr]; subst; destruct Hjson as [Jx Jr];
    cbn [snd] in Hx, Jx; unfold fuel_for in Hfuel;
    (destruct fuel as [|f]; [lia|]);
    destruct (JSON_text_head x Jx) as (cx & tx & Ex & Hwx & _).
  - cbn [map join_with] in *. unfold member_text, JSON_string in *. cbn [fst snd] in *.
    rewrite <- !app_assoc in *. cbn [app] in *.
    lengths_in Hfuel.
    step. change (34 =? 34) with true. cbv iota.
    rewrite parse_chars_JSON_string. cbn [rev app].
    rewrite skip_ws_head by reflexivity.
    change (chr ":" 58) with true. cbv iota.
    rewrite (skip_ws_app_head _ _ cx tx Ex Hwx).
    rewrite (Hx Jx f (125 :: rest) eq_refl)
      by (unfold fuel_for; lengths; lia).
    rewrite skip_ws_head by reflexivity.
    change (chr "," 125) with false. change (chr "}" 125) with true. cbv iota.
    reflexivity.
  - destruct kv' as [k' y]. destruct Jr as [Jy Jr']. cbn [snd] in Jy.
    assert (EJ : exists t', join_with [44] (map (member_text JSON_text) ((k', y) :: r))
                            = 34 :: t').
    { cbn [map]. unfold member_text at 1, JSON_string. cbn [fst snd app].
      eapply join_with_head. reflexivity. }
    destruct EJ as [t' EJ].
    change (map (member_text JSON_text) ((k, x) :: (k', y) :: r))
      with (member_text JSON_text (k, x) :: map (member_text JSON_text) ((k', y) :: r)) in *.
    change (join_with [44]
              (member_text JSON_text (k, x) :: map (member_text JSON_text) ((k', y) :: r)))
      with (member_text JSON_text (k, x) ++ [44]
            ++ join_with [44] (map (member_text JSON_text) ((k', y) :: r))) in *.
    remember (join_with [44] (map (member_text JSON_text) ((k', y) :: r))) as J eqn:EJdef.
    unfold member_text, JSON_string in Hfuel. unfold member_text, JSON_string.
    cbn [fst snd] in *.
    rewrite <- !app_assoc in *. cbn [app] in *.
    lengths_in Hfuel.
    step. change (34 =? 34) with true. cbv iota.
    rewrite parse_chars_JSON_string. cbn [rev app].
    rewrite skip_ws_head by reflexivity.
    change (chr ":" 58) with true. cbv iota.
    rewrite (skip_ws_app_head _ _ cx tx Ex Hwx).
    rewrite (Hx Jx f (44 :: J ++ 125 :: rest) eq_refl)
      by (unfold fuel_for; lengths; lia).
    rewrite skip_ws_head by reflexivity.
    change (chr "," 44) with true. cbv iota.
    rewrite (skip_ws_app_head J _ 34 t' EJ eq_refl).
    subst J.
    rewrite (IH (k', y) Hr (conj Jy Jr') ((k, x) :: acc) f rest)
      by (unfold fuel_for; lengths; lia).
    cbn [rev]. rewrite <- app_assoc. reflexivity.
Qed.


(** Every JSON value is read back from its text. *)
Lemma JSON_text_reads_back (v : jsval) : reads_back v.
Proof.
  induction v as [| |b|l|s|items IH|props IH] using jsval_nested_ind;
    intros Hjson fuel rest Hend Hfuel; unfold fuel_for in Hfuel;
    (destruct fuel as [|f]; [lia|]).
  - destruct Hjson.
  - reflexivity.
  - destruct b; reflexivity.
  - cbn [is_JSON JSON_text] in *.
    destruct (number_head _ _ _ Hjson) as (c & t & El & Hc).
    destruct (number_head_dispatch c Hc) as (H1 & H2 & H3 & _).
    pose proof (parse_number_app l rest Hjson Hend) as Hnum.
    rewrite El in *. cbn [app] in *. step.
    rewrite H1, H2, H3, Hc. change (c :: t ++ rest) with ((c :: t) ++ rest) in Hnum.
    cbn [app] in Hnum. rewrite Hnum. reflexivity.
  - cbn [JSON_text]. unfold JSON_string. rewrite <- !app_assoc. cbn [app]. step.
    change (chr "{" 34) with false. change (chr "[" 34) with false.
    change (34 =? 34) with true. cbv iota.
    rewrite parse_chars_JSON_string. reflexivity.
  - cbn [JSON_text is_JSON] in *. rewrite <- !app_assoc in *. cbn [app] in *.
    lengths_in Hfuel. step.
    change (chr "{" 91) with false. change (chr "[" 91) with true. cbv iota.
    destruct items as [|x r].
    + cbn [map join_with app]. rewrite skip_ws_head by reflexivity.
      change (chr "]" 93) with true. reflexivity.
    + destruct Hjson as [Jx Jr].
      destruct (JSON_text_head x Jx) as (c & t & Ex & Hw & Hb & _).
      destruct (join_with_head [44] _ (map JSON_text r) c t Ex) as [t' EJ].
      change (JSON_text x :: map JSON_text r) with (map JSON_text (x :: r)) in EJ.
      pose proof (elements_read_back r x IH (conj Jx Jr) [] f rest) as Hel.
      remember (join_with [44] (map JSON_text (x :: r))) as J eqn:EJdef.
      rewrite (skip_ws_app_head J _ c t' EJ Hw).
      rewrite EJ in *. cbn [app] in *. rewrite Hb.
      apply Hel. unfold fuel_for. lengths. cbn [length] in Hfuel. lia.
  - cbn [JSON_text is_JSON] in *. rewrite <- !app_assoc in *. cbn [app] in *.
    lengths_in Hfuel. step.
    change (chr "{" 123) with true. cbv iota.
    destruct props as [|[k x] r].
    + cbn [map join_with app]. rewrite skip_ws_head by reflexivity.
      change (chr "}" 125) with true. reflexivity.
    + assert (EJ : exists t', join_with [44] (map (member_text JSON_text) ((k, x) :: r))
                              = 34 :: t').
      { cbn [map]. unfold member_text at 1, JSON_string. cbn [fst snd app].
        eapply join_with_head. reflexivity. }
      destruct EJ as [t' EJ].
      pose proof (members_read_back r (k, x) IH Hjson [] f rest) as Hmem.
      remember (join_with [44] (map (member_text JSON_text) ((k, x) :: r))) as J eqn:EJdef.
      rewrite (skip_ws_app_head J _ 34 t' EJ eq_refl).
      rewrite EJ in *. cbn [app] in *. change (chr "}" 34) with false. cbv iota.
      apply Hmem. unfold fuel_for. lengths. cbn [length] in Hfuel. lia.
Qed.

(** [JSON.parse] inverts the JSON text of a value. *)
Lemma JSON_parse_text (v : jsval) : is_JSON v -> JSON_parse (JSON_text v) = Return v.
Proof.
  intros Hjson. unfold JSON_parse.
  destruct (JSON_text_head v Hjson) as (c & t & E & Hw & _).
  assert (Es : skip_ws (JSON_text v) = JSON_text v).
  { rewrite E. apply skip_ws_head, Hw. }
  rewrite Es.
  pose proof (JSON_text_reads_back v Hjson (2 * length (JSON_text v) + 1)%nat [] eq_refl) as H.
  rewrite app_nil_r in H. rewrite H; [reflexivity|]. unfold fuel_for. lia.
Qed.

End JSFacts.

(* ===================================================================== *)
(** ** Properties of the effect layer and of the generators *)
(* ===================================================================== *)

Module EffFacts.

Lemma bind_ret_l {A B} (a : A) (k : A -> M B) : bind (ret a) k = k a.
Proof. unfold bind, ret. destruct (k a); reflexivity. Qed.

Lemma bind_lift {A B} (r : result A) (k : A -> M B) :
  bind (lift r) k = match r with Return a => k a | Throw e => ([], Throw e) end.
Proof. destruct r; [apply bind_ret_l | reflexivity]. Qed.

(** A step that performs no action, before steps that perform none. *)
Lemma trace_bind_lift {A B} (r : result A) (k : A -> M B) :
  (forall a, trace (k a) = []) -> trace (bind (lift r) k) = [].
Proof.
  intros H. rewrite bind_lift. destruct r as [a|e]; [apply H | reflexivity].
Qed.

(** Reading the completion out of a parsed body performs no action. *)
Lemma completion_text_pure (v : jsval) :
  completion_text v = ([], outcome (completion_text v)).
Proof.
  unfold completion_text. rewrite !bind_lift.
  destruct (get v "choices") as [c|?]; [|reflexivity].
  rewrite !bind_lift.
  destruct (get0 c) as [f|?]; [|reflexivity].
  rewrite !bind_lift.
  destruct (get f "message") as [m|?]; [|reflexivity].
  destruct (get m "content"); reflexivity.
Qed.

(** [generateAIResponse] by cases on what the network does. *)
Lemma generateAIResponse_cases (userInput : jsstring) (data : TextChat.negotiation)
    (category : jsstring) (net : http) :
  let call := Fetch OpenRouterChat
                (chat_body (lit "openai/gpt-4.1") (TextChat.system_prompt category data) userInput) in
  let label := lit "OpenAI API error:" in
  TextChat.generateAIResponse userInput data category net =
  match net with
  | Rejects => ([call; ConsoleError label NetworkFailure], Throw NetworkFailure)
  | Responds status body =>
      if ok {| res_status := status; res_body := body |} then
        match completion body with
        | Return v => ([call], Return v)
        | Throw e => ([call; ConsoleError label e], Throw e)
        end
      else
        let e := Error (lit "API request failed: " ++ Number_toString status) in
        ([call; ConsoleError label e], Throw e)
  end.
Proof.
  intros call label. unfold TextChat.generateAIResponse, completion.
  destruct net as [|status body]; [reflexivity|].
  unfold fetch, json. cbn [bind emit ret res_status res_body].
  destruct (ok _); [|reflexivity].
  cbn [negb bind ret lift res_body].
  destruct (JSON_parse body) as [v|e]; [|reflexivity].
  rewrite (completion_text_pure v).
  destruct (outcome (completion_text v)); reflexivity.
Qed.

(** The three ways in which the upstream call fails. *)
Lemma failing_causes (status : Z) (body : jsstring) :
  failing Rejects = true
  /\ (ok {| res_status := status; res_body := body |} = false ->
      failing (Responds status body) = true)
  /\ ((exists e, JSON_parse body = Throw e) -> failing (Responds status body) = true)
  /\ (forall result e,
        JSON_parse body = Return result -> outcome (completion_text result) = Throw e ->
        failing (Responds status body) = true).
Proof.
  unfold failing, malformed, completion. repeat split.
  - intros ->. reflexivity.
  - intros [e ->]. apply orb_true_r.
  - intros result e -> ->. apply orb_true_r.
Qed.

(** The upstream call fails exactly when [generateAIResponse] throws. *)
Lemma generateAIResponse_throws_iff (userInput : jsstring) (data : TextChat.negotiation)
    (category : jsstring) (net : http) :
  failing net = true <->
  exists e, outcome (TextChat.generateAIResponse userInput data category net) = Throw e.
Proof.
  rewrite generateAIResponse_cases. unfold failing, malformed.
  destruct net as [|status body]; cbn.
  - split; [eauto | reflexivity].
  - destruct (ok _); cbn.
    + destruct (completion body); cbn; split; eauto; try discriminate.
      intros [e He]; discriminate.
    + split; eauto.
Qed.

(** Building the system turn of the follow-up chat performs no action. *)
Lemma context_prompt_pure (category : jsstring) (analysis : jsval) :
  Analyzer.context_prompt category analysis
  = ([], outcome (Analyzer.context_prompt category analysis)).
Proof.
  assert (Hpure : trace (Analyzer.context_prompt category analysis) = []).
  { unfold Analyzer.context_prompt.
    repeat (apply trace_bind_lift; intros ?). reflexivity. }
  unfold trace, outcome in *.
  destruct (Analyzer.context_prompt category analysis) as [w r].
  cbn [fst snd] in *. subst w. reflexivity.
Qed.

(** [generateContextualResponse] by cases: it returns in each of them. *)
Lemma generateContextualResponse_cases (category userInput : jsstring)
    (analysis : jsval) (net : http) :
  let label := lit "GPT-4 API error:" in
  let sorry := Return (JStr Analyzer.apology) in
  Analyzer.generateContextualResponse category userInput analysis net =
  if negb (truthy analysis) then ([], Return (JStr Analyzer.guidance))
  else
    match outcome (Analyzer.context_prompt category analysis) with
    | Throw e => ([ConsoleError label e], sorry)
    | Return system =>
        let call := Fetch OpenRouterChat (chat_body (lit "openai/gpt-4.1") system userInput) in
        match net with
        | Rejects => ([call; ConsoleError label NetworkFailure], sorry)
        | Responds status body =>
            if ok {| res_status := status; res_body := body |} then
              match completion body with
              | Return v => ([call], Return v)
              | Throw e => ([call; ConsoleError label e], sorry)
              end
            else
              ([call;
                ConsoleError label
                  (Error (lit "API request failed: " ++ Number_toString status))],
               sorry)
        end
    end.
Proof.
  intros label sorry. unfold Analyzer.generateContextualResponse, completion.
  destruct (negb (truthy analysis)); [reflexivity|].
  rewrite context_prompt_pure.
  destruct (outcome (Analyzer.context_prompt category analysis)) as [system|e];
    [|reflexivity].
  destruct net as [|status body]; [reflexivity|].
  unfold fetch, json. cbn [bind emit ret res_status res_body try_catch].
  destruct (ok _); [|reflexivity].
  cbn [negb bind ret lift res_body].
  destruct (JSON_parse body) as [v|e]; [|reflexivity].
  rewrite (completion_text_pure v).
  destruct (outcome (completion_text v)); reflexivity.
Qed.

Lemma generateContextualResponse_returns (category userInput : jsstring)
    (analysis : jsval) (net : http) :
  exists v,
    outcome (Analyzer.generateContextualResponse category userInput analysis net)
    = Return v.
Proof.
  rewrite generateContextualResponse_cases. cbv zeta.
  destruct (negb (truthy analysis)); [eauto|].
  destruct (outcome (Analyzer.context_prompt category analysis)); [|eauto].
  destruct net as [|status body]; [eauto|].
  destruct (ok _); [|eauto].
  destruct (completion body); eauto.
Qed.

(** Neither generator touches the message log. *)
Lemma log_after_app (w1 w2 : list action) (log : list message) :
  log_after (w1 ++ w2) log = log_after w2 (log_after w1 log).
Proof.
  revert log. induction w1 as [|a w1 IH]; intros log; [reflexivity|].
  destruct a; simpl; apply IH.
Qed.

Lemma toasts_app (w1 w2 : list action) : toasts (w1 ++ w2) = toasts w1 ++ toasts w2.
Proof. unfold toasts. apply omap_app. Qed.

Lemma generateAIResponse_log (userInput : jsstring) (data : TextChat.negotiation)
    (category : jsstring) (net : http) (log : list message) :
  let w := trace (TextChat.generateAIResponse userInput data category net) in
  log_after w log = log /\ toasts w = [].
Proof.
  rewrite generateAIResponse_cases. cbv zeta.
  destruct net as [|status body]; [split; reflexivity|].
  destruct (ok _); [|split; reflexivity].
  destruct (completion body); split; reflexivity.
Qed.

Lemma generateContextualResponse_log (category userInput : jsstring)
    (analysis : jsval) (net : http) (log : list message) :
  let w := trace (Analyzer.generateContextualResponse category userInput analysis net) in
  log_after w log = log /\ toasts w = [].
Proof.
  rewrite generateContextualResponse_cases. cbv zeta.
  destruct (negb (truthy analysis)); [split; reflexivity|].
  destruct (outcome (Analyzer.context_prompt category analysis)); [|split; reflexivity].
  destruct net as [|status body]; [split; reflexivity|].
  destruct (ok _); [|split; reflexivity].
  destruct (completion body); split; reflexivity.
Qed.

(** The log of a state after a trace is the log the trace last set. *)
Lemma text_run_log (w : list action) (s : TextChat.state) :
  TextChat.messages (TextChat.run w s) = log_after w (TextChat.messages s).
Proof.
  unfold TextChat.run. revert s.
  induction w as [|a w IH]; intros s; [reflexivity|].
  simpl. rewrite IH. destruct a; reflexivity.
Qed.

Lemma analyzer_run_log (w : list action) (s : Analyzer.state) :
  Analyzer.chatMessages (Analyzer.run w s) = log_after w (Analyzer.chatMessages s).
Proof.
  unfold Analyzer.run. revert s.
  induction w as [|a w IH]; intros s; [reflexivity|].
  simpl. rewrite IH. destruct a; reflexivity.
Qed.

(** *** The shape of a send *)

Lemma text_send_shape (s : TextChat.state) (now : Z) (net : http) (later : Z) :
  blank (TextChat.inputMessage s) && negb (attached (TextChat.uploadedImage s)) = false ->
  let u := text_user_entry (TextChat.inputMessage s) (TextChat.uploadedImage s) now in
  let gen := TextChat.generateAIResponse (TextChat.inputMessage s)
               (TextChat.negotiationData s) (TextChat.selectedCategory s) net in
  TextChat.handleSendMessage s now net later =
  ([SetMessages (TextChat.messages s ++ [u]); SetIsLoading true;
    SetInputMessage []; SetUploadedImage None]
   ++ trace gen
   ++ match outcome gen with
      | Return v => [SetMessages ((TextChat.messages s ++ [u]) ++ [ai_entry v later]);
                     ShowToast generated_toast]
      | Throw _ => [ShowToast send_error_toast]
      end
   ++ [SetIsLoading false],
   Return tt).
Proof.
  intros Hguard u gen. unfold TextChat.handleSendMessage. rewrite Hguard.
  fold u. fold gen. unfold trace, outcome.
  destruct gen as [w [v|e]]; cbn [bind emit ret try_catch try_finally fst snd app];
    rewrite <- ?app_assoc; reflexivity.
Qed.

Lemma analyzer_send_shape (s : Analyzer.state) (now : Z) (net : http) (later : Z) :
  blank (Analyzer.inputMessage s) = false ->
  let u := analyzer_user_entry (Analyzer.inputMessage s) (Analyzer.isRecording s) now in
  let gen := Analyzer.generateContextualResponse (Analyzer.selectedCategory s)
               (Analyzer.inputMessage s) (Analyzer.analysisResult s) net in
  exists v,
    outcome gen = Return v /\
    Analyzer.handleSendMessage s now net later =
    ([SetMessages (Analyzer.chatMessages s ++ [u]); SetIsLoading true; SetInputMessage []]
     ++ trace gen
     ++ [SetMessages ((Analyzer.chatMessages s ++ [u]) ++ [ai_entry v later]);
         SetIsLoading false],
     Return tt).
Proof.
  intros Hguard u gen. unfold Analyzer.handleSendMessage. rewrite Hguard.
  fold u. fold gen.
  destruct (generateContextualResponse_returns (Analyzer.selectedCategory s)
              (Analyzer.inputMessage s) (Analyzer.analysisResult s) net) as [v Hv].
  fold gen in Hv. exists v. split; [exact Hv|].
  unfold trace, outcome in *.
  destruct gen as [w r]. cbn [snd] in Hv. subst r.
  cbn [bind emit ret try_catch try_finally fst snd app].
  rewrite <- ?app_assoc. reflexivity.
Qed.

(** What a send leaves in the log, in the text chat ... *)
Lemma text_send_log (s : TextChat.state) (now : Z) (net : http) (later : Z) :
  blank (TextChat.inputMessage s) && negb (attached (TextChat.uploadedImage s)) = false ->
  let u := text_user_entry (TextChat.inputMessage s) (TextChat.uploadedImage s) now in
  let w := trace (TextChat.handleSendMessage s now net later) in
  match outcome (TextChat.generateAIResponse (TextChat.inputMessage s)
                   (TextChat.negotiationData s) (TextChat.selectedCategory s) net) with
  | Return v =>
      log_after w (TextChat.messages s) = TextChat.messages s ++ [u; ai_entry v later]
      /\ toasts w = [generated_toast]
  | Throw _ =>
      log_after w (TextChat.messages s) = TextChat.messages s ++ [u]
      /\ toasts w = [send_error_toast]
  end.
Proof.
  intros Hguard u w. subst w. rewrite (text_send_shape s now net later Hguard).
  cbv zeta. fold u.
  pose proof (generateAIResponse_log (TextChat.inputMessage s)
                (TextChat.negotiationData s) (TextChat.selectedCategory s) net) as Hgen.
  cbv zeta in Hgen. unfold trace, outcome in *.
  destruct (TextChat.generateAIResponse _ _ _ _) as [wg [v|e]]; cbn [fst snd] in *;
    destruct (Hgen (TextChat.messages s ++ [u])) as [Hl Ht];
    rewrite !toasts_app, Ht; cbn [app log_after]; rewrite log_after_app, Hl;
    cbn; rewrite <- ?app_assoc; split; reflexivity.
Qed.

(** ... and in the follow-up chat of the analyzer. *)
Lemma analyzer_send_log (s : Analyzer.state) (now : Z) (net : http) (later : Z) :
  blank (Analyzer.inputMessage s) = false ->
  let u := analyzer_user_entry (Analyzer.inputMessage s) (Analyzer.isRecording s) now in
  let w := trace (Analyzer.handleSendMessage s now net later) in
  exists v,
    outcome (Analyzer.generateContextualResponse (Analyzer.selectedCategory s)
               (Analyzer.inputMessage s) (Analyzer.analysisResult s) net) = Return v
    /\ log_after w (Analyzer.chatMessages s) = Analyzer.chatMessages s ++ [u; ai_entry v later]
    /\ toasts w = [].
Proof.
  intros Hguard u w. subst w.
  destruct (analyzer_send_shape s now net later Hguard) as (v & Hv & Hshape).
  exists v. split; [exact Hv|]. rewrite Hshape. fold u.
  pose proof (generateContextualResponse_log (Analyzer.selectedCategory s)
                (Analyzer.inputMessage s) (Analyzer.analysisResult s) net) as Hgen.
  cbv zeta in Hgen. unfold trace, outcome in *.
  destruct (Analyzer.generateContextualResponse _ _ _ _) as [wg r]; cbn [fst snd] in *.
  destruct (Hgen (Analyzer.chatMessages s ++ [u])) as [Hl Ht].
  rewrite !toasts_app, Ht. cbn [app log_after]. rewrite log_after_app, Hl.
  cbn. rewrite <- ?app_assoc. split; reflexivity.
Qed.

End EffFacts.

(* ===================================================================== *)
(** ** The send operation *)
(* ===================================================================== *)

Section Send.

Import EffFacts.

Lemma all_white_space_blank (text : jsstring) :
  forallb is_white_space text = true -> blank text = true.
Proof.
  intros H. unfold blank, trim.
  assert (E : trimStart text = []).
  { induction text as [|c r IH]; [reflexivity|].
    simpl in *. apply andb_true_iff in H as [Hc Hr]. rewrite Hc. auto. }
  rewrite E. reflexivity.
Qed.

(** C1 (as amended).  When the upstream call fails (transport error,
    non-success status or malformed body), a send of the text chat leaves the
    log one user entry longer, with no assistant entry, and raises one
    notification, an error.  In the follow-up chat of the analyzer the
    generator catches the failure and returns its fixed apology: the log
    gains the user entry and an assistant entry holding the apology, and no
    notification is raised. *)
Theorem failed_send_outcome (ts : TextChat.state) (zs : Analyzer.state)
    (now : Z) (net : http) (later : Z) :
  failing net = true ->
  blank (TextChat.inputMessage ts) && negb (attached (TextChat.uploadedImage ts)) = false ->
  blank (Analyzer.inputMessage zs) = false ->
  truthy (Analyzer.analysisResult zs) = true ->
  (let w := trace (TextChat.handleSendMessage ts now net later) in
   failed_send (TextChat.messages ts) (log_after w (TextChat.messages ts)) w
   /\ log_after w (TextChat.messages ts)
      = TextChat.messages ts
        ++ [text_user_entry (TextChat.inputMessage ts) (TextChat.uploadedImage ts) now])
  /\
  (let w := trace (Analyzer.handleSendMessage zs now net later) in
   log_after w (Analyzer.chatMessages zs)
   = Analyzer.chatMessages zs
     ++ [analyzer_user_entry (Analyzer.inputMessage zs) (Analyzer.isRecording zs) now;
         ai_entry (JStr Analyzer.apology) later]
   /\ toasts w = []).
Proof.
  intros Hfail Hts Hzs Htruthy. split.
  - cbv zeta.
    pose proof (text_send_log ts now net later Hts) as Hlog. cbv zeta in Hlog.
    apply (generateAIResponse_throws_iff (TextChat.inputMessage ts)
             (TextChat.negotiationData ts) (TextChat.selectedCategory ts)) in Hfail.
    destruct Hfail as [e He]. rewrite He in Hlog. destruct Hlog as [Hl Ht].
    split; [|exact Hl]. split.
    + eexists. split; [|exact Hl]. reflexivity.
    + exists send_error_toast. split; [exact Ht | reflexivity].
  - cbv zeta.
    destruct (analyzer_send_log zs now net later Hzs) as (v & Hv & Hl & Ht).
    cbv zeta in Hl, Ht. split; [|exact Ht].
    rewrite Hl. repeat f_equal.
    rewrite generateContextualResponse_cases in Hv. cbv zeta in Hv.
    rewrite Htruthy in Hv. cbn [negb] in Hv.
    unfold outcome in Hv.
    destruct (snd (Analyzer.context_prompt _ _));
      [|cbn [snd] in Hv; injection Hv as <-; reflexivity].
    unfold failing, malformed in Hfail.
    destruct net as [|status body];
      [cbn [snd] in Hv; injection Hv as <-; reflexivity|].
    destruct (ok _); cbn [negb orb] in Hfail;
      [|cbn [snd] in Hv; injection Hv as <-; reflexivity].
    destruct (completion body);
      [discriminate | cbn [snd] in Hv; injection Hv as <-; reflexivity].
Qed.

Lemma failed_send_outcome_witness :
  failing Rejects = true
  /\ (let w := trace (TextChat.handleSendMessage (text_chat_with (lit "Is 200 fair?"))
                        1000 Rejects 1500) in
      failed_send [] (log_after w []) w)
  /\ (let w := trace (Analyzer.handleSendMessage (analyzed_with (lit "What next?"))
                        1000 Rejects 1500) in
      toasts w = []).
Proof.
  pose proof (failed_send_outcome (text_chat_with (lit "Is 200 fair?"))
                (analyzed_with (lit "What next?")) 1000 Rejects 1500
                eq_refl eq_refl eq_refl eq_refl) as [[Ht _] [_ Hz]].
  split; [reflexivity|]. split; [exact Ht | exact Hz].
Defined.

(** C1, as stated, fails in the follow-up chat of the analyzer: with the
    connection down, a send there appends an assistant entry and raises no
    notification. *)
Lemma failed_send_analyzer_counterexample :
  let zs := analyzed_with (lit "What next?") in
  let w := trace (Analyzer.handleSendMessage zs 1000 Rejects 1500) in
  failing Rejects = true
  /\ type <$> log_after w (Analyzer.chatMessages zs) = [user; ai]
  /\ toasts w = []
  /\ ~ failed_send (Analyzer.chatMessages zs) (log_after w (Analyzer.chatMessages zs)) w.
Proof.
  cbv zeta. split; [reflexivity|]. split; [vm_compute; reflexivity|].
  split; [vm_compute; reflexivity|].
  intros [_ (t & Ht & _)]. vm_compute in Ht. discriminate.
Qed.

(** C9.  A send with empty or white-space-only text and nothing attached does
    nothing at all: the handler performs no action, hence the log is what it
    was and no request leaves, in both components. *)
Theorem blank_send_no_op (ts : TextChat.state) (zs : Analyzer.state)
    (now : Z) (net : http) (later : Z) :
  forallb is_white_space (TextChat.inputMessage ts) = true ->
  attached (TextChat.uploadedImage ts) = false ->
  forallb is_white_space (Analyzer.inputMessage zs) = true ->
  (TextChat.handleSendMessage ts now net later = ([], Return tt)
   /\ TextSession.step ts (TextSession.Send now net later) = ts)
  /\ (Analyzer.handleSendMessage zs now net later = ([], Return tt)
      /\ AnalyzerSession.step zs (AnalyzerSession.Send now net later) = zs).
Proof.
  intros Hts Himg Hzs.
  apply all_white_space_blank in Hts. apply all_white_space_blank in Hzs.
  assert (E1 : TextChat.handleSendMessage ts now net later = ([], Return tt)).
  { unfold TextChat.handleSendMessage. rewrite Hts, Himg. reflexivity. }
  assert (E2 : Analyzer.handleSendMessage zs now net later = ([], Return tt)).
  { unfold Analyzer.handleSendMessage. rewrite Hzs. reflexivity. }
  repeat split; try assumption.
  - unfold TextSession.step, TextSession.perform. rewrite E1. reflexivity.
  - unfold AnalyzerSession.step, AnalyzerSession.perform. rewrite E2. reflexivity.
Qed.

Lemma blank_send_no_op_witness :
  let ts := text_chat_with [32; 9; 10] in
  let zs := analyzed_with [] in
  trace (TextChat.handleSendMessage ts 1000 (reply_with "Offer 200.") 1500) = []
  /\ trace (Analyzer.handleSendMessage zs 1000 (reply_with "Offer 200.") 1500) = [].
Proof.
  cbv zeta.
  pose proof (blank_send_no_op (text_chat_with [32; 9; 10]) (analyzed_with [])
                1000 (reply_with "Offer 200.") 1500 eq_refl eq_refl eq_refl)
    as [[E1 _] [E2 _]].
  rewrite E1, E2. split; reflexivity.
Defined.

(** C10.  In the follow-up chat, while no analysis result is stored, the
    generator performs no action (so no request leaves) and returns the
    fixed text of line 734, which asks the user to upload and analyze a
    conversation first; a send then appends the user entry and an assistant
    entry that holds that text. *)
Theorem guidance_without_analysis (zs : Analyzer.state)
    (now : Z) (net : http) (later : Z) :
  Analyzer.analysisResult zs = JNull ->
  blank (Analyzer.inputMessage zs) = false ->
  let asked :=
    lit "Please upload and analyze a conversation first so I can provide specific guidance." in
  Analyzer.generateContextualResponse (Analyzer.selectedCategory zs)
    (Analyzer.inputMessage zs) (Analyzer.analysisResult zs) net
  = ([], Return (JStr asked))
  /\ (let w := trace (Analyzer.handleSendMessage zs now net later) in
      network_calls w = []
      /\ log_after w (Analyzer.chatMessages zs)
         = Analyzer.chatMessages zs
           ++ [analyzer_user_entry (Analyzer.inputMessage zs) (Analyzer.isRecording zs) now;
               ai_entry (JStr asked) later]).
Proof.
  intros Hnull Hguard asked.
  assert (E : Analyzer.generateContextualResponse (Analyzer.selectedCategory zs)
                (Analyzer.inputMessage zs) (Analyzer.analysisResult zs) net
              = ([], Return (JStr asked))).
  { unfold Analyzer.generateContextualResponse. rewrite Hnull. reflexivity. }
  split; [exact E|]. cbv zeta.
  destruct (analyzer_send_shape zs now net later Hguard) as (v & Hv & Hshape).
  cbv zeta in Hv. rewrite E in Hv, Hshape. cbn [outcome snd] in Hv. inversion Hv; subst v.
  rewrite Hshape. cbn [trace fst app network_calls]. split; [reflexivity|].
  cbn [log_after]. rewrite <- app_assoc. reflexivity.
Qed.

Lemma guidance_without_analysis_witness :
  let zs := fresh_with (lit "What should I offer?") in
  let w := trace (Analyzer.handleSendMessage zs 1000 (reply_with "Offer 200.") 1000) in
  Analyzer.analysisResult zs = JNull
  /\ network_calls w = []
  /\ content <$> log_after w (Analyzer.chatMessages zs)
     = [JStr (lit "What should I offer?");
        JStr (lit "Please upload and analyze a conversation first so I can provide specific guidance.")].
Proof.
  cbv zeta.
  pose proof (guidance_without_analysis (fresh_with (lit "What should I offer?"))
                1000 (reply_with "Offer 200.") 1000 eq_refl eq_refl) as [_ [Hn Hl]].
  split; [reflexivity|]. split; [exact Hn|].
  cbv zeta in Hl. rewrite Hl. reflexivity.
Defined.

End Send.

(* ===================================================================== *)
(** ** Sequences of sends *)
(* ===================================================================== *)

Section Sends.

Import EffFacts.

Lemma text_send_ok_log (s : TextChat.state) (i : TextSession.a_send) :
  text_sent_ok i ->
  TextChat.messages (TextSession.send s i) = TextChat.messages s ++ text_exchange i.
Proof.
  intros [Hguard Hok].
  unfold TextSession.send, TextSession.step, TextSession.perform.
  rewrite text_run_log.
  pose proof (text_send_log (TextSession.with_input s i) (TextSession.now i)
                (TextSession.net i) (TextSession.later i) Hguard) as Hlog.
  cbv zeta in Hlog. cbn [TextSession.with_input TextChat.inputMessage
    TextChat.uploadedImage TextChat.messages TextChat.negotiationData
    TextChat.selectedCategory] in Hlog.
  rewrite generateAIResponse_cases in Hlog. cbv zeta in Hlog.
  unfold text_exchange, text_reply.
  unfold failing, malformed in Hok.
  destruct (TextSession.net i) as [|status body]; [discriminate|].
  destruct (ok _); cbn [negb orb] in Hok; [|discriminate].
  destruct (completion body) as [v|e]; [|discriminate].
  cbn [outcome snd] in Hlog. destruct Hlog as [Hl _]. exact Hl.
Qed.

Lemma text_sends_log (l : list TextSession.a_send) :
  forall s, Forall text_sent_ok l ->
    TextChat.messages (TextSession.sends s l)
    = TextChat.messages s ++ flat_map text_exchange l.
Proof.
  unfold TextSession.sends.
  induction l as [|i l IH]; intros s Hall; simpl.
  - rewrite app_nil_r. reflexivity.
  - inversion Hall as [|? ? Hi Hl]; subst.
    rewrite (IH _ Hl), (text_send_ok_log s i Hi), <- app_assoc. reflexivity.
Qed.

(** A trace of [chat_only] actions keeps the context of the follow-up chat. *)
Lemma chat_only_frame (w : list action) (s : Analyzer.state) :
  forallb chat_only w = true ->
  Analyzer.selectedCategory (Analyzer.run w s) = Analyzer.selectedCategory s
  /\ Analyzer.analysisResult (Analyzer.run w s) = Analyzer.analysisResult s
  /\ Analyzer.isRecording (Analyzer.run w s) = Analyzer.isRecording s.
Proof.
  unfold Analyzer.run. revert s.
  induction w as [|a w IH]; intros s H; [repeat split|].
  simpl in H. apply andb_true_iff in H as [Ha Hw]. simpl.
  destruct (IH (Analyzer.apply a s) Hw) as (E1 & E2 & E3).
  rewrite E1, E2, E3. destruct a; try discriminate; repeat split.
Qed.

Lemma generateContextualResponse_chat_only (category userInput : jsstring)
    (analysis : jsval) (net : http) :
  forallb chat_only
    (trace (Analyzer.generateContextualResponse category userInput analysis net)) = true.
Proof.
  rewrite generateContextualResponse_cases. cbv zeta.
  destruct (negb (truthy analysis)); [reflexivity|].
  destruct (outcome (Analyzer.context_prompt category analysis)); [|reflexivity].
  destruct net as [|status body]; [reflexivity|].
  destruct (ok _); [|reflexivity].
  destruct (completion body); reflexivity.
Qed.

Lemma analyzer_send_ok (s : Analyzer.state) (i : AnalyzerSession.a_send) :
  blank (AnalyzerSession.text i) = false ->
  let s' := AnalyzerSession.send s i in
  Analyzer.chatMessages s'
  = Analyzer.chatMessages s
    ++ analyzer_exchange (Analyzer.selectedCategory s) (Analyzer.analysisResult s)
         (Analyzer.isRecording s) i
  /\ Analyzer.selectedCategory s' = Analyzer.selectedCategory s
  /\ Analyzer.analysisResult s' = Analyzer.analysisResult s
  /\ Analyzer.isRecording s' = Analyzer.isRecording s.
Proof.
  intros Hguard s'. subst s'.
  unfold AnalyzerSession.send, AnalyzerSession.step, AnalyzerSession.perform.
  set (si := AnalyzerSession.with_input s i).
  assert (Hg : blank (Analyzer.inputMessage si) = false) by exact Hguard.
  split.
  - rewrite analyzer_run_log.
    destruct (analyzer_send_log si (AnalyzerSession.now i) (AnalyzerSession.net i)
                (AnalyzerSession.later i) Hg) as (v & Hv & Hl & _).
    cbv zeta in Hl. rewrite Hl.
    unfold analyzer_exchange, analyzer_reply.
    change (Analyzer.selectedCategory si) with (Analyzer.selectedCategory s) in Hv.
    change (Analyzer.analysisResult si) with (Analyzer.analysisResult s) in Hv.
    change (Analyzer.inputMessage si) with (AnalyzerSession.text i) in Hv.
    rewrite Hv. reflexivity.
  - apply (chat_only_frame _ si).
    destruct (analyzer_send_shape si (AnalyzerSession.now i) (AnalyzerSession.net i)
                (AnalyzerSession.later i) Hg) as (v & _ & Hshape).
    rewrite Hshape. unfold trace at 1. cbn [fst].
    rewrite !forallb_app, generateContextualResponse_chat_only. reflexivity.
Qed.

Lemma analyzer_sends_log (l : list AnalyzerSession.a_send) :
  forall s, Forall (fun i => blank (AnalyzerSession.text i) = false) l ->
    Analyzer.chatMessages (AnalyzerSession.sends s l)
    = Analyzer.chatMessages s
      ++ flat_map (analyzer_exchange (Analyzer.selectedCategory s)
                     (Analyzer.analysisResult s) (Analyzer.isRecording s)) l.
Proof.
  unfold AnalyzerSession.sends.
  induction l as [|i l IH]; intros s Hall; simpl.
  - rewrite app_nil_r. reflexivity.
  - inversion Hall as [|? ? Hi Hl]; subst.
    destruct (analyzer_send_ok s i Hi) as (E & Ec & Ea & Er). cbv zeta in *.
    rewrite (IH _ Hl), E, Ec, Ea, Er, <- app_assoc. reflexivity.
Qed.

Lemma pairs_length {A} (f : A -> list message) (l : list A) :
  (forall i, length (f i) = 2%nat) -> length (flat_map f l) = (2 * length l)%nat.
Proof.
  intros Hf. induction l as [|i l IH]; [reflexivity|].
  simpl. rewrite length_app, Hf, IH. lia.
Qed.

Lemma pairs_alternate {A} (f : A -> list message) (l : list A) :
  (forall i, type <$> f i = [user; ai]) ->
  type <$> flat_map f l = concat (replicate (length l) [user; ai]).
Proof.
  intros Hf. induction l as [|i l IH]; [reflexivity|].
  simpl. rewrite fmap_app, Hf, IH. reflexivity.
Qed.

(** C6.  Starting from an empty log, [n] sends that go through leave
    exactly [2 * n] entries: for each send, in call order, its user entry
    followed by the assistant entry with the reply to it.  This holds in the
    text chat and in the follow-up chat of the analyzer. *)
Theorem successful_sends_log (ts : TextChat.state) (zs : Analyzer.state)
    (tl : list TextSession.a_send) (zl : list AnalyzerSession.a_send) :
  TextChat.messages ts = [] ->
  Analyzer.chatMessages zs = [] ->
  Forall text_sent_ok tl ->
  Forall (fun i => blank (AnalyzerSession.text i) = false) zl ->
  (let log := TextChat.messages (TextSession.sends ts tl) in
   log = flat_map text_exchange tl
   /\ length log = (2 * length tl)%nat
   /\ type <$> log = concat (replicate (length tl) [user; ai]))
  /\
  (let log := Analyzer.chatMessages (AnalyzerSession.sends zs zl) in
   log = flat_map (analyzer_exchange (Analyzer.selectedCategory zs)
                     (Analyzer.analysisResult zs) (Analyzer.isRecording zs)) zl
   /\ length log = (2 * length zl)%nat
   /\ type <$> log = concat (replicate (length zl) [user; ai])).
Proof.
  intros Ets Ezs Htl Hzl. split; cbv zeta.
  - rewrite (text_sends_log tl ts Htl), Ets. cbn [app].
    split; [reflexivity|]. split.
    + apply pairs_length. reflexivity.
    + apply pairs_alternate. reflexivity.
  - rewrite (analyzer_sends_log zl zs Hzl), Ezs. cbn [app].
    split; [reflexivity|]. split.
    + apply pairs_length. reflexivity.
    + apply pairs_alternate. reflexivity.
Qed.

Lemma successful_sends_log_witness :
  Forall text_sent_ok two_text_sends
  /\ content <$> TextChat.messages
                   (TextSession.sends (TextSession.init (lit "electronics") bike)
                      two_text_sends)
     = [ JStr (lit "Is 200 fair?"); JStr (lit "Offer 200.");
         JStr (lit "Shared an image"); JStr (lit "Nice photo.") ]
  /\ type <$> Analyzer.chatMessages
                (AnalyzerSession.sends (analyzed_with []) two_analyzer_sends)
     = [user; ai; user; ai].
Proof.
  assert (Ht : Forall text_sent_ok two_text_sends)
    by (repeat constructor).
  assert (Hz : Forall (fun i => blank (AnalyzerSession.text i) = false) two_analyzer_sends)
    by (repeat constructor).
  destruct (successful_sends_log (TextSession.init (lit "electronics") bike)
              (analyzed_with []) two_text_sends two_analyzer_sends
              eq_refl eq_refl Ht Hz) as [(Et & _ & _) (_ & _ & Ez)].
  split; [exact Ht|]. split; [rewrite Et; reflexivity | exact Ez].
Defined.

End Sends.

(* ===================================================================== *)
(** ** What each operation does to the log *)
(* ===================================================================== *)

Section Steps.

Import EffFacts.

Lemma annotation_text_pure (data : jsval) :
  TextChat.annotation_text data = ([], outcome (TextChat.annotation_text data)).
Proof.
  unfold TextChat.annotation_text.
  repeat (rewrite bind_lift;
          match goal with
          | |- context [match ?r with Return _ => _ | Throw _ => _ end] =>
              destruct r; [|reflexivity]
          end).
  reflexivity.
Qed.

Lemma extract_pure (analysisText : jsval) (category : jsstring) :
  Analyzer.extract analysisText category
  = ([], outcome (Analyzer.extract analysisText category)).
Proof.
  unfold Analyzer.extract, Analyzer.String_match.
  destruct analysisText as [| |b|l|text|items|props]; try reflexivity.
  - cbn [lift bind ret].
    destruct (match_braces text) as [span|]; [|reflexivity].
    unfold lift. destruct (JSON_parse span); reflexivity.
  - unfold Analyzer.truncated.
    destruct (ToString (JArr (take 300 items))); reflexivity.
Qed.

(** The upload of the text chat adds nothing or the one entry that reports
    the text found in the image. *)
Lemma text_upload_log (s : TextChat.state) (f : option file) (net : http) (now : Z) :
  let w := trace (TextChat.handleImageUpload s f net now) in
  log_after w (TextChat.messages s) = TextChat.messages s
  \/ exists m, id m = Number_toString now /\ type m = ai
               /\ log_after w (TextChat.messages s) = TextChat.messages s ++ [m].
Proof.
  cbv zeta. unfold TextChat.handleImageUpload.
  destruct f as [file|]; [|left; reflexivity].
  unfold TextChat.analyzeImage, fetch, json.
  destruct net as [|status body]; [left; reflexivity|].
  cbn [bind emit ret lift res_body].
  destruct (JSON_parse body) as [data|e]; [|left; reflexivity].
  rewrite (annotation_text_pure data).
  destruct (outcome (TextChat.annotation_text data)) as [text|e]; [|left; reflexivity].
  cbn [bind lift].
  destruct (ToString text) as [printed|e]; [|left; reflexivity].
  right. eexists. split; [|split]; [| |reflexivity]; reflexivity.
Qed.

(** An analysis leaves the log as it was or replaces it by its one opening
    entry. *)
Lemma analyze_log (s : Analyzer.state) (net : http) (now : Z) :
  let w := trace (Analyzer.analyzeConversation s net now) in
  log_after w (Analyzer.chatMessages s) = Analyzer.chatMessages s
  \/ exists m, id m = Number_toString now /\ type m = ai
               /\ log_after w (Analyzer.chatMessages s) = [m].
Proof.
  cbv zeta. unfold Analyzer.analyzeConversation.
  destruct (negb (attached (Analyzer.uploadedImage s))); [left; reflexivity|].
  destruct (match Analyzer.selectedCategory s with [] => true | _ :: _ => false end);
    [left; reflexivity|].
  unfold fetch, json.
  destruct net as [|status body]; [left; reflexivity|].
  cbn [bind emit ret lift res_body res_status].
  destruct (ok _); [|left; reflexivity].
  cbn [negb bind ret].
  destruct (JSON_parse body) as [apiResult|e]; [|left; reflexivity].
  rewrite (completion_text_pure apiResult).
  destruct (outcome (completion_text apiResult)) as [analysisText|e]; [|left; reflexivity].
  cbn [bind]. rewrite (extract_pure analysisText).
  destruct (outcome (Analyzer.extract analysisText _)) as [result|e]; [|left; reflexivity].
  cbn [bind emit lift].
  destruct (Analyzer.motivation_lower result) as [motivation|e]; [|left; reflexivity].
  destruct (get result "sentiment") as [sentiment|e]; [|left; reflexivity].
  destruct (ToString sentiment) as [printed|e]; [|left; reflexivity].
  right. eexists. split; [|split]; [| |reflexivity]; reflexivity.
Qed.

(** Every operation of the text chat appends to the log, and the ids of
    what it appends are the clock readings it was given. *)
Lemma text_step_appends (s : TextChat.state) (o : TextSession.op) :
  exists new stamps,
    TextChat.messages (TextSession.step s o) = TextChat.messages s ++ new
    /\ id <$> new = Number_toString <$> stamps
    /\ match o with
       | TextSession.Send now _ later =>
           stamps = [] \/ stamps = [now] \/ stamps = [now; (later + 1)%Z]
       | TextSession.Upload _ _ now => stamps = [] \/ stamps = [now]
       | _ => stamps = []
       end.
Proof.
  unfold TextSession.step. rewrite text_run_log.
  destruct o as [text|now net later| | |f net now|]; cbn [TextSession.perform].
  - exists [], []. rewrite app_nil_r. repeat split.
  - destruct (blank (TextChat.inputMessage s)
              && negb (attached (TextChat.uploadedImage s))) eqn:Hguard.
    + exists [], []. unfold TextChat.handleSendMessage. rewrite Hguard, app_nil_r.
      repeat split. left; reflexivity.
    + pose proof (text_send_log s now net later Hguard) as Hlog. cbv zeta in Hlog.
      destruct (outcome _) as [v|e]; destruct Hlog as [Hl _]; rewrite Hl.
      * eexists _, [now; (later + 1)%Z]. repeat split. right; right; reflexivity.
      * eexists _, [now]. repeat split. right; left; reflexivity.
  - exists [], []. rewrite app_nil_r. unfold TextChat.handleVoiceRecording.
    destruct (TextChat.isRecording s); repeat split.
  - exists [], []. rewrite app_nil_r. repeat split.
  - destruct (text_upload_log s f net now) as [E|(m & Hid & _ & E)]; cbv zeta in E; rewrite E.
    + exists [], []. rewrite app_nil_r. repeat split. left; reflexivity.
    + exists [m], [now]. cbn [fmap list_fmap]. rewrite Hid. repeat split. right; reflexivity.
  - exists [], []. rewrite app_nil_r. repeat split.
Qed.

(** The operations of the analyzer: a send appends, an analysis may start
    the log afresh, the others leave it alone. *)
Lemma analyzer_step_log (s : Analyzer.state) (o : AnalyzerSession.op) :
  let log := Analyzer.chatMessages s in
  let log' := Analyzer.chatMessages (AnalyzerSession.step s o) in
  match o with
  | AnalyzerSession.Send now _ later =>
      log' = log
      \/ exists u a, log' = log ++ [u; a]
                     /\ id u = Number_toString now /\ id a = Number_toString (later + 1)
  | AnalyzerSession.Analyze _ now =>
      log' = log
      \/ exists m, id m = Number_toString now /\ type m = ai /\ log' = [m]
  | _ => log' = log
  end.
Proof.
  cbv zeta. unfold AnalyzerSession.step. rewrite analyzer_run_log.
  destruct o as [text|now net later| | |f|e|f|net now]; cbn [AnalyzerSession.perform].
  - reflexivity.
  - destruct (blank (Analyzer.inputMessage s)) eqn:Hguard.
    + left. unfold Analyzer.handleSendMessage. rewrite Hguard. reflexivity.
    + right. destruct (analyzer_send_log s now net later Hguard) as (v & _ & Hl & _).
      cbv zeta in Hl. rewrite Hl. eexists _, _. repeat split.
  - unfold Analyzer.handleVoiceRecording. destruct (Analyzer.isRecording s); reflexivity.
  - reflexivity.
  - unfold Analyzer.handleFileSelect, Analyzer.handleImageUpload.
    destruct f as [file|]; [|reflexivity].
    destruct (Analyzer.size_ceiling <? size file); [reflexivity|].
    destruct (negb _); reflexivity.
  - destruct e; reflexivity.
  - unfold Analyzer.handleDrop, Analyzer.handleImageUpload.
    destruct f as [file|]; [|reflexivity].
    destruct (Analyzer.size_ceiling <? size file); [reflexivity|].
    destruct (negb _); reflexivity.
  - apply analyze_log.
Qed.

End Steps.

(* ===================================================================== *)
(** ** Message ids *)
(* ===================================================================== *)

Section Ids.

Lemma lit_inj (a b : string) : lit a = lit b -> a = b.
Proof.
  unfold lit. intros H.
  rewrite <- (string_of_list_ascii_of_string a), <- (string_of_list_ascii_of_string b).
  f_equal. revert H.
  generalize (list_ascii_of_string a) (list_ascii_of_string b).
  induction l as [|x l IH]; intros [|y k] H; simpl in H; try discriminate; [reflexivity|].
  injection H as Hx Hl. f_equal; [|apply IH, Hl].
  rewrite <- (ascii_N_embedding x), <- (ascii_N_embedding y), Hx. reflexivity.
Qed.

Lemma to_int_printable (n : Z) :
  Z.to_int n <> Decimal.Pos Decimal.Nil /\ Z.to_int n <> Decimal.Neg Decimal.Nil.
Proof.
  destruct n as [|p|p]; simpl; split; try discriminate; intros [= H];
    exact (DecimalPos.Unsigned.to_uint_nonnil p H).
Qed.

(** Two integers that print alike are equal. *)
Lemma Number_toString_inj (a b : Z) : Number_toString a = Number_toString b -> a = b.
Proof.
  unfold Number_toString. intros H. apply lit_inj in H.
  apply DecimalZ.to_int_inj.
  destruct (to_int_printable a) as [Ha1 Ha2], (to_int_printable b) as [Hb1 Hb2].
  pose proof (NilZero.isi _ Ha1 Ha2) as Ea. pose proof (NilZero.isi _ Hb1 Hb2) as Eb.
  rewrite H in Ea. congruence.
Qed.

#[local] Instance Number_toString_Inj : Inj (=) (=) Number_toString.
Proof. intros a b. apply Number_toString_inj. Qed.

Lemma stamped_NoDup (bound : Z) (log : list message) :
  stamped bound log -> NoDup (id <$> log).
Proof.
  intros (stamps & E & Hnd & _). rewrite E. apply (NoDup_fmap_2 _), Hnd.
Qed.

Lemma stamped_nil (bound : Z) : stamped bound [].
Proof. exists []. repeat split; constructor. Qed.

Lemma stamped_app (b b' : Z) (log new : list message) (stamps : list Z) :
  stamped b log ->
  id <$> new = Number_toString <$> stamps ->
  NoDup stamps ->
  Forall (fun t => (b <= t < b')%Z) stamps ->
  (b <= b')%Z ->
  stamped b' (log ++ new).
Proof.
  intros (old & E & Hnd & Hlt) Enew Hnd' Hrange Hle.
  exists (old ++ stamps). rewrite !fmap_app, E, Enew. split; [reflexivity|]. split.
  - apply NoDup_app. split; [exact Hnd|]. split; [|exact Hnd'].
    intros t Hold Hnew.
    rewrite Forall_forall in Hlt, Hrange.
    specialize (Hlt t Hold). specialize (Hrange t Hnew). lia.
  - apply Forall_app. split.
    + eapply Forall_impl; [exact Hlt|]. intros t Ht. cbv beta in *. lia.
    + eapply Forall_impl; [exact Hrange|]. intros t Ht. cbv beta in *. lia.
Qed.

Lemma fmap_id_nil (new : list message) : id <$> new = [] -> new = [].
Proof. apply fmap_nil_inv. Qed.

Lemma text_session_stamped (ops : list TextSession.op) :
  forall b s,
    stamped b (TextChat.messages s) -> text_well_timed b ops ->
    exists b', stamped b' (TextChat.messages (TextSession.session s ops)).
Proof.
  unfold TextSession.session.
  induction ops as [|o ops IH]; intros b s Hs Hw; [exists b; exact Hs|].
  destruct (text_step_appends s o) as (new & stamps & E & Eid & Hcase).
  assert (Hsame : stamps = [] -> TextChat.messages (TextSession.step s o) = TextChat.messages s).
  { intros ->. apply fmap_id_nil in Eid. subst new. rewrite E. apply app_nil_r. }
  cbn [fold_left].
  destruct o as [text|now net later| | |f net now|]; cbn [text_well_timed] in Hw;
    try (apply (IH b); [rewrite (Hsame Hcase); exact Hs | exact Hw]).
  - destruct Hw as [[Hb Hl] Hw]. apply (IH (later + 2)%Z); [|exact Hw].
    rewrite E. apply (stamped_app b _ _ _ stamps Hs Eid); [| |lia].
    + destruct Hcase as [->|[->| ->]].
      * constructor.
      * apply NoDup_singleton.
      * apply NoDup_cons. split; [|apply NoDup_singleton].
        rewrite list_elem_of_singleton. lia.
    + destruct Hcase as [->|[->| ->]]; repeat constructor; lia.
  - destruct Hw as [Hb Hw]. apply (IH (now + 1)%Z); [|exact Hw].
    rewrite E. apply (stamped_app b _ _ _ stamps Hs Eid); [| |lia].
    + destruct Hcase as [->| ->]; [constructor | apply NoDup_singleton].
    + destruct Hcase as [->| ->]; repeat constructor; lia.
Qed.

Lemma analyzer_session_stamped (ops : list AnalyzerSession.op) :
  forall b s,
    stamped b (Analyzer.chatMessages s) -> analyzer_well_timed b ops ->
    exists b', stamped b' (Analyzer.chatMessages (AnalyzerSession.session s ops)).
Proof.
  unfold AnalyzerSession.session.
  induction ops as [|o ops IH]; intros b s Hs Hw; [exists b; exact Hs|].
  pose proof (analyzer_step_log s o) as Hstep. cbv zeta in Hstep.
  cbn [fold_left].
  destruct o as [text|now net later| | |f|e|f|net now]; cbn [analyzer_well_timed] in Hw;
    try (apply (IH b); [rewrite Hstep; exact Hs | exact Hw]).
  - destruct Hw as [[Hb Hl] Hw]. apply (IH (later + 2)%Z); [|exact Hw].
    destruct Hstep as [E|(u & a & E & Hu & Ha)]; rewrite E.
    + rewrite <- (app_nil_r (Analyzer.chatMessages s)).
      apply (stamped_app b _ _ _ [] Hs); [reflexivity|constructor|constructor|lia].
    + apply (stamped_app b _ _ _ [now; (later + 1)%Z] Hs); [| | |lia].
      * cbn [fmap list_fmap]. rewrite Hu, Ha. reflexivity.
      * apply NoDup_cons. split; [|apply NoDup_singleton].
        rewrite list_elem_of_singleton. lia.
      * repeat constructor; lia.
  - destruct Hw as [Hb Hw]. apply (IH (now + 1)%Z); [|exact Hw].
    destruct Hstep as [E|(m & Hm & _ & E)]; rewrite E.
    + rewrite <- (app_nil_r (Analyzer.chatMessages s)).
      apply (stamped_app b _ _ _ [] Hs); [reflexivity|constructor|constructor|lia].
    + exists [now]. cbn [fmap list_fmap]. rewrite Hm.
      split; [reflexivity|]. split; [apply NoDup_singleton|].
      repeat constructor. lia.
Qed.

(** C7 (as amended).  Ids are clock readings, so they are pairwise distinct in
    every state a session reaches provided the clock cooperates: each
    operation that stamps an entry starts at a reading above every reading
    used before it, and its response does not return before it started.
    This holds for the log of the text chat and for that of the analyzer. *)
Theorem ids_distinct_when_well_timed (category : jsstring) (data : TextChat.negotiation)
    (tops : list TextSession.op) (zops : list AnalyzerSession.op) (tb zb : Z) :
  text_well_timed tb tops ->
  analyzer_well_timed zb zops ->
  NoDup (id <$> TextChat.messages
                  (TextSession.session (TextSession.init category data) tops))
  /\ NoDup (id <$> Analyzer.chatMessages
                     (AnalyzerSession.session (AnalyzerSession.init category) zops)).
Proof.
  intros Ht Hz. split.
  - destruct (text_session_stamped tops tb (TextSession.init category data)
                (stamped_nil tb) Ht) as [b' H].
    exact (stamped_NoDup b' _ H).
  - destruct (analyzer_session_stamped zops zb (AnalyzerSession.init category)
                (stamped_nil zb) Hz) as [b' H].
    exact (stamped_NoDup b' _ H).
Qed.

Lemma ids_distinct_when_well_timed_witness :
  let tops := [ TextSession.Type_ (lit "Is 200 fair?");
                TextSession.Send 1000 (reply_with "Offer 200.") 1500;
                TextSession.Type_ (lit "And 180?");
                TextSession.Send 1502 (reply_with "Too low.") 2000 ] in
  let zops := [ AnalyzerSession.Type_ (lit "What next?");
                AnalyzerSession.Send 1000 Rejects 1000;
                AnalyzerSession.Type_ (lit "And then?");
                AnalyzerSession.Send 1002 Rejects 1002 ] in
  text_well_timed 0 tops /\ analyzer_well_timed 0 zops
  /\ NoDup (id <$> TextChat.messages
                     (TextSession.session (TextSession.init (lit "electronics") bike) tops))
  /\ NoDup (id <$> Analyzer.chatMessages
                     (AnalyzerSession.session (AnalyzerSession.init (lit "electronics")) zops)).
Proof.
  cbv zeta.
  assert (Ht : text_well_timed 0
                 [ TextSession.Type_ (lit "Is 200 fair?");
                   TextSession.Send 1000 (reply_with "Offer 200.") 1500;
                   TextSession.Type_ (lit "And 180?");
                   TextSession.Send 1502 (reply_with "Too low.") 2000 ])
    by (cbn; lia).
  assert (Hz : analyzer_well_timed 0
                 [ AnalyzerSession.Type_ (lit "What next?");
                   AnalyzerSession.Send 1000 Rejects 1000;
                   AnalyzerSession.Type_ (lit "And then?");
                   AnalyzerSession.Send 1002 Rejects 1002 ])
    by (cbn; lia).
  split; [exact Ht|]. split; [exact Hz|].
  exact (ids_distinct_when_well_timed (lit "electronics") bike _ _ 0 0 Ht Hz).
Defined.

(** C7, as stated, fails: when the second send starts one millisecond after
    the reply to the first came back, its user entry takes the id of that
    reply. *)
Lemma ids_collide_counterexample :
  let s := TextSession.session (TextSession.init (lit "electronics") bike) hasty_session in
  id <$> TextChat.messages s
  = [Number_toString 1000; Number_toString 1501; Number_toString 1501; Number_toString 2001]
  /\ ~ NoDup (id <$> TextChat.messages s).
Proof.
  cbv zeta.
  assert (E : id <$> TextChat.messages
                       (TextSession.session (TextSession.init (lit "electronics") bike)
                          hasty_session)
              = [Number_toString 1000; Number_toString 1501;
                 Number_toString 1501; Number_toString 2001])
    by (vm_compute; reflexivity).
  split; [exact E|]. rewrite E. intros H.
  apply NoDup_cons in H as [_ H]. apply NoDup_cons in H as [H _].
  apply H. left.
Qed.

End Ids.

(* ===================================================================== *)
(** ** Extraction *)
(* ===================================================================== *)

Section Extraction.

Import JSFacts.

(** The fallback has the shape of an [AnalysisResult], whatever the reply
    and the category. *)
Lemma fallback_shape (category suggested : jsstring) :
  is_AnalysisResult (Analyzer.fallback category suggested) = true.
Proof. reflexivity. Qed.

(** Extraction by cases on the span that the expression locates. *)
Lemma extract_cases (text category : jsstring) :
  Analyzer.extract (JStr text) category =
  ([], Return match match_braces text with
              | Some span =>
                  match JSON_parse span with
                  | Return v => v
                  | Throw _ => fallen_back text category
                  end
              | None => fallen_back text category
              end).
Proof.
  unfold Analyzer.extract, Analyzer.String_match, Analyzer.truncated, fallen_back.
  cbn [lift bind ret app].
  destruct (match_braces text) as [span|]; [|reflexivity].
  unfold lift. destruct (JSON_parse span); reflexivity.
Qed.

(** A reply without an opening brace contains no JSON object. *)
Lemma no_brace_no_object (text : jsstring) :
  has 123 text = false -> ~ contains_JSON_object text.
Proof.
  intros Hno (pre & obj & post & props & -> & Hparse).
  apply JSON_parse_object_has_brace in Hparse.
  assert (Hin : 123 ∈ pre ++ obj ++ post).
  { apply elem_of_app. right. apply elem_of_app. left. exact Hparse. }
  unfold has in Hno. apply list_elem_of_In in Hin.
  assert (Hex : existsb (N.eqb 123) (pre ++ obj ++ post) = true).
  { apply existsb_exists. exists 123. split; [exact Hin | apply N.eqb_refl]. }
  congruence.
Qed.

(** C2 (as amended).  For a reply text that contains no parseable JSON
    object, extraction returns (it does not throw) the fallback result:
    [priceFlexibility] and [urgencyLevel] are [medium], and
    [suggestedResponse] is the first 300 code units of the reply followed by
    three dots, which line 652 appends whether or not anything was cut. *)
Theorem no_JSON_falls_back (text category : jsstring) :
  ~ contains_JSON_object text ->
  let suggested := take 300 text ++ lit "..." in
  let r := Analyzer.fallback category suggested in
  Analyzer.extract (JStr text) category = ([], Return r)
  /\ field (field r "priceAnalysis") "priceFlexibility" = JStr (lit "medium")
  /\ field r "urgencyLevel" = JStr (lit "medium")
  /\ field r "suggestedResponse" = JStr suggested
  /\ length suggested = (Nat.min 300 (length text) + 3)%nat
  /\ is_AnalysisResult r = true.
Proof.
  intros Hnone suggested r. split; [|repeat split].
  - rewrite extract_cases.
    destruct (match_braces text) as [span|] eqn:Em; [|reflexivity].
    destruct (JSON_parse span) as [v|e] eqn:Ep; [|reflexivity].
    exfalso. apply Hnone.
    destruct (match_braces_stretch _ _ Em) as (pre & body & post & Et & Es).
    subst span. destruct (JSON_parse_brace_object _ _ Ep) as [props ->].
    exists pre, (123 :: body), post, props. split; assumption.
  - subst suggested. rewrite length_app, length_take. reflexivity.
Qed.

(** Braces that hold no JSON lead to the fallback as well. *)
Example broken_braces_fall_back :
  outcome (Analyzer.extract (JStr (lit "Summary {not json} end.")) (lit "cars"))
  = Return (Analyzer.fallback (lit "cars") (lit "Summary {not json} end...."))
  /\ match_braces (lit "Summary {not json} end.") = Some (lit "{not json}").
Proof. split; vm_compute; reflexivity. Qed.

Lemma no_JSON_falls_back_witness :
  let text := lit "The seller will not move on the price. " ++ replicate 400 46 in
  ~ contains_JSON_object text
  /\ length text = 439%nat
  /\ outcome (Analyzer.extract (JStr text) (lit "electronics"))
     = Return (Analyzer.fallback (lit "electronics")
                 (lit "The seller will not move on the price. " ++ replicate 261 46
                  ++ lit "..."))
  /\ field (Analyzer.fallback (lit "electronics") (take 300 text ++ lit "...")) "urgencyLevel"
     = JStr (lit "medium").
Proof.
  cbv zeta.
  pose proof (no_brace_no_object
                (lit "The seller will not move on the price. " ++ replicate 400 46)
                eq_refl) as Hno.
  destruct (no_JSON_falls_back _ (lit "electronics") Hno) as (E & _ & Hu & _).
  split; [exact Hno|]. split; [reflexivity|].
  split; [rewrite E; reflexivity | exact Hu].
Defined.

(** C2, as stated, fails: the suggested response is not the reply cut to
    size.  Three dots follow the cut, also when the reply is short and
    nothing was cut. *)
Lemma truncated_reply_counterexample :
  let text := lit "I could not find a conversation in this picture." in
  let r := Analyzer.fallback (lit "electronics")
             (lit "I could not find a conversation in this picture....") in
  ~ contains_JSON_object text
  /\ take 300 text = text
  /\ outcome (Analyzer.extract (JStr text) (lit "electronics")) = Return r
  /\ field r "suggestedResponse" <> JStr (take 300 text).
Proof.
  cbv zeta. split; [apply no_brace_no_object; reflexivity|].
  split; [reflexivity|]. split; [vm_compute; reflexivity|].
  vm_compute. discriminate.
Qed.

(** C3 (as amended).  The expression is greedy: its span runs from the first
    opening brace of the reply to the last closing brace.  So when a
    well-formed JSON object is embedded in prose that has no opening brace
    before it and no closing brace after it, extraction locates exactly that
    object and returns what [JSON.parse] makes of it; and when the embedded
    text is the JSON text of an object, what is returned is that object,
    unchanged. *)
Theorem embedded_object_extracted (pre body post category : jsstring) (v : jsval)
    (props : list (jsstring * jsval)) :
  has 123 pre = false ->
  has 125 post = false ->
  JSON_parse ([123] ++ body ++ [125]) = Return v ->
  is_JSON (JObj props) ->
  (match_braces (pre ++ [123] ++ body ++ [125] ++ post) = Some ([123] ++ body ++ [125])
   /\ Analyzer.extract (JStr (pre ++ [123] ++ body ++ [125] ++ post)) category
      = ([], Return v))
  /\ Analyzer.extract (JStr (pre ++ JSON_text (JObj props) ++ post)) category
     = ([], Return (JObj props)).
Proof.
  intros Hpre Hpost Hparse Hjson. split.
  - pose proof (match_braces_embedded pre body post Hpre Hpost) as Em.
    split; [exact Em|].
    rewrite extract_cases, Em, Hparse. reflexivity.
  - pose proof (JSON_parse_text (JObj props) Hjson) as Hback.
    cbn [JSON_text] in *.
    set (inner := join_with [44] (map (member_text JSON_text) props)) in *.
    rewrite <- !app_assoc.
    rewrite extract_cases, (match_braces_embedded pre inner post Hpre Hpost), Hback.
    reflexivity.
Qed.

Lemma embedded_object_extracted_witness :
  let reply := lit "Here is my analysis: " ++ sample_json ++ lit " Good luck!" in
  let compact := lit "Here is my analysis: " ++ JSON_text sample_analysis ++ lit " Good luck!" in
  outcome (Analyzer.extract (JStr reply) (lit "electronics")) = Return sample_analysis
  /\ outcome (Analyzer.extract (JStr compact) (lit "electronics")) = Return sample_analysis
  /\ is_AnalysisResult sample_analysis = true.
Proof.
  cbv zeta.
  assert (Hjson : is_JSON (JObj sample_props)) by (cbn; tauto).
  destruct (embedded_object_extracted (lit "Here is my analysis: ") sample_body
              (lit " Good luck!") (lit "electronics") sample_analysis sample_props
              eq_refl eq_refl eq_refl Hjson) as [[_ E1] E2].
  change (lit "Here is my analysis: " ++ sample_json ++ lit " Good luck!")
    with (lit "Here is my analysis: " ++ [123] ++ sample_body ++ [125] ++ lit " Good luck!").
  unfold sample_analysis. rewrite E1, E2. repeat split.
Defined.

(** C3, as stated, fails when the prose has a brace of its own: the span
    then runs past the object, [JSON.parse] rejects it, and the fallback is
    returned in place of the object. *)
Lemma embedded_object_counterexample :
  let reply := lit "Analysis: " ++ sample_json ++ lit " Put your price in place of {offer}." in
  JSON_parse sample_json = Return sample_analysis
  /\ is_AnalysisResult sample_analysis = true
  /\ outcome (Analyzer.extract (JStr reply) (lit "electronics"))
     = Return (fallen_back reply (lit "electronics"))
  /\ outcome (Analyzer.extract (JStr reply) (lit "electronics")) <> Return sample_analysis.
Proof.
  cbv zeta. split; [vm_compute; reflexivity|]. split; [reflexivity|].
  assert (E : outcome (Analyzer.extract
                         (JStr (lit "Analysis: " ++ sample_json
                                ++ lit " Put your price in place of {offer}."))
                         (lit "electronics"))
              = Return (fallen_back
                          (lit "Analysis: " ++ sample_json
                           ++ lit " Put your price in place of {offer}.")
                          (lit "electronics")))
    by (vm_compute; reflexivity).
  split; [exact E|]. rewrite E. vm_compute. discriminate.
Qed.

(** C4 (as amended).  On a reply text, extraction returns (it does not
    throw).  It substitutes the fallback when the expression finds no span
    and when [JSON.parse] rejects the span that it finds, and in no other
    case: a span that parses is returned as parsed, its fields unchecked.
    The fallback has the shape of an [AnalysisResult], with its enum fields
    in their domains. *)
Theorem extraction_result (text category : jsstring) :
  let fell_back := Analyzer.fallback category (take 300 text ++ lit "...") in
  (exists r, Analyzer.extract (JStr text) category = ([], Return r))
  /\ (match_braces text = None ->
      Analyzer.extract (JStr text) category = ([], Return fell_back))
  /\ (forall span e,
        match_braces text = Some span -> JSON_parse span = Throw e ->
        Analyzer.extract (JStr text) category = ([], Return fell_back))
  /\ (forall span v,
        match_braces text = Some span -> JSON_parse span = Return v ->
        Analyzer.extract (JStr text) category = ([], Return v))
  /\ is_AnalysisResult fell_back = true.
Proof.
  cbv zeta. rewrite extract_cases. split; [eauto|]. split; [|split; [|split]].
  - intros ->. reflexivity.
  - intros span e -> ->. reflexivity.
  - intros span v -> ->. reflexivity.
  - reflexivity.
Qed.

(** C4, as stated, fails: the object of [partial_reply] parses, so it is
    returned as it is, without the fields of an [AnalysisResult] and with a
    [sentiment] outside the enum; [analyzeConversation] stores it and only
    then fails, on the missing [sellerMotivation]. *)
Lemma partial_object_counterexample :
  let r := JObj [ (lit "sentiment", JStr (lit "angry")) ] in
  let w := trace (Analyzer.analyzeConversation uploaded (Responds 200 partial_body) 1000) in
  outcome (Analyzer.extract (JStr partial_reply) (lit "electronics")) = Return r
  /\ is_AnalysisResult r = false
  /\ r <> fallen_back partial_reply (lit "electronics")
  /\ Analyzer.analysisResult (Analyzer.run w uploaded) = r
  /\ toasts w = [Analyzer.analysis_failed_toast].
Proof.
  cbv zeta. split; [vm_compute; reflexivity|]. split; [reflexivity|].
  split; [vm_compute; discriminate|]. split; vm_compute; reflexivity.
Qed.

End Extraction.

(* ===================================================================== *)
(** ** Upload *)
(* ===================================================================== *)

Section Upload.




End Upload.

(* ===================================================================== *)
(** ** Further properties of the runtime fragment *)
(* ===================================================================== *)

Section Strings.

Import JSFacts.

Lemma has_app (c : N) (s t : jsstring) : has c (s ++ t) = has c s || has c t.
Proof. unfold has. apply existsb_app. Qed.

Lemma through_last_none (c : N) (s : jsstring) :
  through_last c s = None <-> has c s = false.
Proof.
  induction s as [|x r IH]; [split; reflexivity|].
  cbn [through_last has existsb]. fold (has c r). rewrite (N.eqb_sym c x).
  destruct (through_last c r) as [p|].
  - split; [discriminate|]. intros H. apply orb_false_iff in H as [_ H].
    apply IH in H. discriminate.
  - destruct (x =? c); [split; discriminate|].
    split; intros _; [apply IH|]; reflexivity.
Qed.

Lemma through_last_split (c : N) (s p : jsstring) :
  through_last c s = Some p ->
  exists body post, s = body ++ c :: post /\ p = body ++ [c] /\ has c post = false.
Proof.
  revert p. induction s as [|x r IH]; intros p H; [discriminate|].
  cbn [through_last] in H. destruct (through_last c r) as [q|] eqn:Er.
  - injection H as <-. destruct (IH q eq_refl) as (body & post & -> & -> & Hp).
    exists (x :: body), post. repeat split. exact Hp.
  - destruct (x =? c) eqn:Ex; [|discriminate]. injection H as <-.
    apply N.eqb_eq in Ex. subst x. exists [], r. repeat split.
    apply through_last_none. exact Er.
Qed.

Lemma match_braces_none (text : jsstring) :
  has 125 text = false -> match_braces text = None.
Proof.
  induction text as [|c r IH]; [reflexivity|].
  cbn [has existsb]. fold (has 125 r). intros H.
  apply orb_false_iff in H as [_ H].
  cbn [match_braces]. apply through_last_none in H as Hn. rewrite Hn.
  destruct (chr "{" c); apply IH; exact H.
Qed.

(** X1.  The brace expression of line 636, characterised: it matches
    exactly when a closing brace follows the first opening brace of the
    text, and the match then runs from that first opening brace to the last
    closing brace of the text. *)
Theorem match_braces_characterised (text span : jsstring) :
  match_braces text = Some span <->
  exists pre body post,
    text = pre ++ [123] ++ body ++ [125] ++ post
    /\ has 123 pre = false /\ has 125 post = false
    /\ span = [123] ++ body ++ [125].
Proof.
  split.
  - revert span. induction text as [|c r IH]; intros span H; [discriminate|].
    cbn [match_braces] in H. destruct (chr "{" c) eqn:Ec.
    + apply N.eqb_eq in Ec. change (N_of_ascii "{") with 123 in Ec. subst c.
      destruct (through_last 125 r) as [m|] eqn:Em.
      * injection H as <-.
        destruct (through_last_split _ _ _ Em) as (body & post & -> & -> & Hp).
        exists [], body, post. repeat split. exact Hp.
      * apply through_last_none in Em. rewrite (match_braces_none r Em) in H.
        discriminate.
    + destruct (IH span H) as (pre & body & post & -> & Hpre & Hpost & ->).
      exists (c :: pre), body, post. repeat split; [|exact Hpost].
      cbn [has existsb]. fold (has 123 pre). rewrite Hpre.
      unfold chr in Ec. change (N_of_ascii "{") with 123 in Ec.
      rewrite N.eqb_sym, Ec. reflexivity.
  - intros (pre & body & post & -> & Hpre & Hpost & ->).
    apply match_braces_embedded; assumption.
Qed.

Lemma trimStart_nil (s : jsstring) :
  trimStart s = [] <-> forallb is_white_space s = true.
Proof.
  induction s as [|c r IH]; [split; reflexivity|].
  cbn [trimStart forallb]. destruct (is_white_space c); [exact IH|].
  split; discriminate.
Qed.

Lemma trimStart_suffix (s : jsstring) : exists ws, s = ws ++ trimStart s.
Proof.
  induction s as [|c r [ws IH]]; [exists []; reflexivity|].
  cbn [trimStart]. destruct (is_white_space c).
  - exists (c :: ws). cbn [app]. f_equal. exact IH.
  - exists []. reflexivity.
Qed.

Lemma trimStart_head (s : jsstring) :
  match trimStart s with
  | [] => True
  | c :: _ => is_white_space c = false
  end.
Proof.
  induction s as [|c r IH]; [exact I|].
  cbn [trimStart]. destruct (is_white_space c) eqn:Ec; [exact IH | exact Ec].
Qed.

(** X24.  The guard [!text.trim()] of the send handlers and buttons holds
    of exactly the texts made of white space only: a send goes ahead as soon
    as one code unit of the input, wherever it stands, is not white space. *)
Theorem blank_iff_white_space (text : jsstring) :
  blank text = true <-> forallb is_white_space text = true.
Proof.
  unfold blank, trim. split.
  - intros H.
    destruct (rev (trimStart (rev (trimStart text)))) as [|x t] eqn:E; [|discriminate].
    apply (f_equal (@rev N)) in E. rewrite rev_involutive in E. cbn [rev] in E.
    apply trimStart_nil in E. rewrite forallb_forall in E.
    pose proof (trimStart_head text) as Hh.
    destruct (trimStart text) as [|c r] eqn:Et; [apply trimStart_nil; exact Et|].
    exfalso. rewrite (E c) in Hh; [discriminate|].
    apply in_rev. rewrite rev_involutive. left. reflexivity.
  - intros H. apply trimStart_nil in H. rewrite H. reflexivity.
Qed.

End Strings.

(* ===================================================================== *)
(** ** The handlers by cases, and their net effect on the state *)
(* ===================================================================== *)

Module HandlerFacts.

Import EffFacts.

Lemma text_run_app (w1 w2 : list action) (s : TextChat.state) :
  TextChat.run (w1 ++ w2) s = TextChat.run w2 (TextChat.run w1 s).
Proof. apply fold_left_app. Qed.

Lemma analyzer_run_app (w1 w2 : list action) (s : Analyzer.state) :
  Analyzer.run (w1 ++ w2) s = Analyzer.run w2 (Analyzer.run w1 s).
Proof. apply fold_left_app. Qed.

Lemma network_calls_app (w1 w2 : list action) :
  network_calls (w1 ++ w2) = network_calls w1 ++ network_calls w2.
Proof. unfold network_calls. apply filter_app. Qed.

(** [v.name] on an object is the field, and does not throw. *)
Lemma get_field (props : list (jsstring * jsval)) (name : string) :
  get (JObj props) name = Return (field (JObj props) name).
Proof.
  unfold get, field. destruct (lookup_prop (lit name) props); reflexivity.
Qed.

(** *** The analysis *)

Lemma analysis_ready_guards (s : Analyzer.state) :
  analysis_ready s = true ->
  attached (Analyzer.uploadedImage s) = true
  /\ exists c r, Analyzer.selectedCategory s = c :: r.
Proof.
  unfold analysis_ready. intros H. apply andb_true_iff in H as [Ha Hc].
  split; [exact Ha|]. destruct (Analyzer.selectedCategory s) as [|c r]; [discriminate|eauto].
Qed.

Lemma motivation_sentiment (r : jsval) (m : jsstring) :
  Analyzer.motivation_lower r = Return m -> get r "sentiment" = Return (field r "sentiment").
Proof.
  unfold Analyzer.motivation_lower.
  destruct r as [| |b|l|s|items|props]; try discriminate; try reflexivity.
  intros _. apply get_field.
Qed.

Lemma analyze_cases (s : Analyzer.state) (net : http) (now : Z) :
  analysis_ready s = true ->
  Analyzer.analyzeConversation s net now =
  ([SetIsAnalyzing true; analysis_call s]
   ++ match net with
      | Rejects => analysis_failure NetworkFailure
      | Responds status body =>
          if ok {| res_status := status; res_body := body |} then
            match completion body with
            | Throw e => analysis_failure e
            | Return analysisText =>
                match outcome (Analyzer.extract analysisText (Analyzer.selectedCategory s)) with
                | Throw e => analysis_failure e
                | Return result =>
                    SetAnalysisResult result ::
                    match Analyzer.motivation_lower result with
                    | Throw e => analysis_failure e
                    | Return motivation =>
                        match ToString (field result "sentiment") with
                        | Throw e => analysis_failure e
                        | Return _ =>
                            [SetMessages [opening_entry (Analyzer.selectedCategory s)
                                            motivation (field result "sentiment") now];
                             ShowToast analysis_complete_toast]
                        end
                    end
                end
            end
          else analysis_failure (Error (lit "API request failed: " ++ Number_toString status))
      end
   ++ [SetIsAnalyzing false],
   Return tt).
Proof.
  intros Hready. destruct (analysis_ready_guards s Hready) as (Ha & c & r & Hc).
  unfold Analyzer.analyzeConversation, analysis_call, completion.
  rewrite Ha. cbn [negb]. rewrite Hc at 1.
  unfold fetch, json.
  destruct net as [|status body]; [reflexivity|].
  cbn [bind emit ret lift res_body res_status].
  destruct (ok _); [|reflexivity].
  cbn [negb bind ret].
  destruct (JSON_parse body) as [apiResult|e]; [|reflexivity].
  destruct (outcome (completion_text apiResult)) as [analysisText|e] eqn:Ec;
    rewrite (completion_text_pure apiResult), Ec; [|reflexivity].
  cbn [bind].
  destruct (outcome (Analyzer.extract analysisText _)) as [result|e] eqn:Ex;
    rewrite (extract_pure analysisText), Ex; [|reflexivity].
  cbn [bind emit lift].
  destruct (Analyzer.motivation_lower result) as [motivation|e] eqn:Em; [|reflexivity].
  rewrite (motivation_sentiment _ _ Em). cbn [bind lift].
  unfold opening_entry, text_of.
  destruct (ToString (field result "sentiment")) as [printed|e]; reflexivity.
Qed.


Lemma analyze_not_ready (s : Analyzer.state) (net : http) (now : Z) :
  analysis_ready s = false ->
  Analyzer.analyzeConversation s net now =
  ([ShowToast (if attached (Analyzer.uploadedImage s)
               then category_required_toast else no_image_toast)],
   Return tt).
Proof.
  intros H. unfold analysis_ready in H. unfold Analyzer.analyzeConversation.
  destruct (attached (Analyzer.uploadedImage s)); cbn [negb andb] in *; [|reflexivity].
  destruct (Analyzer.selectedCategory s); [reflexivity | discriminate].
Qed.

Lemma analyze_failing (s : Analyzer.state) (net : http) (now : Z) :
  analysis_ready s = true -> failing net = true ->
  exists e,
    Analyzer.analyzeConversation s net now =
    ([SetIsAnalyzing true; analysis_call s] ++ analysis_failure e ++ [SetIsAnalyzing false],
     Return tt).
Proof.
  intros Hready Hfail. rewrite (analyze_cases s net now Hready).
  unfold failing, malformed in Hfail.
  destruct net as [|status body]; [eexists; reflexivity|].
  destruct (ok _); cbn [negb orb] in Hfail; [|eexists; reflexivity].
  destruct (completion body); [discriminate | eexists; reflexivity].
Qed.

Lemma analyze_replied (s : Analyzer.state) (status : Z) (body text : jsstring) (now : Z) :
  analysis_ready s = true ->
  ok {| res_status := status; res_body := body |} = true ->
  completion body = Return (JStr text) ->
  let r := extraction text (Analyzer.selectedCategory s) in
  Analyzer.analyzeConversation s (Responds status body) now =
  ([SetIsAnalyzing true; analysis_call s; SetAnalysisResult r]
   ++ match Analyzer.motivation_lower r with
      | Throw e => analysis_failure e
      | Return motivation =>
          match ToString (field r "sentiment") with
          | Throw e => analysis_failure e
          | Return _ =>
              [SetMessages [opening_entry (Analyzer.selectedCategory s) motivation
                              (field r "sentiment") now];
               ShowToast analysis_complete_toast]
          end
      end
   ++ [SetIsAnalyzing false],
   Return tt).
Proof.
  intros Hready Hok Hc r.
  rewrite (analyze_cases s _ now Hready), Hok, Hc, extract_cases. reflexivity.
Qed.

(** What extraction returns is an object. *)
Lemma extraction_object (text category : jsstring) :
  exists props, extraction text category = JObj props.
Proof.
  unfold extraction.
  destruct (match_braces text) as [span|] eqn:Em; [|eexists; reflexivity].
  destruct (JSON_parse span) as [v|e] eqn:Ep; [|eexists; reflexivity].
  destruct (JSFacts.match_braces_stretch _ _ Em) as (pre & body & post & _ & ->).
  exact (JSFacts.JSON_parse_brace_object _ _ Ep).
Qed.

Lemma extract_object (v : jsval) (category : jsstring) (r : jsval) :
  outcome (Analyzer.extract v category) = Return r -> exists props, r = JObj props.
Proof.
  destruct v as [| |b|l|text|items|props]; try discriminate.
  - rewrite extract_cases. intros H. injection H as <-.
    apply extraction_object.
  - unfold Analyzer.extract, Analyzer.String_match, Analyzer.truncated.
    cbn [lift bind try_catch].
    destruct (ToString (JArr (take 300 items))) as [joined|e]; [|discriminate].
    intros H. injection H as <-. eexists. reflexivity.
Qed.

Lemma no_object_extraction (text category : jsstring) :
  ~ contains_JSON_object text -> extraction text category = fallen_back text category.
Proof.
  intros Hnone. unfold extraction.
  destruct (match_braces text) as [span|] eqn:Em; [|reflexivity].
  destruct (JSON_parse span) as [v|e] eqn:Ep; [|reflexivity].
  exfalso. apply Hnone.
  destruct (JSFacts.match_braces_stretch _ _ Em) as (pre & body & post & Et & Es).
  subst span. destruct (JSFacts.JSON_parse_brace_object _ _ Ep) as [props ->].
  exists pre, (123 :: body), post, props. split; assumption.
Qed.

(** *** The upload of the text chat *)

Lemma text_upload_cases (s : TextChat.state) (f : file) (net : http) (now : Z) :
  TextChat.handleImageUpload s (Some f) net now =
  ([SetUploadedImage (Some (dataURL f)); SetIsLoading true; vision_call f]
   ++ match vision_text net with
      | Return text =>
          [SetMessages (TextChat.messages s ++ [vision_entry text now]);
           ShowToast image_analyzed_toast]
      | Throw e => [ShowToast (vision_failed_toast e)]
      end
   ++ [SetIsLoading false],
   Return tt).
Proof.
  unfold TextChat.handleImageUpload, TextChat.analyzeImage, vision_text, fetch, json.
  destruct net as [|status body]; [reflexivity|].
  cbn [bind emit ret lift res_body try_catch].
  destruct (JSON_parse body) as [data|e]; [|reflexivity].
  destruct (outcome (TextChat.annotation_text data)) as [text|e] eqn:Ea;
    rewrite (annotation_text_pure data), Ea; [|reflexivity].
  cbn [bind lift]. unfold vision_entry, text_of.
  destruct (ToString text) as [printed|e] eqn:Et; cbv beta iota; rewrite ?Et; reflexivity.
Qed.

(** *** The net effect of a send *)

Lemma text_send_effect (s : TextChat.state) (now : Z) (net : http) (later : Z) :
  blank (TextChat.inputMessage s) && negb (attached (TextChat.uploadedImage s)) = false ->
  let w := trace (TextChat.handleSendMessage s now net later) in
  TextChat.run w s
  = TextChat.run [SetMessages (log_after w (TextChat.messages s)); SetInputMessage [];
                  SetUploadedImage None; SetIsLoading false] s
  /\ network_calls w = [chat_call s].
Proof.
  intros Hguard w. subst w. rewrite (text_send_shape s now net later Hguard). cbv zeta.
  rewrite generateAIResponse_cases. cbv zeta.
  destruct net as [|status body]; [|destruct (ok _); [destruct (completion body)|]];
    destruct s; split; reflexivity.
Qed.

Lemma text_send_blank (s : TextChat.state) (now : Z) (net : http) (later : Z) :
  blank (TextChat.inputMessage s) && negb (attached (TextChat.uploadedImage s)) = true ->
  TextChat.handleSendMessage s now net later = ([], Return tt).
Proof. intros H. unfold TextChat.handleSendMessage. rewrite H. reflexivity. Qed.

Lemma analyzer_send_effect (s : Analyzer.state) (now : Z) (net : http) (later : Z) :
  blank (Analyzer.inputMessage s) = false ->
  let w := trace (Analyzer.handleSendMessage s now net later) in
  Analyzer.run w s
  = Analyzer.run [SetMessages (log_after w (Analyzer.chatMessages s)); SetInputMessage [];
                  SetIsLoading false] s.
Proof.
  intros Hguard w. subst w.
  destruct (analyzer_send_shape s now net later Hguard) as (v & _ & ->).
  rewrite generateContextualResponse_cases. cbv zeta.
  destruct (negb (truthy _));
    [|destruct (outcome (Analyzer.context_prompt _ _));
      [destruct net as [|status body]; [|destruct (ok _); [destruct (completion body)|]]|]];
    destruct s; reflexivity.
Qed.

Lemma analyzer_send_blank (s : Analyzer.state) (now : Z) (net : http) (later : Z) :
  blank (Analyzer.inputMessage s) = true ->
  Analyzer.handleSendMessage s now net later = ([], Return tt).
Proof. intros H. unfold Analyzer.handleSendMessage. rewrite H. reflexivity. Qed.

End HandlerFacts.

(* ===================================================================== *)
(** ** The log only grows, except when an analysis starts it afresh *)
(* ===================================================================== *)

Section Growth.

Import EffFacts HandlerFacts.

Lemma not_complete (t : toast) :
  is_error_toast t = true -> ~ In analysis_complete_toast [t].
Proof.
  intros Ht [->|[]]. discriminate Ht.
Qed.

(** What an analysis leaves in the log and which notification it raises,
    by whether it runs to its end. *)
Lemma analysis_log (zs : Analyzer.state) (net : http) (now : Z) :
  let w := trace (Analyzer.analyzeConversation zs net now) in
  if analysis_succeeds zs net
  then (exists m, id m = Number_toString now /\ type m = ai
                  /\ log_after w (Analyzer.chatMessages zs) = [m])
       /\ toasts w = [analysis_complete_toast]
  else log_after w (Analyzer.chatMessages zs) = Analyzer.chatMessages zs
       /\ ~ In analysis_complete_toast (toasts w).
Proof.
  cbv zeta. unfold analysis_succeeds.
  destruct (analysis_ready zs) eqn:Hr; cbn [andb].
  - rewrite (analyze_cases zs net now Hr).
    destruct net as [|status body]; [split; [reflexivity | apply not_complete; reflexivity]|].
    destruct (ok _); cbn [andb];
      [|split; [reflexivity | apply not_complete; reflexivity]].
    destruct (completion body) as [analysisText|e];
      [|split; [reflexivity | apply not_complete; reflexivity]].
    destruct (outcome (Analyzer.extract analysisText _)) as [result|e];
      [|split; [reflexivity | apply not_complete; reflexivity]].
    destruct (Analyzer.motivation_lower result) as [motivation|e];
      [|split; [reflexivity | apply not_complete; reflexivity]].
    unfold converts.
    destruct (ToString (field result "sentiment")) as [printed|e];
      [|split; [reflexivity | apply not_complete; reflexivity]].
    split; [|reflexivity]. eexists. split; [|split]; [| |reflexivity]; reflexivity.
  - rewrite (analyze_not_ready zs net now Hr).
    split; [reflexivity|]. apply not_complete. destruct (attached _); reflexivity.
Qed.

(** C8 (as amended).  Every operation of the text chat (typing, send, voice,
    upload, removing the attachment) and every operation of the analyzer but
    a successful analysis leaves the log it found as a prefix of the log it
    leaves; a failed analysis leaves the very log it found, and does not
    raise the notification of success.  A successful analysis, the first or
    a later one, replaces the log by its single opening assistant entry,
    stamped with the clock, and raises that notification. *)
Theorem log_grows (ts : TextChat.state) (top : TextSession.op)
    (zs : Analyzer.state) (zop : AnalyzerSession.op) :
  TextChat.messages ts `prefix_of` TextChat.messages (TextSession.step ts top)
  /\ match zop with
     | AnalyzerSession.Analyze net now =>
         let log' := Analyzer.chatMessages (AnalyzerSession.step zs zop) in
         let w := trace (Analyzer.analyzeConversation zs net now) in
         if analysis_succeeds zs net
         then (exists m, id m = Number_toString now /\ type m = ai /\ log' = [m])
              /\ toasts w = [analysis_complete_toast]
         else log' = Analyzer.chatMessages zs
              /\ ~ In analysis_complete_toast (toasts w)
     | _ =>
         Analyzer.chatMessages zs
           `prefix_of` Analyzer.chatMessages (AnalyzerSession.step zs zop)
     end.
Proof.
  split.
  - destruct (text_step_appends ts top) as (new & _ & E & _).
    rewrite E. apply prefix_app_r. reflexivity.
  - pose proof (analyzer_step_log zs zop) as Hstep. cbv zeta in Hstep.
    destruct zop as [text|now net later| | |f|e|f|net now]; try (rewrite Hstep; reflexivity).
    + destruct Hstep as [E|(u & a & E & _)]; rewrite E;
        [reflexivity | apply prefix_app_r; reflexivity].
    + cbv zeta. unfold AnalyzerSession.step. rewrite analyzer_run_log.
      cbn [AnalyzerSession.perform]. apply analysis_log.
Qed.

(** C8, as stated, fails for a second analysis: the two entries of the
    follow-up chat are gone from the log that it leaves. *)
Lemma reanalysis_counterexample :
  let after := AnalyzerSession.step chatting
                 (AnalyzerSession.Analyze (reply_with "The seller seems firm.") 5000) in
  length (Analyzer.chatMessages chatting) = 2%nat
  /\ id <$> Analyzer.chatMessages after = [Number_toString 5000]
  /\ ~ Analyzer.chatMessages chatting `prefix_of` Analyzer.chatMessages after.
Proof.
  cbv zeta. split; [vm_compute; reflexivity|]. split; [vm_compute; reflexivity|].
  intros H. apply prefix_length in H. vm_compute in H. lia.
Qed.

(** A second analysis on a reply that holds no JSON is a successful
    one. *)
Example reanalysis_succeeds :
  analysis_succeeds chatting (reply_with "The seller seems firm.") = true.
Proof. vm_compute. reflexivity. Qed.

(** A reply whose [sentiment] is an object with a [toString] of its own:
    the opening entry cannot be built, the analysis fails and the log
    stays. *)
Example unprintable_sentiment_keeps_log :
  let body := json_lit "{'choices':[{'message':{'content':'{\'sellerMotivation\': \'Moving\', \'sentiment\': {\'toString\': 1}}'}}]}" in
  analysis_succeeds chatting (Responds 200 body) = false
  /\ Analyzer.chatMessages
       (AnalyzerSession.step chatting (AnalyzerSession.Analyze (Responds 200 body) 5000))
     = Analyzer.chatMessages chatting
  /\ toasts (trace (Analyzer.analyzeConversation chatting (Responds 200 body) 5000))
     = [Analyzer.analysis_failed_toast].
Proof. cbv zeta. split; [|split]; vm_compute; reflexivity. Qed.

End Growth.

(* ===================================================================== *)
(** ** The analysis *)
(* ===================================================================== *)

Section Analysis.

Import HandlerFacts.

(** X2.  The two guards of the analysis, lines 553-569: without an uploaded
    image, or with an image and an empty category, the handler raises one
    error notification (about the image first), makes no request and leaves
    the state as it was.  The analyze button is disabled while no image is
    uploaded, so a click can only meet the notification about the
    category. *)
Theorem analysis_guards (s : Analyzer.state) (net : http) (now : Z) :
  analysis_ready s = false ->
  let t := if attached (Analyzer.uploadedImage s)
           then category_required_toast else no_image_toast in
  Analyzer.analyzeConversation s net now = ([ShowToast t], Return tt)
  /\ is_error_toast t = true
  /\ network_calls (trace (Analyzer.analyzeConversation s net now)) = []
  /\ AnalyzerSession.step s (AnalyzerSession.Analyze net now) = s
  /\ (AnalyzerView.analyzeDisabled s = false -> t = category_required_toast).
Proof.
  intros Hready t. subst t.
  pose proof (analyze_not_ready s net now Hready) as E.
  split; [exact E|]. split; [destruct (attached _); reflexivity|].
  split; [rewrite E; reflexivity|].
  split.
  - unfold AnalyzerSession.step. cbn [AnalyzerSession.perform]. rewrite E.
    destruct s; reflexivity.
  - unfold AnalyzerView.analyzeDisabled. intros H.
    apply orb_false_iff in H as [_ H]. apply negb_false_iff in H. rewrite H. reflexivity.
Qed.

Lemma analysis_guards_witness :
  analysis_ready (AnalyzerSession.init (lit "electronics")) = false
  /\ toasts (trace (Analyzer.analyzeConversation (AnalyzerSession.init (lit "electronics"))
                      (reply_with "Offer 200.") 1000))
     = [no_image_toast].
Proof.
  split; [reflexivity|].
  destruct (analysis_guards (AnalyzerSession.init (lit "electronics"))
              (reply_with "Offer 200.") 1000 eq_refl) as [E _].
  rewrite E. reflexivity.
Defined.

(** X3.  An analysis whose upstream call fails (transport error, non-success
    status or malformed body): one request has left, the error is logged to
    the console, the one notification is [Analysis Failed], and the stored
    result, the chat log and the uploaded image are as before; the
    [isAnalyzing] flag is down again. *)
Theorem failed_analysis (s : Analyzer.state) (net : http) (now : Z) :
  analysis_ready s = true ->
  failing net = true ->
  let w := trace (Analyzer.analyzeConversation s net now) in
  let s' := AnalyzerSession.step s (AnalyzerSession.Analyze net now) in
  toasts w = [Analyzer.analysis_failed_toast]
  /\ network_calls w = [analysis_call s]
  /\ (exists e, In (ConsoleError (lit "Gemini API error:") e) w)
  /\ Analyzer.analysisResult s' = Analyzer.analysisResult s
  /\ Analyzer.chatMessages s' = Analyzer.chatMessages s
  /\ Analyzer.uploadedImage s' = Analyzer.uploadedImage s
  /\ Analyzer.isAnalyzing s' = false.
Proof.
  intros Hready Hfail w s'. subst w s'.
  unfold AnalyzerSession.step. cbn [AnalyzerSession.perform].
  destruct (analyze_failing s net now Hready Hfail) as [e ->].
  split; [reflexivity|]. split; [reflexivity|].
  split; [exists e; right; right; left; reflexivity|].
  destruct s; repeat split.
Qed.

Lemma failed_analysis_witness :
  analysis_ready uploaded = true
  /\ failing (Responds 503 (lit "Service Unavailable")) = true
  /\ Analyzer.analysisResult
       (AnalyzerSession.step uploaded
          (AnalyzerSession.Analyze (Responds 503 (lit "Service Unavailable")) 1000))
     = JNull.
Proof.
  split; [reflexivity|]. split; [reflexivity|].
  destruct (failed_analysis uploaded (Responds 503 (lit "Service Unavailable")) 1000
              eq_refl eq_refl) as (_ & _ & _ & E & _).
  rewrite E. reflexivity.
Defined.

(** X4.  An analysis that completes: the reply is a text, what extraction
    makes of it has a string of ASCII as [sellerMotivation], and its
    [sentiment] converts to a string.  Then the result is stored, the chat
    log is replaced by the one opening entry, which quotes the motivation in
    lower case and the sentiment as converted, the one notification is
    [Analysis Complete], one request has left and the [isAnalyzing] flag is
    down again.  (Outside ASCII the lower case is the runtime's, by its case
    tables.) *)
Theorem completed_analysis (s : Analyzer.state) (status : Z)
    (body text raw sentiment : jsstring) (now : Z) :
  analysis_ready s = true ->
  ok {| res_status := status; res_body := body |} = true ->
  completion body = Return (JStr text) ->
  let r := extraction text (Analyzer.selectedCategory s) in
  field r "sellerMotivation" = JStr raw ->
  is_ascii raw = true ->
  ToString (field r "sentiment") = Return sentiment ->
  let w := trace (Analyzer.analyzeConversation s (Responds status body) now) in
  let s' := AnalyzerSession.step s (AnalyzerSession.Analyze (Responds status body) now) in
  Analyzer.analysisResult s' = r
  /\ Analyzer.chatMessages s'
     = [ {| id := Number_toString now;
            type := ai;
            content :=
              JStr (lit "I've analyzed your conversation screenshot using Gemini 2.5. Based on the "
                    ++ Analyzer.selectedCategory s ++ lit " negotiation, I can see that "
                    ++ toLowerCase raw ++ lit ". The seller's sentiment appears " ++ sentiment
                    ++ lit ". Feel free to ask me any questions about the analysis or negotiation strategy!");
            timestamp := now;
            isAudio := None;
            hasImage := None |} ]
  /\ toasts w = [analysis_complete_toast]
  /\ network_calls w = [analysis_call s]
  /\ Analyzer.isAnalyzing s' = false.
Proof.
  intros Hready Hok Hc r Hraw _ Hs w s'. subst w s'.
  unfold AnalyzerSession.step. cbn [AnalyzerSession.perform].
  rewrite (analyze_replied s status body text now Hready Hok Hc). cbv zeta.
  fold r.
  assert (Hm : Analyzer.motivation_lower r = Return (toLowerCase raw)).
  { unfold Analyzer.motivation_lower.
    destruct (extraction_object text (Analyzer.selectedCategory s)) as [props Hr].
    fold r in Hr. rewrite Hr in *. rewrite get_field, Hraw. reflexivity. }
  rewrite Hm, Hs. unfold opening_entry, text_of. rewrite Hs.
  destruct s; repeat split.
Qed.

Lemma completed_analysis_witness :
  completion brief_body = Return (JStr brief_reply)
  /\ content <$> Analyzer.chatMessages
                   (AnalyzerSession.step uploaded
                      (AnalyzerSession.Analyze (Responds 200 brief_body) 1000))
     = [JStr (lit "I've analyzed your conversation screenshot using Gemini 2.5. Based on the electronics negotiation, I can see that moving out. The seller's sentiment appears undefined. Feel free to ask me any questions about the analysis or negotiation strategy!")].
Proof.
  split; [reflexivity|].
  destruct (completed_analysis uploaded 200 brief_body brief_reply (lit "Moving OUT")
              (lit "undefined") 1000 eq_refl eq_refl eq_refl eq_refl eq_refl eq_refl)
    as (_ & E & _).
  rewrite E. reflexivity.
Defined.

(** X5.  An analysis can fail after it has stored its result.  When the
    reply is a text and what extraction makes of it has no string as
    [sellerMotivation], or has a [sentiment] that does not convert to a
    string, the result, an object, is stored all the same, so that the test
    of line 956 no longer selects the placeholder; the chat log is left as
    it was and the one notification is [Analysis Failed]. *)
Theorem result_stored_then_failed (s : Analyzer.state) (status : Z) (body text : jsstring)
    (e : exn) (now : Z) :
  analysis_ready s = true ->
  ok {| res_status := status; res_body := body |} = true ->
  completion body = Return (JStr text) ->
  let r := extraction text (Analyzer.selectedCategory s) in
  (Analyzer.motivation_lower r = Throw e
   \/ (exists motivation, Analyzer.motivation_lower r = Return motivation)
      /\ ToString (field r "sentiment") = Throw e) ->
  let w := trace (Analyzer.analyzeConversation s (Responds status body) now) in
  let s' := AnalyzerSession.step s (AnalyzerSession.Analyze (Responds status body) now) in
  Analyzer.analysisResult s' = r
  /\ (exists props, r = JObj props)
  /\ AnalyzerView.hasResult s' = true
  /\ Analyzer.chatMessages s' = Analyzer.chatMessages s
  /\ toasts w = [Analyzer.analysis_failed_toast]
  /\ In (ConsoleError (lit "Gemini API error:") e) w.
Proof.
  intros Hready Hok Hc r Hfail w s'. subst w s'.
  unfold AnalyzerSession.step, AnalyzerView.hasResult. cbn [AnalyzerSession.perform].
  rewrite (analyze_replied s status body text now Hready Hok Hc). cbv zeta.
  fold r.
  destruct (extraction_object text (Analyzer.selectedCategory s)) as [props Hr].
  fold r in Hr.
  assert (Ht : truthy r = true) by (rewrite Hr; reflexivity).
  assert (E : match Analyzer.motivation_lower r with
              | Throw e => analysis_failure e
              | Return motivation =>
                  match ToString (field r "sentiment") with
                  | Throw e => analysis_failure e
                  | Return _ =>
                      [SetMessages [opening_entry (Analyzer.selectedCategory s) motivation
                                      (field r "sentiment") now];
                       ShowToast analysis_complete_toast]
                  end
              end = analysis_failure e).
  { destruct Hfail as [->|[[m ->] ->]]; reflexivity. }
  rewrite E.
  split; [destruct s; reflexivity|].
  split; [exists props; exact Hr|].
  split; [destruct s; exact Ht|].
  split; [destruct s; reflexivity|].
  split; [reflexivity|].
  right. right. right. left. reflexivity.
Qed.

Lemma result_stored_then_failed_witness :
  completion partial_body = Return (JStr partial_reply)
  /\ Analyzer.analysisResult half_analyzed = JObj [ (lit "sentiment", JStr (lit "angry")) ]
  /\ Analyzer.chatMessages half_analyzed = []
  /\ title <$> toasts (trace (Analyzer.analyzeConversation uploaded
                                (Responds 200 partial_body) 1000))
     = [lit "Analysis Failed"].
Proof.
  split; [reflexivity|].
  destruct (result_stored_then_failed uploaded 200 partial_body partial_reply TypeError 1000
              eq_refl eq_refl eq_refl (or_introl eq_refl))
    as (E1 & _ & _ & E2 & E3 & _).
  split; [exact E1|]. split; [exact E2|]. rewrite E3. reflexivity.
Defined.

(** X6.  A degraded analysis is reported as a complete one.  When the reply
    holds no parseable JSON object, the analysis stores the fallback, opens
    the chat with the fallback's motivation and the sentiment [neutral], and
    raises [Analysis Complete] and no error; the summary then shows the
    neutral and the medium styles. *)
Theorem degraded_analysis_reported_complete (s : Analyzer.state) (status : Z)
    (body text : jsstring) (now : Z) :
  analysis_ready s = true ->
  ok {| res_status := status; res_body := body |} = true ->
  completion body = Return (JStr text) ->
  ~ contains_JSON_object text ->
  let w := trace (Analyzer.analyzeConversation s (Responds status body) now) in
  let s' := AnalyzerSession.step s (AnalyzerSession.Analyze (Responds status body) now) in
  Analyzer.analysisResult s' = fallen_back text (Analyzer.selectedCategory s)
  /\ Analyzer.chatMessages s'
     = [opening_entry (Analyzer.selectedCategory s)
          (lit "analysis based on conversation content") (JStr (lit "neutral")) now]
  /\ toasts w = [analysis_complete_toast]
  /\ AnalyzerView.getSentimentColor (field (Analyzer.analysisResult s') "sentiment")
     = AnalyzerView.yellow
  /\ AnalyzerView.getUrgencyColor (field (Analyzer.analysisResult s') "urgencyLevel")
     = AnalyzerView.orange.
Proof.
  intros Hready Hok Hc Hnone w s'. subst w s'.
  unfold AnalyzerSession.step. cbn [AnalyzerSession.perform].
  rewrite (analyze_replied s status body text now Hready Hok Hc). cbv zeta.
  rewrite (no_object_extraction text _ Hnone).
  change (Analyzer.motivation_lower (fallen_back text (Analyzer.selectedCategory s)))
    with (Return (lit "analysis based on conversation content") : result jsstring).
  destruct s; repeat split.
Qed.

Lemma degraded_analysis_reported_complete_witness :
  ~ contains_JSON_object (lit "The seller seems firm.")
  /\ toasts (trace (Analyzer.analyzeConversation uploaded
                      (reply_with "The seller seems firm.") 1000))
     = [analysis_complete_toast].
Proof.
  pose proof (no_brace_no_object (lit "The seller seems firm.") eq_refl) as Hno.
  split; [exact Hno|].
  destruct (degraded_analysis_reported_complete uploaded 200
              (json_lit "{'choices':[{'message':{'role':'assistant','content':'"
               ++ lit "The seller seems firm." ++ json_lit "'}}]}")
              (lit "The seller seems firm.") 1000 eq_refl eq_refl eq_refl Hno)
    as (_ & _ & E & _).
  exact E.
Defined.

(** X7.  Extraction, lines 632-665, on any value of [content].  On a
    string it returns an object, the parsed span or the fallback.  On an
    array the match fails and the fallback is built from the first 300
    elements joined by commas, when they convert to strings; when one does
    not, the conversion throws out of the catch block.  On every other value
    both the match and the fallback's [slice] fail, and extraction throws a
    [TypeError]. *)
Theorem extraction_yields_object (v : jsval) (category : jsstring) :
  match v with
  | JStr _ => exists props, Analyzer.extract v category = ([], Return (JObj props))
  | JArr items =>
      match ToString (JArr (take 300 items)) with
      | Return joined =>
          Analyzer.extract v category
          = ([], Return (Analyzer.fallback category (joined ++ lit "...")))
      | Throw e => Analyzer.extract v category = ([], Throw e)
      end
  | _ => Analyzer.extract v category = ([], Throw TypeError)
  end.
Proof.
  destruct v as [| |b|l|text|items|props]; try reflexivity.
  - rewrite extract_cases. destruct (extraction_object text category) as [props Hp].
    unfold extraction in Hp. rewrite Hp. eauto.
  - unfold Analyzer.extract, Analyzer.String_match, Analyzer.truncated.
    cbn [lift bind try_catch].
    destruct (ToString (JArr (take 300 items))); reflexivity.
Qed.

End Analysis.

(* ===================================================================== *)
(** ** Invariants of a session *)
(* ===================================================================== *)

Section Invariants.

Import EffFacts HandlerFacts.

Lemma text_session_invariant (P : TextChat.state -> Prop) :
  (forall s o, P s -> P (TextSession.step s o)) ->
  forall ops s, P s -> P (TextSession.session s ops).
Proof.
  intros Hstep ops. unfold TextSession.session.
  induction ops as [|o ops IH]; intros s H; [exact H|].
  cbn [fold_left]. apply IH, Hstep, H.
Qed.

Lemma analyzer_session_invariant (P : Analyzer.state -> Prop) :
  (forall s o, P s -> P (AnalyzerSession.step s o)) ->
  forall ops s, P s -> P (AnalyzerSession.session s ops).
Proof.
  intros Hstep ops. unfold AnalyzerSession.session.
  induction ops as [|o ops IH]; intros s H; [exact H|].
  cbn [fold_left]. apply IH, Hstep, H.
Qed.

Lemma text_step_loading (s : TextChat.state) (o : TextSession.op) :
  TextChat.isLoading s = false -> TextChat.isLoading (TextSession.step s o) = false.
Proof.
  intros H. unfold TextSession.step.
  destruct o as [text|now net later| | |f net now|]; cbn [TextSession.perform].
  - destruct s; exact H.
  - destruct (blank (TextChat.inputMessage s)
              && negb (attached (TextChat.uploadedImage s))) eqn:Hg.
    + rewrite (text_send_blank s now net later Hg). exact H.
    + destruct (text_send_effect s now net later Hg) as [E _]. cbv zeta in E.
      rewrite E. destruct s; reflexivity.
  - unfold TextChat.handleVoiceRecording.
    destruct (TextChat.isRecording s); destruct s; exact H.
  - destruct s; exact H.
  - destruct f as [f|]; [|exact H].
    rewrite text_upload_cases. destruct (vision_text net); destruct s; reflexivity.
  - destruct s; exact H.
Qed.

(** The branches of an analysis that is past its guards. *)
Ltac analysis_branches net :=
  destruct net as [|?status ?body];
  [|destruct (ok _);
    [destruct (completion _) as [?analysisText|?];
     [destruct (outcome (Analyzer.extract _ _)) as [?result|?] eqn:?Ex;
      [destruct (Analyzer.motivation_lower _);
       [destruct (ToString (field _ "sentiment"))|]|]|]|]].

Lemma analyzer_step_flags (s : Analyzer.state) (o : AnalyzerSession.op) :
  Analyzer.isLoading s = false /\ Analyzer.isAnalyzing s = false ->
  Analyzer.isLoading (AnalyzerSession.step s o) = false
  /\ Analyzer.isAnalyzing (AnalyzerSession.step s o) = false.
Proof.
  intros H. unfold AnalyzerSession.step.
  destruct o as [text|now net later| | |f|e|f|net now]; cbn [AnalyzerSession.perform].
  - destruct s; exact H.
  - destruct (blank (Analyzer.inputMessage s)) eqn:Hg.
    + rewrite (analyzer_send_blank s now net later Hg). exact H.
    + pose proof (analyzer_send_effect s now net later Hg) as E. cbv zeta in E.
      rewrite E. destruct s; split; [reflexivity | apply H].
  - unfold Analyzer.handleVoiceRecording.
    destruct (Analyzer.isRecording s); destruct s; exact H.
  - destruct s; exact H.
  - unfold Analyzer.handleFileSelect, Analyzer.handleImageUpload.
    destruct f as [f|]; [|exact H].
    destruct (Analyzer.size_ceiling <? size f); [exact H|].
    destruct (negb _); destruct s; exact H.
  - destruct e; destruct s; exact H.
  - unfold Analyzer.handleDrop, Analyzer.handleImageUpload.
    destruct f as [f|]; [|destruct s; exact H].
    destruct (Analyzer.size_ceiling <? size f); [destruct s; exact H|].
    destruct (negb _); destruct s; exact H.
  - destruct (analysis_ready s) eqn:Hr.
    + rewrite (analyze_cases s net now Hr).
      analysis_branches net; destruct s; (split; [apply H | reflexivity]).
    + rewrite (analyze_not_ready s net now Hr). destruct s; exact H.
Qed.

(** X8.  No spinner is left on by a request that has settled.  In a
    session each request has settled when its operation is over: the
    promise of [fetch] was rejected or a response has arrived, whatever its
    status and body (a request that never settles is no part of a session,
    nor is a file that cannot be read).  After such a session [isLoading] is
    false in both components and [isAnalyzing] is false in the analyzer:
    each handler lowers its flag in a [finally] block. *)
Theorem idle_after_session (category : jsstring) (data : TextChat.negotiation)
    (tops : list TextSession.op) (zops : list AnalyzerSession.op) :
  TextChat.isLoading (TextSession.session (TextSession.init category data) tops) = false
  /\ Analyzer.isLoading (AnalyzerSession.session (AnalyzerSession.init category) zops) = false
  /\ Analyzer.isAnalyzing (AnalyzerSession.session (AnalyzerSession.init category) zops)
     = false.
Proof.
  split.
  - apply (text_session_invariant (fun s => TextChat.isLoading s = false));
      [exact text_step_loading | reflexivity].
  - apply (analyzer_session_invariant
             (fun s => Analyzer.isLoading s = false /\ Analyzer.isAnalyzing s = false));
      [exact analyzer_step_flags | split; reflexivity].
Qed.

Lemma analyzer_step_result (s : Analyzer.state) (o : AnalyzerSession.op) :
  Analyzer.analysisResult (AnalyzerSession.step s o) = Analyzer.analysisResult s
  \/ exists props, Analyzer.analysisResult (AnalyzerSession.step s o) = JObj props.
Proof.
  unfold AnalyzerSession.step.
  destruct o as [text|now net later| | |f|e|f|net now]; cbn [AnalyzerSession.perform].
  - left. destruct s; reflexivity.
  - left. destruct (blank (Analyzer.inputMessage s)) eqn:Hg.
    + rewrite (analyzer_send_blank s now net later Hg). reflexivity.
    + pose proof (analyzer_send_effect s now net later Hg) as E. cbv zeta in E.
      rewrite E. destruct s; reflexivity.
  - left. unfold Analyzer.handleVoiceRecording.
    destruct (Analyzer.isRecording s); destruct s; reflexivity.
  - left. destruct s; reflexivity.
  - left. unfold Analyzer.handleFileSelect, Analyzer.handleImageUpload.
    destruct f as [f|]; [|reflexivity].
    destruct (Analyzer.size_ceiling <? size f); [reflexivity|].
    destruct (negb _); destruct s; reflexivity.
  - left. destruct e; destruct s; reflexivity.
  - left. unfold Analyzer.handleDrop, Analyzer.handleImageUpload.
    destruct f as [f|]; [|destruct s; reflexivity].
    destruct (Analyzer.size_ceiling <? size f); [destruct s; reflexivity|].
    destruct (negb _); destruct s; reflexivity.
  - destruct (analysis_ready s) eqn:Hr.
    + rewrite (analyze_cases s net now Hr).
      analysis_branches net; try (left; destruct s; reflexivity);
        right; apply extract_object in Ex as [props ->];
        exists props; destruct s; reflexivity.
    + left. rewrite (analyze_not_ready s net now Hr). destruct s; reflexivity.
Qed.

(** X9.  In every session of the analyzer the stored result is [null] or
    an object: what an analysis stores is a parsed span that opens with a
    brace, or the fallback, and nothing else writes the result. *)
Theorem result_null_or_object (category : jsstring) (ops : list AnalyzerSession.op) :
  let r := Analyzer.analysisResult
             (AnalyzerSession.session (AnalyzerSession.init category) ops) in
  r = JNull \/ exists props, r = JObj props.
Proof.
  cbv zeta.
  apply (analyzer_session_invariant
           (fun s => Analyzer.analysisResult s = JNull
                     \/ exists props, Analyzer.analysisResult s = JObj props)).
  - intros s o H. destruct (analyzer_step_result s o) as [E|E]; [rewrite E; exact H|].
    right. exact E.
  - left. reflexivity.
Qed.

(** X10.  Once a result is stored, the test of line 956 never selects the
    placeholder again: no operation takes the stored result back to a falsy
    value, neither a failed analysis nor the upload of another screenshot. *)
Theorem result_stays_stored (s : Analyzer.state) (ops : list AnalyzerSession.op) :
  AnalyzerView.hasResult s = true ->
  AnalyzerView.hasResult (AnalyzerSession.session s ops) = true.
Proof.
  apply (analyzer_session_invariant (fun s => AnalyzerView.hasResult s = true)).
  clear s ops. intros s o H. unfold AnalyzerView.hasResult in *.
  destruct (analyzer_step_result s o) as [E|[props E]]; rewrite E; [exact H | reflexivity].
Qed.

Lemma result_stays_stored_witness :
  AnalyzerView.hasResult (analyzed_with []) = true
  /\ AnalyzerView.hasResult
       (AnalyzerSession.session (analyzed_with [])
          [ AnalyzerSession.Upload (Some big_png);
            AnalyzerSession.Analyze Rejects 2000 ]) = true.
Proof.
  split; [reflexivity|].
  exact (result_stays_stored (analyzed_with [])
           [ AnalyzerSession.Upload (Some big_png); AnalyzerSession.Analyze Rejects 2000 ]
           eq_refl).
Defined.

Ltac authors :=
  repeat (constructor; [first [left; reflexivity | right; reflexivity | assumption]|]);
  try constructor.

Lemma text_step_authors (s : TextChat.state) (o : TextSession.op) :
  no_seller (TextChat.messages s) -> no_seller (TextChat.messages (TextSession.step s o)).
Proof.
  intros H. unfold no_seller in *.
  destruct o as [text|now net later| | |f net now|];
    try (match goal with
         | |- context [TextSession.step s ?o] =>
             destruct (text_step_appends s o) as (new & stamps & -> & Hid & ->)
         end;
         apply fmap_nil_inv in Hid; subst new; rewrite app_nil_r; exact H).
  - unfold TextSession.step. rewrite text_run_log. cbn [TextSession.perform].
    destruct (blank (TextChat.inputMessage s)
              && negb (attached (TextChat.uploadedImage s))) eqn:Hg.
    + rewrite (text_send_blank s now net later Hg). exact H.
    + pose proof (text_send_log s now net later Hg) as Hl. cbv zeta in Hl.
      destruct (outcome _); destruct Hl as [-> _]; apply Forall_app; (split; [exact H|]);
        authors.
  - unfold TextSession.step. rewrite text_run_log. cbn [TextSession.perform].
    destruct f as [f|]; [|exact H].
    rewrite text_upload_cases. destruct (vision_text net); [|exact H].
    apply Forall_app. split; [exact H|]. authors.
Qed.

Lemma analyzer_step_authors (s : Analyzer.state) (o : AnalyzerSession.op) :
  no_seller (Analyzer.chatMessages s) ->
  no_seller (Analyzer.chatMessages (AnalyzerSession.step s o)).
Proof.
  intros H. unfold no_seller in *.
  pose proof (analyzer_step_log s o) as Hlog. cbv zeta in Hlog.
  destruct o as [text|now net later| | |f|e|f|net now]; try (rewrite Hlog; exact H).
  - clear Hlog. unfold AnalyzerSession.step. rewrite analyzer_run_log.
    cbn [AnalyzerSession.perform].
    destruct (blank (Analyzer.inputMessage s)) eqn:Hg.
    + rewrite (analyzer_send_blank s now net later Hg). exact H.
    + destruct (analyzer_send_log s now net later Hg) as (v & _ & Hl & _).
      cbv zeta in Hl. rewrite Hl. apply Forall_app. split; [exact H|]. authors.
  - destruct Hlog as [->|(m & _ & Hm & ->)]; [exact H|].
    constructor; [right; exact Hm | constructor].
Qed.

(** X11.  The components write no [seller] entry: in every session that
    starts with an empty log, each entry of the log has the type [user] or
    [ai], although the type of an entry allows [seller] too. *)
Theorem no_seller_entries (category : jsstring) (data : TextChat.negotiation)
    (tops : list TextSession.op) (zops : list AnalyzerSession.op) :
  no_seller (TextChat.messages (TextSession.session (TextSession.init category data) tops))
  /\ no_seller (Analyzer.chatMessages
                  (AnalyzerSession.session (AnalyzerSession.init category) zops)).
Proof.
  split.
  - apply (text_session_invariant (fun s => no_seller (TextChat.messages s)));
      [exact text_step_authors | constructor].
  - apply (analyzer_session_invariant (fun s => no_seller (Analyzer.chatMessages s)));
      [exact analyzer_step_authors | constructor].
Qed.

End Invariants.

(* ===================================================================== *)
(** ** More on the send operation *)
(* ===================================================================== *)

Section MoreSend.

Import EffFacts HandlerFacts.



(** X13.  A send empties the input (and, in the text chat, detaches the
    image), so a second send that follows it with nothing typed or attached
    in between changes nothing, whatever the first one met upstream. *)
Theorem second_send_changes_nothing (ts : TextChat.state) (zs : Analyzer.state)
    (t1 t2 l1 l2 : Z) (n1 n2 : http) :
  TextSession.session ts [TextSession.Send t1 n1 l1; TextSession.Send t2 n2 l2]
  = TextSession.step ts (TextSession.Send t1 n1 l1)
  /\ AnalyzerSession.session zs [AnalyzerSession.Send t1 n1 l1; AnalyzerSession.Send t2 n2 l2]
     = AnalyzerSession.step zs (AnalyzerSession.Send t1 n1 l1).
Proof.
  unfold TextSession.session, AnalyzerSession.session. cbn [fold_left]. split.
  - assert (Hg : blank (TextChat.inputMessage (TextSession.step ts (TextSession.Send t1 n1 l1)))
                 && negb (attached (TextChat.uploadedImage
                                      (TextSession.step ts (TextSession.Send t1 n1 l1))))
                 = true).
    { unfold TextSession.step at 1 2. cbn [TextSession.perform].
      destruct (blank (TextChat.inputMessage ts)
                && negb (attached (TextChat.uploadedImage ts))) eqn:Hg.
      - rewrite (text_send_blank ts t1 n1 l1 Hg). exact Hg.
      - destruct (text_send_effect ts t1 n1 l1 Hg) as [E _]. cbv zeta in E.
        rewrite E. destruct ts; reflexivity. }
    unfold TextSession.step at 1. cbn [TextSession.perform].
    rewrite (text_send_blank _ t2 n2 l2 Hg). reflexivity.
  - assert (Hg : blank (Analyzer.inputMessage
                          (AnalyzerSession.step zs (AnalyzerSession.Send t1 n1 l1))) = true).
    { unfold AnalyzerSession.step. cbn [AnalyzerSession.perform].
      destruct (blank (Analyzer.inputMessage zs)) eqn:Hg.
      - rewrite (analyzer_send_blank zs t1 n1 l1 Hg). exact Hg.
      - pose proof (analyzer_send_effect zs t1 n1 l1 Hg) as E. cbv zeta in E.
        rewrite E. destruct zs; reflexivity. }
    unfold AnalyzerSession.step at 1. cbn [AnalyzerSession.perform].
    rewrite (analyzer_send_blank _ t2 n2 l2 Hg). reflexivity.
Qed.

(** X14.  While no request is pending, the send button is disabled exactly
    when the handler would do nothing: the condition of the render and the
    guard of the handler agree, in both components. *)
Theorem send_button_matches_guard (ts : TextChat.state) (zs : Analyzer.state)
    (now : Z) (net : http) (later : Z) :
  TextChat.isLoading ts = false ->
  Analyzer.isLoading zs = false ->
  (TextView.sendDisabled ts = true
   <-> TextChat.handleSendMessage ts now net later = ([], Return tt))
  /\ (AnalyzerView.sendDisabled zs = true
      <-> Analyzer.handleSendMessage zs now net later = ([], Return tt)).
Proof.
  intros Ht Hz. unfold TextView.sendDisabled, AnalyzerView.sendDisabled.
  rewrite Ht, Hz. cbn [orb]. split; split.
  - apply text_send_blank.
  - destruct (blank (TextChat.inputMessage ts)
              && negb (attached (TextChat.uploadedImage ts))) eqn:Hg; [reflexivity|].
    rewrite (text_send_shape ts now net later Hg). cbv zeta. cbn [app]. discriminate.
  - apply analyzer_send_blank.
  - destruct (blank (Analyzer.inputMessage zs)) eqn:Hg; [reflexivity|].
    destruct (analyzer_send_shape zs now net later Hg) as (v & _ & ->).
    cbn [app]. discriminate.
Qed.

Lemma send_button_matches_guard_witness :
  TextView.sendDisabled (text_chat_with [32]) = true
  /\ TextChat.handleSendMessage (text_chat_with [32]) 1000 Rejects 1500 = ([], Return tt)
  /\ AnalyzerView.sendDisabled (analyzed_with (lit "What next?")) = false.
Proof.
  destruct (send_button_matches_guard (text_chat_with [32]) (analyzed_with (lit "What next?"))
              1000 Rejects 1500 eq_refl eq_refl) as [[H _] _].
  split; [reflexivity|]. split; [exact (H eq_refl) | reflexivity].
Defined.

(** X15.  The Enter key does not look at [isLoading].  While a request is
    pending the send button is disabled, yet Enter (without Shift) in the
    text area runs the handler, which has no such check: the user entry is
    appended and a request leaves.  With Shift held, nothing happens. *)
Theorem enter_sends_while_loading (ts : TextChat.state) (zs : Analyzer.state)
    (now : Z) (net : http) (later : Z) :
  TextChat.isLoading ts = true ->
  blank (TextChat.inputMessage ts) = false ->
  Analyzer.isLoading zs = true ->
  blank (Analyzer.inputMessage zs) = false ->
  let tw := trace (TextView.onKeyPress ts (lit "Enter") false now net later) in
  let zw := trace (AnalyzerView.onKeyPress zs (lit "Enter") false now net later) in
  (TextView.sendDisabled ts = true
   /\ network_calls tw = [chat_call ts]
   /\ (exists rest,
         log_after tw (TextChat.messages ts)
         = TextChat.messages ts
           ++ text_user_entry (TextChat.inputMessage ts) (TextChat.uploadedImage ts) now
              :: rest)
   /\ TextView.onKeyPress ts (lit "Enter") true now net later = ([], Return tt))
  /\ (AnalyzerView.sendDisabled zs = true
      /\ (exists rest,
            log_after zw (Analyzer.chatMessages zs)
            = Analyzer.chatMessages zs
              ++ analyzer_user_entry (Analyzer.inputMessage zs) (Analyzer.isRecording zs) now
                 :: rest)
      /\ AnalyzerView.onKeyPress zs (lit "Enter") true now net later = ([], Return tt)).
Proof.
  intros Htl Htb Hzl Hzb tw zw. subst tw zw.
  unfold TextView.sendDisabled, AnalyzerView.sendDisabled.
  rewrite Htl, Hzl.
  assert (Hg : blank (TextChat.inputMessage ts)
               && negb (attached (TextChat.uploadedImage ts)) = false)
    by (rewrite Htb; reflexivity).
  change (TextView.onKeyPress ts (lit "Enter") false now net later)
    with (TextChat.handleSendMessage ts now net later).
  change (AnalyzerView.onKeyPress zs (lit "Enter") false now net later)
    with (Analyzer.handleSendMessage zs now net later).
  split; (split; [reflexivity|]).
  - split; [apply (text_send_effect ts now net later Hg)|].
    split; [|reflexivity].
    pose proof (text_send_log ts now net later Hg) as Hl. cbv zeta in Hl.
    destruct (outcome _); destruct Hl as [-> _]; eexists; reflexivity.
  - split; [|reflexivity].
    destruct (analyzer_send_log zs now net later Hzb) as (v & _ & Hl & _).
    cbv zeta in Hl. rewrite Hl. eexists. reflexivity.
Qed.

Lemma enter_sends_while_loading_witness :
  TextView.sendDisabled pending = true
  /\ network_calls (trace (TextView.onKeyPress pending (lit "Enter") false 1000 Rejects 1500))
     = [chat_call pending]
  /\ AnalyzerView.sendDisabled asking = true.
Proof.
  destruct (enter_sends_while_loading pending asking 1000 Rejects 1500
              eq_refl eq_refl eq_refl eq_refl) as [(H1 & H2 & _) (H3 & _)].
  split; [exact H1|]. split; [exact H2 | exact H3].
Defined.

(** X16.  The [isAudio] flag of a user entry of the follow-up chat is the
    state of the recording when the send starts.  So the text that the voice
    button produces is not flagged: stopping the recording lowers
    [isRecording] before the timer fills the input.  A typed message sent
    while a recording is on is flagged. *)
Theorem voice_message_not_flagged (s : Analyzer.state) (now : Z) (net : http) (later : Z) :
  Analyzer.isRecording s = true ->
  (exists v,
     Analyzer.chatMessages
       (AnalyzerSession.session s
          [AnalyzerSession.Voice; AnalyzerSession.VoiceTimer;
           AnalyzerSession.Send now net later])
     = Analyzer.chatMessages s
       ++ [analyzer_user_entry analyzer_voice_text false now; ai_entry v later])
  /\ (blank (Analyzer.inputMessage s) = false ->
      exists v,
        Analyzer.chatMessages (AnalyzerSession.step s (AnalyzerSession.Send now net later))
        = Analyzer.chatMessages s
          ++ [analyzer_user_entry (Analyzer.inputMessage s) true now; ai_entry v later]).
Proof.
  intros Hrec. split.
  - unfold AnalyzerSession.session. cbn [fold_left].
    assert (E : AnalyzerSession.step (AnalyzerSession.step s AnalyzerSession.Voice)
                  AnalyzerSession.VoiceTimer
                = Analyzer.run [SetIsRecording false; SetInputMessage analyzer_voice_text] s).
    { unfold AnalyzerSession.step. cbn [AnalyzerSession.perform].
      unfold Analyzer.handleVoiceRecording. rewrite Hrec. destruct s; reflexivity. }
    rewrite E. clear E. destruct s as [c u a r d log i rec l].
    unfold AnalyzerSession.step. rewrite analyzer_run_log. cbn [AnalyzerSession.perform].
    destruct (analyzer_send_log
                (Analyzer.run [SetIsRecording false; SetInputMessage analyzer_voice_text]
                   (Analyzer.Build_state c u a r d log i rec l))
                now net later eq_refl) as (v & _ & Hl & _).
    exists v. exact Hl.
  - intros Hb. unfold AnalyzerSession.step. rewrite analyzer_run_log.
    cbn [AnalyzerSession.perform].
    destruct (analyzer_send_log s now net later Hb) as (v & _ & Hl & _).
    cbv zeta in Hl. rewrite Hrec in Hl. exists v. exact Hl.
Qed.

Lemma voice_message_not_flagged_witness :
  Analyzer.isRecording recording = true
  /\ isAudio <$> Analyzer.chatMessages
                   (AnalyzerSession.session recording
                      [AnalyzerSession.Voice; AnalyzerSession.VoiceTimer;
                       AnalyzerSession.Send 1000 Rejects 1500])
     = [Some false; None].
Proof.
  split; [reflexivity|].
  destruct (voice_message_not_flagged recording 1000 Rejects 1500 eq_refl)
    as [[v E] _].
  rewrite E. reflexivity.
Defined.



End MoreSend.

(* ===================================================================== *)
(** ** The upload of the text chat *)
(* ===================================================================== *)

Section TextUpload.

Import EffFacts HandlerFacts.





(** X18.  The status of the vision reply is not looked at.  Whatever the
    status, when the body is a JSON object without [responses] (as the error
    bodies of the service are), the upload reports success: the log gains an
    assistant entry that says that no text was found, and the notification
    is [Image Analyzed]. *)
Theorem vision_error_body_accepted (s : TextChat.state) (f : file) (status : Z)
    (body : jsstring) (props : list (jsstring * jsval)) (now : Z) :
  JSON_parse body = Return (JObj props) ->
  lookup_prop (lit "responses") props = None ->
  let w := trace (TextChat.handleImageUpload s (Some f) (Responds status body) now) in
  let s' := TextSession.step s (TextSession.Upload (Some f) (Responds status body) now) in
  toasts w = [image_analyzed_toast]
  /\ TextChat.messages s'
     = TextChat.messages s ++ [vision_entry (JStr (lit "No text found in image.")) now].
Proof.
  intros Hparse Hnone w s'. subst w s'.
  unfold TextSession.step. cbn [TextSession.perform].
  rewrite text_upload_cases.
  assert (E : vision_text (Responds status body)
              = Return (JStr (lit "No text found in image."))).
  { unfold vision_text. rewrite Hparse.
    unfold TextChat.annotation_text, get. rewrite Hnone. reflexivity. }
  rewrite E. destruct s; split; reflexivity.
Qed.

Lemma vision_error_body_accepted_witness :
  toasts (trace (TextChat.handleImageUpload (text_chat_with []) (Some big_png)
                   vision_refusal 1000))
  = [image_analyzed_toast].
Proof.
  exact (proj1 (vision_error_body_accepted (text_chat_with []) big_png 403
                  (json_lit "{'error': {'code': 403, 'status': 'PERMISSION_DENIED'}}")
                  [ (lit "error", JObj [ (lit "code", JNum (lit "403"));
                                         (lit "status", JStr (lit "PERMISSION_DENIED")) ]) ]
                  1000 eq_refl eq_refl)).
Defined.

Lemma startsWith_app (p r : jsstring) : startsWith p (p ++ r) = true.
Proof.
  induction p as [|c p IH]; [reflexivity|].
  cbn [app startsWith]. rewrite N.eqb_refl. exact IH.
Qed.

(** X19.  When the vision call throws (the transport fails, the body is
    not JSON or is [null], or the text found does not convert to a string),
    there is one notification: it is destructive, its title is [Analysis
    Failed] and its description opens with [Something went wrong: ], which
    the message of the error follows.  The log is as before, and the image
    stays attached, so that the send button is enabled with an empty
    input. *)
Theorem vision_failure_keeps_image (s : TextChat.state) (f : file) (net : http)
    (e : exn) (now : Z) :
  vision_text net = Throw e ->
  attached (Some (dataURL f)) = true ->
  let w := trace (TextChat.handleImageUpload s (Some f) net now) in
  let s' := TextSession.step s (TextSession.Upload (Some f) net now) in
  (exists t,
     toasts w = [t]
     /\ title t = lit "Analysis Failed"
     /\ variant t = Some destructive
     /\ startsWith (lit "Something went wrong: ") (description t) = true)
  /\ TextChat.messages s' = TextChat.messages s
  /\ TextChat.uploadedImage s' = Some (dataURL f)
  /\ TextChat.isLoading s' = false
  /\ TextView.sendDisabled s' = false.
Proof.
  intros Hv Hf w s'. subst w s'.
  unfold TextSession.step, TextView.sendDisabled. cbn [TextSession.perform].
  rewrite text_upload_cases, Hv.
  split.
  - exists (vision_failed_toast e). split; [reflexivity|]. split; [reflexivity|].
    split; [reflexivity|]. apply startsWith_app.
  - destruct s; repeat split. cbn. cbn in Hf. rewrite Hf. apply andb_false_r.
Qed.

Lemma vision_failure_keeps_image_witness :
  vision_text (Responds 200 (lit "null")) = Throw TypeError
  /\ TextChat.uploadedImage
       (TextSession.step (text_chat_with []) (TextSession.Upload (Some big_png)
                                                 (Responds 200 (lit "null")) 1000))
     = Some (dataURL big_png).
Proof.
  split; [reflexivity|].
  destruct (vision_failure_keeps_image (text_chat_with []) big_png
              (Responds 200 (lit "null")) TypeError 1000 eq_refl eq_refl)
    as (_ & _ & E & _).
  exact E.
Defined.

End TextUpload.

(* ===================================================================== *)
(** ** The follow-up chat and the stored result *)
(* ===================================================================== *)

Section FollowUp.

Import JSFacts EffFacts HandlerFacts.

(** The conversion of an array is that of its elements, joined. *)
Lemma ToString_array (items : list jsval) :
  ToString (JArr items)
  = match element_strings items with
    | Return ss => Return (join_with (lit ",") ss)
    | Throw e => Throw e
    end.
Proof.
  cbn [ToString].
  match goal with
  | |- match ?f items with _ => _ end = _ =>
      assert (E : forall l, f l = element_strings l)
  end.
  { induction l as [|x r IH]; [reflexivity|].
    cbn [element_strings]. rewrite <- IH. reflexivity. }
  rewrite E. reflexivity.
Qed.

(** A conversion that throws throws a [TypeError]. *)
Lemma ToString_throws (v : jsval) (e : exn) : ToString v = Throw e -> e = TypeError.
Proof.
  revert e.
  induction v as [| |b|l|s|items IH|props IH] using jsval_nested_ind; intros e;
    try discriminate.
  - destruct b; discriminate.
  - rewrite ToString_array.
    assert (H : forall e, element_strings items = Throw e -> e = TypeError).
    { induction IH as [|x r Hx Hr IHr]; intros e'; [discriminate|].
      cbn [element_strings].
      destruct (match x with JUndefined | JNull => Return [] | _ => ToString x end)
        as [sx|ex] eqn:Ex.
      - destruct (element_strings r) as [ss|er]; [discriminate|].
        intros H. injection H as <-. apply IHr. reflexivity.
      - intros H. injection H as <-.
        destruct x; try discriminate; apply Hx; exact Ex. }
    destruct (element_strings items) as [ss|e'] eqn:Ei; [discriminate|].
    intros H'. injection H' as <-. apply H. reflexivity.
  - cbn [ToString]. destruct (lookup_prop _ props); [|discriminate].
    intros H. injection H as <-. reflexivity.
Qed.

Lemma get_opt_field (v : jsval) (name : string) : get_opt v name = Return (field v name).
Proof.
  destruct v as [| |b|l|s|items|props]; try reflexivity. apply get_field.
Qed.

(** The strings that [join] puts together are those of the elements. *)
Lemma element_strings_texts (items : list jsval) (ss : list jsstring) :
  element_strings items = Return ss -> ss = element_text <$> items.
Proof.
  revert ss. induction items as [|x r IH]; intros ss.
  - intros H. injection H as <-. reflexivity.
  - cbn [element_strings].
    destruct (match x with JUndefined | JNull => Return [] | _ => ToString x end)
      as [sx|ex] eqn:Ex; [|discriminate].
    destruct (element_strings r) as [sr|er]; [|discriminate].
    intros H. injection H as <-. rewrite (IH sr eq_refl).
    change (element_text <$> x :: r) with (element_text x :: (element_text <$> r)).
    f_equal. unfold element_text, text_of.
    destruct x; try (rewrite Ex; reflexivity); injection Ex as <-; reflexivity.
Qed.

(** The steps of the system turn, from the left: a read, a conversion,
    a [join]. *)
Ltac read_step := rewrite bind_lift, ?get_field, ?get_opt_field; cbv beta iota.

Ltac conversion_step :=
  match goal with
  | |- context [bind (lift (ToString ?x)) _] =>
      let E := fresh "E" in
      destruct (ToString x) as [?s|?e] eqn:E;
      [ rewrite bind_lift; cbv beta iota; cbn [andb]
      | cbn [andb]; rewrite bind_lift; apply ToString_throws in E; subst; reflexivity ]
  end.

Ltac join_step :=
  match goal with
  | |- context [bind (lift (join ?x _)) _] =>
      let E := fresh "E" in
      let Hj := fresh "Hj" in
      destruct x as [| |?b|?l|?s|?items|?ps];
      cbn [is_array andb join];
      try (rewrite bind_lift; reflexivity);
      rewrite ToString_array;
      match goal with
      | |- context [element_strings ?l] =>
          pose proof (ToString_array l) as E;
          destruct (element_strings l) as [?ss|?e] eqn:Hj;
          [ rewrite bind_lift; cbv beta iota; cbn [andb]; clear E;
            apply element_strings_texts in Hj; subst
          | cbn [andb]; rewrite bind_lift; apply ToString_throws in E; subst; reflexivity ]
      end
  end.

(** The system turn is built from an object exactly when [prompt_builds]
    holds of it, and is then the text of lines 750-762; when it cannot be
    built, a [TypeError] is thrown. *)
Lemma context_prompt_object (category : jsstring) (props : list (jsstring * jsval)) :
  let r := JObj props in
  Analyzer.context_prompt category r
  = ([], if prompt_builds r then Return (system_turn category r) else Throw TypeError).
Proof.
  cbv zeta.
  unfold prompt_builds, converts, Analyzer.context_prompt, system_turn, text_of, joined.
  read_step. conversion_step.
  read_step. join_step.
  read_step. conversion_step.
  read_step. conversion_step.
  read_step. read_step. conversion_step.
  read_step. read_step. conversion_step.
  read_step. conversion_step.
  read_step. join_step.
  reflexivity.
Qed.







(** The values of a result that is far from the shape [AnalysisResult] are
    printed as JavaScript prints them. *)
Example follow_up_prints_values :
  let r := JObj [ (lit "sentiment", JNum (lit "1.50"));
                  (lit "keyPoints", JArr [JNull; JNum (lit "1e3"); JStr (lit "firm")]);
                  (lit "sellerMotivation", JArr [JNum (lit "1"); JArr [JNum (lit "2")]]);
                  (lit "urgencyLevel", JBool true);
                  (lit "priceAnalysis",
                   JObj [ (lit "mentionedPrice", JNum (lit "1e-400"));
                          (lit "priceFlexibility", JNum (lit "0.50")) ]);
                  (lit "suggestedResponse", JObj []);
                  (lit "negotiationTips", JArr []) ] in
  prompt_builds r = true
  /\ is_AnalysisResult r = false
  /\ outcome (Analyzer.context_prompt (lit "cars") r)
     = Return (lit "You are a professional negotiation assistant specializing in cars transactions. "
               ++ [10; 10]
               ++ lit "Based on the Gemini 2.5 Pro image analysis results:" ++ [10]
               ++ lit "- Sentiment: 1.5" ++ [10]
               ++ lit "- Key Points: , 1000, firm" ++ [10]
               ++ lit "- Seller Motivation: 1,2" ++ [10]
               ++ lit "- Urgency Level: true" ++ [10]
               ++ lit "- Price Flexibility: 0.5" ++ [10]
               ++ lit "- Mentioned Price: none mentioned" ++ [10]
               ++ lit "- Suggested Response: [object Object]" ++ [10]
               ++ lit "- Negotiation Tips: " ++ [10; 10]
               ++ lit "Use this analysis to provide specific, actionable negotiation advice.").
Proof. cbv zeta. repeat split; vm_compute; reflexivity. Qed.

(** A result whose [urgencyLevel] has a [toString] of its own: the arrays
    are there, and yet no request leaves. *)
Example unprintable_urgency_no_request :
  let r := JObj [ (lit "keyPoints", JArr []);
                  (lit "negotiationTips", JArr []);
                  (lit "urgencyLevel", JObj [ (lit "toString", JNum (lit "1")) ]) ] in
  prompt_builds r = false
  /\ Analyzer.generateContextualResponse (lit "cars") (lit "What next?") r
       (reply_with "Offer 200.")
     = ([ConsoleError (lit "GPT-4 API error:") TypeError], Return (JStr Analyzer.apology)).
Proof. cbv zeta. split; vm_compute; reflexivity. Qed.

(** X21.  After an analysis has stored an object that lacks one of the two
    arrays (X5 shows how), every question sent in the chat is answered with
    the apology, without a request and without a notification. *)
Theorem partial_result_silences_chat (s : Analyzer.state)
    (props : list (jsstring * jsval)) (now : Z) (net : http) (later : Z) :
  Analyzer.analysisResult s = JObj props ->
  is_array (field (JObj props) "keyPoints")
  && is_array (field (JObj props) "negotiationTips") = false ->
  blank (Analyzer.inputMessage s) = false ->
  let w := trace (Analyzer.handleSendMessage s now net later) in
  network_calls w = []
  /\ toasts w = []
  /\ log_after w (Analyzer.chatMessages s)
     = Analyzer.chatMessages s
       ++ [analyzer_user_entry (Analyzer.inputMessage s) (Analyzer.isRecording s) now;
           ai_entry (JStr (lit "I'm having trouble connecting to my analysis system. Please try again."))
             later].
Proof.
  intros Hr Harr Hb w. subst w.
  destruct (analyzer_send_shape s now net later Hb) as (v & Hv & ->).
  pose proof (context_prompt_object (Analyzer.selectedCategory s) props) as Hp.
  cbv zeta in Hp.
  assert (Hno : prompt_builds (JObj props) = false).
  { unfold prompt_builds. apply andb_false_iff in Harr as [H|H]; rewrite H.
    - rewrite andb_false_r. reflexivity.
    - rewrite !andb_false_r. reflexivity. }
  rewrite Hno in Hp.
  revert Hv. rewrite Hr, generateContextualResponse_cases. cbv zeta.
  change (negb (truthy (JObj props))) with false. cbv iota.
  rewrite Hp. cbn [outcome snd]. intros Hv. injection Hv as <-.
  repeat split. cbn [trace fst app log_after]. rewrite <- app_assoc. reflexivity.
Qed.

Lemma partial_result_silences_chat_witness :
  let s := AnalyzerSession.step half_analyzed (AnalyzerSession.Type_ (lit "What next?")) in
  Analyzer.analysisResult s = JObj [ (lit "sentiment", JStr (lit "angry")) ]
  /\ network_calls (trace (Analyzer.handleSendMessage s 2000 (reply_with "Offer 200.") 2500))
     = [].
Proof.
  cbv zeta. split; [reflexivity|].
  destruct (partial_result_silences_chat
              (AnalyzerSession.step half_analyzed (AnalyzerSession.Type_ (lit "What next?")))
              [ (lit "sentiment", JStr (lit "angry")) ]
              2000 (reply_with "Offer 200.") 2500 eq_refl eq_refl eq_refl)
    as (H & _).
  exact H.
Defined.

End FollowUp.

(* ===================================================================== *)
(** ** The render *)
(* ===================================================================== *)

Section Render.

Lemma jsstring_eqb_eq (s t : jsstring) : jsstring_eqb s t = true <-> s = t.
Proof.
  revert t. induction s as [|a s IH]; intros [|b t]; cbn [jsstring_eqb];
    try (split; [discriminate | congruence]); [split; reflexivity|].
  rewrite andb_true_iff, N.eqb_eq, IH.
  split; [intros [-> ->]; reflexivity | intros H; injection H; auto].
Qed.

Lemma strictly_iff (v : jsval) (s : string) : strictly v s = true <-> v = JStr (lit s).
Proof.
  unfold strictly. destruct v as [| |b|l|t|items|props];
    try (split; [discriminate | congruence]).
  rewrite jsstring_eqb_eq. split; [intros ->; reflexivity | congruence].
Qed.

Lemma strictly_not (v : jsval) (s : string) : strictly v s = false -> v <> JStr (lit s).
Proof.
  intros H E. apply strictly_iff in E. congruence.
Qed.

(** One side of an equivalence between a style and the value it is given
    to, once the tests of the switch are decided. *)
Ltac decided :=
  try (intros [? ?]);
  try intros ?;
  try match goal with |- _ <> _ => intros ? end;
  first [ reflexivity
        | assumption
        | contradiction
        | congruence
        | match goal with
          | H : _ = _ |- _ => vm_compute in H; discriminate H
          end
        | match goal with
          | H : ?a <> ?a |- _ => exfalso; apply H; reflexivity
          end ].

(** X22.  The three style functions, lines 805-827, choose by strict
    equality with two strings each.  The positive and negative styles (and
    icons) go to exactly the values ['positive'] and ['negative'], the high
    and medium styles to exactly ['high'] and ['medium']; every other value
    (another spelling or case, a missing field, a value that is not a
    string) gets the default: the yellow style and the third icon for the
    sentiment, the green style for the urgency. *)
Theorem styles_by_strict_equality (v : jsval) :
  ((AnalyzerView.getSentimentColor v = lit "text-green-600 bg-green-50 border-green-200"
    <-> v = JStr (lit "positive"))
   /\ (AnalyzerView.getSentimentColor v = lit "text-red-600 bg-red-50 border-red-200"
       <-> v = JStr (lit "negative"))
   /\ (AnalyzerView.getSentimentColor v = lit "text-yellow-600 bg-yellow-50 border-yellow-200"
       <-> v <> JStr (lit "positive") /\ v <> JStr (lit "negative")))
  /\ ((AnalyzerView.getSentimentIcon v = [240; 376; 732; 352] <-> v = JStr (lit "positive"))
      /\ (AnalyzerView.getSentimentIcon v = [240; 376; 732; 376]
          <-> v = JStr (lit "negative"))
      /\ (AnalyzerView.getSentimentIcon v = [240; 376; 732]
          <-> v <> JStr (lit "positive") /\ v <> JStr (lit "negative")))
  /\ ((AnalyzerView.getUrgencyColor v = lit "text-red-600 bg-red-50 border-red-200"
       <-> v = JStr (lit "high"))
      /\ (AnalyzerView.getUrgencyColor v = lit "text-orange-600 bg-orange-50 border-orange-200"
          <-> v = JStr (lit "medium"))
      /\ (AnalyzerView.getUrgencyColor v = lit "text-green-600 bg-green-50 border-green-200"
          <-> v <> JStr (lit "high") /\ v <> JStr (lit "medium"))).
Proof.
  unfold AnalyzerView.getSentimentColor, AnalyzerView.getSentimentIcon,
    AnalyzerView.getUrgencyColor.
  repeat match goal with
         | |- context [strictly v ?s] =>
             let E := fresh "E" in
             destruct (strictly v s) eqn:E;
             [apply strictly_iff in E; subst v | apply strictly_not in E]
         end;
    repeat split; decided.
Qed.

Lemma has_cons_false (c x : N) (s : jsstring) :
  has c (x :: s) = false -> (x =? c) = false /\ has c s = false.
Proof.
  cbn [has existsb]. fold (has c s). rewrite (N.eqb_sym c x). apply orb_false_iff.
Qed.

(** X23.  The caption of the category, line 914, shows the first hyphen of
    the category as a space and leaves every later hyphen as it is:
    [replace] with a pattern that is a string replaces once. *)
Theorem caption_replaces_first_hyphen (pre post : jsstring) :
  has 45 pre = false ->
  AnalyzerView.replace_hyphen (pre ++ 45 :: post) = pre ++ 32 :: post
  /\ AnalyzerView.category_caption (pre ++ 45 :: post)
     = Some (lit "Analysis will be optimized for " ++ (pre ++ 32 :: post)
             ++ lit " conversations").
Proof.
  intros Hpre.
  assert (E : AnalyzerView.replace_hyphen (pre ++ 45 :: post) = pre ++ 32 :: post).
  { induction pre as [|c r IH]; [reflexivity|].
    apply has_cons_false in Hpre as [Hc Hr].
    cbn [app AnalyzerView.replace_hyphen]. unfold chr.
    change (N_of_ascii "-") with 45. rewrite Hc, (IH Hr). reflexivity. }
  split; [exact E|].
  unfold AnalyzerView.category_caption. rewrite E.
  destruct pre; reflexivity.
Qed.

Lemma caption_replaces_first_hyphen_witness :
  AnalyzerView.replace_hyphen (lit "real-estate-deals") = lit "real estate-deals".
Proof.
  exact (proj1 (caption_replaces_first_hyphen (lit "real") (lit "estate-deals") eq_refl)).
Defined.

End Render.

(* ===================================================================== *)
(** ** One operation at a time *)
(* ===================================================================== *)

Section Operations.

Import EffFacts HandlerFacts.

Ltac at_most_one := first [exact (le_n 1) | exact (le_S 0 0 (le_n 0))].

(** X25.  No operation of either component makes more than one request or
    raises more than one notification, whatever the state and whatever the
    network does. *)
Theorem one_call_one_toast_per_operation (ts : TextChat.state) (top : TextSession.op)
    (zs : Analyzer.state) (zop : AnalyzerSession.op) :
  let tw := trace (TextSession.perform ts top) in
  let zw := trace (AnalyzerSession.perform zs zop) in
  ((length (network_calls tw) <= 1)%nat /\ (length (toasts tw) <= 1)%nat)
  /\ ((length (network_calls zw) <= 1)%nat /\ (length (toasts zw) <= 1)%nat).
Proof.
  cbv zeta. split.
  - destruct top as [text|now net later| | |f net now|]; cbn [TextSession.perform].
    + split; at_most_one.
    + destruct (blank (TextChat.inputMessage ts)
                && negb (attached (TextChat.uploadedImage ts))) eqn:Hg.
      * rewrite (text_send_blank ts now net later Hg). split; at_most_one.
      * rewrite (text_send_shape ts now net later Hg). cbv zeta.
        rewrite generateAIResponse_cases. cbv zeta.
        destruct net as [|status body]; [|destruct (ok _); [destruct (completion body)|]];
          split; at_most_one.
    + unfold TextChat.handleVoiceRecording. destruct (TextChat.isRecording ts);
        split; at_most_one.
    + split; at_most_one.
    + destruct f as [f|]; [|split; at_most_one].
      rewrite text_upload_cases. destruct (vision_text net); split; at_most_one.
    + split; at_most_one.
  - destruct zop as [text|now net later| | |f|e|f|net now]; cbn [AnalyzerSession.perform].
    + split; at_most_one.
    + destruct (blank (Analyzer.inputMessage zs)) eqn:Hg.
      * rewrite (analyzer_send_blank zs now net later Hg). split; at_most_one.
      * destruct (analyzer_send_shape zs now net later Hg) as (v & _ & ->).
        rewrite generateContextualResponse_cases. cbv zeta.
        destruct (negb (truthy _));
          [|destruct (outcome (Analyzer.context_prompt _ _));
            [destruct net as [|status body];
             [|destruct (ok _); [destruct (completion body)|]]|]];
          split; at_most_one.
    + unfold Analyzer.handleVoiceRecording. destruct (Analyzer.isRecording zs);
        split; at_most_one.
    + split; at_most_one.
    + unfold Analyzer.handleFileSelect, Analyzer.handleImageUpload.
      destruct f as [f|]; [|split; at_most_one].
      destruct (Analyzer.size_ceiling <? size f); [split; at_most_one|].
      destruct (negb _); split; at_most_one.
    + destruct e; split; at_most_one.
    + unfold Analyzer.handleDrop, Analyzer.handleImageUpload.
      destruct f as [f|]; [|split; at_most_one].
      destruct (Analyzer.size_ceiling <? size f); [split; at_most_one|].
      destruct (negb _); split; at_most_one.
    + destruct (analysis_ready zs) eqn:Hr.
      * rewrite (analyze_cases zs net now Hr).
        destruct net as [|status body];
          [|destruct (ok _);
            [destruct (completion _) as [analysisText|?];
             [destruct (outcome (Analyzer.extract _ _)) as [result|?];
              [destruct (Analyzer.motivation_lower _);
               [destruct (ToString (field _ "sentiment"))|]|]|]|]];
          split; at_most_one.
      * rewrite (analyze_not_ready zs net now Hr). split; at_most_one.
Qed.



(** X27.  An upload that the analyzer accepts (a type that starts with
    [image/] and a size up to the ceiling, the ceiling included) attaches
    the image with a plain notification and without a request; the stored
    result and the chat log stay, so that they refer to the screenshot
    before until the analysis is run again. *)
Theorem accepted_upload_keeps_analysis (s : Analyzer.state) (f : file) :
  size f <= Analyzer.size_ceiling ->
  startsWith (lit "image/") (mime f) = true ->
  let w := trace (Analyzer.handleFileSelect (Some f)) in
  let s' := AnalyzerSession.step s (AnalyzerSession.Upload (Some f)) in
  Analyzer.uploadedImage s' = Some (dataURL f)
  /\ Analyzer.analysisResult s' = Analyzer.analysisResult s
  /\ Analyzer.chatMessages s' = Analyzer.chatMessages s
  /\ network_calls w = []
  /\ (exists t, toasts w = [t] /\ is_error_toast t = false)
  /\ AnalyzerSession.step s (AnalyzerSession.Drop (Some f))
     = Analyzer.run [SetDragActive false] s'.
Proof.
  intros Hsize Htype w s'. subst w s'.
  unfold AnalyzerSession.step. cbn [AnalyzerSession.perform].
  unfold Analyzer.handleDrop, Analyzer.handleFileSelect, Analyzer.handleImageUpload.
  apply N.ltb_ge in Hsize. rewrite Hsize, Htype. cbn [negb].
  destruct s; repeat split. eexists. split; reflexivity.
Qed.

Lemma accepted_upload_keeps_analysis_witness :
  let f := {| size := 10 * 1024 * 1024; mime := lit "image/jpeg";
              dataURL := lit "data:image/jpeg;base64,/9j/4AAQ" |} in
  Analyzer.analysisResult
    (AnalyzerSession.step (analyzed_with []) (AnalyzerSession.Upload (Some f)))
  = Analyzer.analysisResult (analyzed_with []).
Proof.
  cbv zeta.
  destruct (accepted_upload_keeps_analysis (analyzed_with [])
              {| size := 10 * 1024 * 1024; mime := lit "image/jpeg";
                 dataURL := lit "data:image/jpeg;base64,/9j/4AAQ" |}
              ltac:(vm_compute; discriminate) eq_refl) as (_ & E & _).
  exact E.
Defined.

End Operations.
